(** * LuminateSPS property-site generator: publisher and form server

    A shallow embedding of [generator/src/github.js] (class
    [GitHubPublisher]) and of the Express handlers of the generator's
    server, with the properties of the commit publisher, the site
    lister/deleter and the request validation proved over it.

    Asynchronous code is embedded in a small free monad [Prog]: every
    [await] of a hosting-API or file-system call is a node carrying the
    request, a rejected promise is [Throw], and [try]/[catch] is a
    function on programs.  A program is run against an arbitrary handler
    (how the outside world answers each request), which yields the
    result, the final state of the world and the log of the requests that
    were issued.

    Embedded: [uploadMultipleFiles], [publishPropertySite],
    [listPropertySites], [deletePropertySite] and the handlers of
    POST /api/generate, GET /api/properties and DELETE /api/properties/:slug.
    Logging with [console.error] has no effect on what is proved and is
    left as a comment where it occurs. *)

From Stdlib Require Import QArith Ascii String.
From stdpp Require Import gmap strings list fin_maps pretty.

Set Warnings "-register-all".
Close Scope Q_scope.
Open Scope string_scope.
Open Scope list_scope.

(** ** JavaScript values

    Request bodies and response payloads are JSON.  Numbers are kept as
    rationals: the handlers only test them for truthiness. *)

Inductive JSValue : Type :=
| JUndefined
| JNull
| JBool (b : bool)
| JNum (q : Q)
| JStr (s : string)
| JArr (xs : list JSValue)
| JObj (fields : list (string * JSValue)).

(** [!!v] of JavaScript: [undefined], [null], [false], [0] and the empty
    string are falsy. *)
Definition truthy (v : JSValue) : bool :=
  match v with
  | JUndefined | JNull => false
  | JBool b => b
  | JNum q => negb (Qeq_bool q 0)
  | JStr s => negb (String.eqb s "")
  | JArr _ | JObj _ => true
  end.

Fixpoint assoc (k : string) (fields : list (string * JSValue)) : JSValue :=
  match fields with
  | [] => JUndefined
  | (k', v) :: rest => if String.eqb k k' then v else assoc k rest
  end.

(** [value?.[part]]: a property read that answers [undefined] on
    [undefined] and [null].  The property names read by the handlers
    (address, name, url, ...) exist on no JSON primitive or array, so only
    objects answer. *)
Definition get (v : JSValue) (part : string) : JSValue :=
  match v with
  | JObj fields => assoc part fields
  | _ => JUndefined
  end.

Definition isArray (v : JSValue) : bool :=
  match v with JArr _ => true | _ => false end.

(** ** Errors, hosting-API data and requests *)

(** A JavaScript error object: its [message] and, for a failed HTTP
    request of the hosting client, the response [status]. *)
Record JSError : Type := mkError { message : string; status : option nat }.

Definition TypeError (msg : string) : JSError := mkError msg None.

(** Object ids of the hosting API are opaque tokens. *)
Abbreviation Sha := nat (only parsing).

Record TreeEntry : Type := mkEntry
  { te_path : string; te_mode : string; te_type : string; te_sha : Sha }.

Record GitCommit : Type := mkCommit
  { c_sha : Sha; c_tree : Sha; c_parents : list Sha; c_message : string }.

Record ContentItem : Type := mkItem
  { i_name : string; i_path : string; i_sha : Sha; i_type : string }.

(** [data] of a contents read: an array for a directory, one object for a
    file. *)
Inductive Content : Type :=
| ContentDir (items : list ContentItem)
| ContentFile (item : ContentItem).

(** The calls the code awaits.  Every hosting call also carries the
    publisher's [owner] and [repo], which never change and are left out. *)
Inductive Request : Type :=
| GitGetRef (ref : string)
| GitGetCommit (commit_sha : Sha)
| GitCreateBlob (content encoding : string)
| GitCreateTree (base_tree : Sha) (tree : list TreeEntry)
| GitCreateCommit (msg : string) (tree : Sha) (parents : list Sha)
| GitUpdateRef (ref : string) (sha : Sha)
| ReposGetContent (path ref : string)
| ReposDeleteFile (path msg : string) (sha : Sha) (branch : string)
| FsReadFile (path : string)
| FsUnlink (path : string).

(** What a fulfilled call resolves to: [refData.object.sha],
    [commitData], [blobData.sha], [treeData.sha], [newCommitData], the
    contents [data], a file's bytes. *)
Definition Reply (r : Request) : Type :=
  match r with
  | GitGetRef _ => Sha
  | GitGetCommit _ => GitCommit
  | GitCreateBlob _ _ => Sha
  | GitCreateTree _ _ => Sha
  | GitCreateCommit _ _ _ => GitCommit
  | GitUpdateRef _ _ => unit
  | ReposGetContent _ _ => Content
  | ReposDeleteFile _ _ _ _ => unit
  | FsReadFile _ => string
  | FsUnlink _ => unit
  end.

Definition is_hosting_call (r : Request) : bool :=
  match r with
  | FsReadFile _ | FsUnlink _ => false
  | _ => true
  end.

Definition is_update_ref (r : Request) : bool :=
  match r with GitUpdateRef _ _ => true | _ => false end.

Definition is_removal (r : Request) : bool :=
  match r with ReposDeleteFile _ _ _ _ | FsUnlink _ => true | _ => false end.

(** ** Programs *)

Inductive Prog (A : Type) : Type :=
| Ret (a : A)
| Throw (e : JSError)
| Await (r : Request) (k : JSError + Reply r -> Prog A).

Arguments Ret {A} a.
Arguments Throw {A} e.
Arguments Await {A} r k.

Fixpoint bind {A B} (p : Prog A) (f : A -> Prog B) : Prog B :=
  match p with
  | Ret a => f a
  | Throw e => Throw e
  | Await r k => Await r (fun x => bind (k x) f)
  end.

Notation "x <- p ;; q" := (bind p (fun x => q))
  (at level 100, p at next level, right associativity).

(** [try { p } catch (e) { handler e }] *)
Fixpoint try_catch {A} (p : Prog A) (handler : JSError -> Prog A) : Prog A :=
  match p with
  | Ret a => Ret a
  | Throw e => handler e
  | Await r k => Await r (fun x => try_catch (k x) handler)
  end.

(** [await call]: a rejected promise throws at the [await]. *)
Definition await (r : Request) : Prog (Reply r) :=
  Await r (fun x => match x with inl e => Throw e | inr v => Ret v end).

(** [Promise.all(ps)] over async functions that each await one call: the
    calls are all issued when the array is mapped, whatever their outcome
    is; the combined promise then rejects with a rejection if there is one
    (here the first in array order) and otherwise fulfils with all the
    values in array order. *)
Definition settle {A} (p : Prog A) : Prog (JSError + A) :=
  try_catch (a <- p ;; Ret (inr a)) (fun e => Ret (inl e)).

Fixpoint all_settled {A} (ps : list (Prog A)) : Prog (list (JSError + A)) :=
  match ps with
  | [] => Ret []
  | p :: ps' => x <- settle p ;; xs <- all_settled ps' ;; Ret (x :: xs)
  end.

Fixpoint collect {A} (xs : list (JSError + A)) : JSError + list A :=
  match xs with
  | [] => inr []
  | inl e :: _ => inl e
  | inr a :: xs' =>
      match collect xs' with
      | inl e => inl e
      | inr l => inr (a :: l)
      end
  end.

Definition promise_all {A} (ps : list (Prog A)) : Prog (list A) :=
  xs <- all_settled ps ;;
  match collect xs with
  | inl e => Throw e
  | inr l => Ret l
  end.

(** ** Running a program against the outside world *)

Record Outcome (St A : Type) : Type := mkOutcome
  { result : JSError + A;           (* thrown error or returned value *)
    final : St;                     (* the world afterwards *)
    log : list (Request * St) }.    (* each request with the world it met *)

Arguments mkOutcome {St A} result final log.
Arguments result {St A} o.
Arguments final {St A} o.
Arguments log {St A} o.

Definition Handler (St : Type) : Type :=
  forall r : Request, St -> (JSError + Reply r) * St.

Section Run.
Context {St : Type} (h : Handler St).

Fixpoint run {A} (p : Prog A) (s : St) : Outcome St A :=
  match p with
  | Ret a => mkOutcome (inr a) s []
  | Throw e => mkOutcome (inl e) s []
  | Await r k =>
      let o := run (k (h r s).1) (h r s).2 in
      mkOutcome (result o) (final o) ((r, s) :: log o)
  end.

Definition requests {A} (o : Outcome St A) : list Request := (log o).*1.

(** The answer of the world to request [r] issued in world [s], and
    the world after it. *)
Definition reply (r : Request) (s : St) : JSError + Reply r := (h r s).1.
Definition after (r : Request) (s : St) : St := (h r s).2.

(** Request [r], issued in world [s], is fulfilled with [v] and leaves
    world [s']. *)
Definition answers (s : St) (r : Request) (v : Reply r) (s' : St) : Prop :=
    h r s = (inr v, s').
End Run.

(** ** The platform

    Node's [Buffer], [path] and number formatting, which the code calls but
    does not define. *)
Class NodeRuntime : Type := mkRuntime
  { (* Buffer.from(s).toString('base64') and fileBuffer.toString('base64') *)
    toBase64 : string -> string;
    (* path.extname(p) *)
    extname : string -> string;
    (* path.join(__dirname, '..', p) *)
    uploadPath : string -> string;
    (* `${n}` of a number *)
    Number_toString : Q -> string }.

(** Whether [`${v}`] gives a text.  A parsed JSON object is converted by
    [Object.prototype.toString] unless it has a property [toString] of its
    own, which is never a function: then the conversion throws a
    TypeError.  An array converts its elements, except [null]. *)
Fixpoint converts (v : JSValue) : bool :=
  match v with
  | JObj fields => negb (existsb (fun kv => String.eqb kv.1 "toString") fields)
  | JArr xs => forallb converts xs
  | _ => true
  end.

(** [`${v}`]: string conversion of a value inside a template literal,
    for a value that [converts]. *)
Fixpoint ToString `{NodeRuntime} (v : JSValue) : string :=
  match v with
  | JUndefined => "undefined"
  | JNull => "null"
  | JBool true => "true"
  | JBool false => "false"
  | JNum q => Number_toString q
  | JStr s => s
  | JArr xs =>
      String.concat ","
        (map (fun x => match x with
                       | JUndefined | JNull => ""
                       | _ => ToString x
                       end) xs)
  | JObj _ => "[object Object]"
  end.

(** [`${x}`] of an environment variable or configuration entry that may be
    [undefined], and [x || d]. *)
Definition interpolate (x : option string) : string := default "undefined" x.

Definition or_else (x : option string) (d : string) : string :=
  match x with
  | Some s => if String.eqb s "" then d else s
  | None => d
  end.

(** ** class GitHubPublisher *)

Record Config : Type := mkConfig
  { cfg_token : string;
    cfg_owner : option string;
    cfg_repo : option string;
    cfg_branch : option string;
    cfg_pagesBaseUrl : option string }.

Record GitHubPublisher : Type := mkPublisher
  { owner : option string;
    repo : option string;
    branch : string;
    pagesBaseUrl : string }.

Definition new_GitHubPublisher (config : Config) : GitHubPublisher :=
  {| owner := cfg_owner config;
     repo := cfg_repo config;
     branch := or_else (cfg_branch config) "main";
     pagesBaseUrl :=
       or_else (cfg_pagesBaseUrl config)
         ("https://" +:+ interpolate (cfg_owner config) +:+ ".github.io/"
            +:+ interpolate (cfg_repo config)) |}.

(** An element of [files]: [{ path, content, isBase64 }]. *)
Record FileSpec : Type := mkFile
  { f_path : string; f_content : string; f_isBase64 : bool }.

(** An image handed to [publishPropertySite]; [base64Content] and
    [filename] are absent on a photo given by URL. *)
Record Photo : Type := mkPhoto
  { p_url : JSValue;
    p_label : JSValue;
    p_base64Content : option string;
    p_filename : option string }.

Record Published : Type := mkPublished { pub_url : string; pub_path : string }.

Record SiteRef : Type := mkSite { slug : string; url : string }.

Fixpoint for_each {A} (xs : list A) (body : A -> Prog unit) : Prog unit :=
  match xs with
  | [] => Ret tt
  | x :: xs' => _ <- body x ;; for_each xs' body
  end.

Section Publisher.
Context `{NodeRuntime}.
Variable this : GitHubPublisher.

Definition head_ref : string := "heads/" +:+ branch this.

(** The blob created for one file holds base64 text: the content is
    encoded unless it already is. *)
Definition blob_content (file : FileSpec) : string :=
  if f_isBase64 file then f_content file else toBase64 (f_content file).

Definition blob_request (file : FileSpec) : Request :=
  GitCreateBlob (blob_content file) "base64".

Definition blob_entry (file : FileSpec) (sha : Sha) : TreeEntry :=
  {| te_path := f_path file; te_mode := "100644"; te_type := "blob";
     te_sha := sha |}.

Definition create_blob (file : FileSpec) : Prog TreeEntry :=
  blobData <- await (blob_request file) ;;
  Ret (blob_entry file blobData).

Definition uploadMultipleFiles (files : list FileSpec) (commitMessage : string)
  : Prog GitCommit :=
  try_catch
    (currentCommitSha <- await (GitGetRef head_ref) ;;
     commitData <- await (GitGetCommit currentCommitSha) ;;
     let baseTreeSha := c_tree commitData in
     blobs <- promise_all (map create_blob files) ;;
     treeData <- await (GitCreateTree baseTreeSha blobs) ;;
     newCommitData <-
       await (GitCreateCommit commitMessage treeData [currentCommitSha]) ;;
     _ <- await (GitUpdateRef head_ref (c_sha newCommitData)) ;;
     Ret newCommitData)
    (fun error => (* console.error *) Throw error).

Definition site_dir (propertySlug : string) : string :=
  "properties/" +:+ propertySlug.

Definition image_files (propertySlug : string) (images : list Photo)
  : list FileSpec :=
  omap (fun image =>
          match p_base64Content image with
          | Some b64 =>
              if String.eqb b64 "" then None
              else Some {| f_path := site_dir propertySlug +:+ "/images/"
                                       +:+ interpolate (p_filename image);
                           f_content := b64;
                           f_isBase64 := true |}
          | None => None
          end) images.

Definition site_files (propertySlug htmlContent : string)
    (images : list Photo) : list FileSpec :=
  {| f_path := site_dir propertySlug +:+ "/index.html";
     f_content := htmlContent;
     f_isBase64 := false |} :: image_files propertySlug images.

Definition publishPropertySite (propertySlug htmlContent : string)
    (images : list Photo) : Prog Published :=
  let files := site_files propertySlug htmlContent images in
  let commitMessage := "Add property site: " +:+ propertySlug in
  _ <- uploadMultipleFiles files commitMessage ;;
  Ret {| pub_url := pagesBaseUrl this +:+ "/properties/" +:+ propertySlug +:+ "/";
         pub_path := site_dir propertySlug +:+ "/" |}.

(** [item => ({ slug: item.name, url: ... })] *)
Definition site_of (item : ContentItem) : SiteRef :=
  {| slug := i_name item;
     url := pagesBaseUrl this +:+ "/properties/" +:+ i_name item +:+ "/" |}.

Definition listPropertySites : Prog (list SiteRef) :=
  try_catch
    (data <- await (ReposGetContent "properties" (branch this)) ;;
     match data with
     | ContentDir items =>
         Ret (map site_of (filter (fun item => i_type item = "dir") items))
     | ContentFile _ => Ret []
     end)
    (fun error =>
       match status error with
       | Some 404 => Ret []
       | _ => Throw error
       end).

Definition delete_request (propertySlug : string) (file : ContentItem)
  : Request :=
  ReposDeleteFile (i_path file) ("Delete property site: " +:+ propertySlug)
    (i_sha file) (branch this).

(** Returns [{ success: true }], here [tt]. *)
Definition deletePropertySite (propertySlug : string) : Prog unit :=
    try_catch
      (data <- await (ReposGetContent (site_dir propertySlug) (branch this)) ;;
       let files :=
         match data with
         | ContentDir items => items
         | ContentFile item => [item]
         end in
       for_each files (fun file =>
         _ <- await (delete_request propertySlug file) ;; Ret tt))
      (fun error => (* console.error *) Throw error).
End Publisher.

(** ** The slug builder *)

Module Slug.
Local Open Scope nat_scope.

Definition code (c : ascii) : nat := nat_of_ascii c.

Definition is_digit (c : ascii) : bool := (48 <=? code c) && (code c <=? 57).
Definition is_upper (c : ascii) : bool := (65 <=? code c) && (code c <=? 90).
Definition is_lower (c : ascii) : bool := (97 <=? code c) && (code c <=? 122).
Definition is_alnum (c : ascii) : bool := is_digit c || is_upper c || is_lower c.

(** [\s] on ASCII: tab, line feed, vertical tab, form feed, carriage
    return, space. *)
Definition is_space (c : ascii) : bool :=
  ((9 <=? code c) && (code c <=? 13)) || (code c =? 32).

Definition hyphen : ascii := "-"%char.
Definition is_hyphen (c : ascii) : bool := code c =? 45.

Definition toLowerCase (c : ascii) : ascii :=
  if is_upper c then ascii_of_nat (code c + 32) else c.

(** [s.trim()] *)
Fixpoint trimStart (l : list ascii) : list ascii :=
  match l with
  | [] => []
  | c :: r => if is_space c then trimStart r else l
  end.

Definition trim (l : list ascii) : list ascii :=
  rev (trimStart (rev (trimStart l))).

(** [s.replace(/\s+/g, '-')]: each maximal run of white space becomes one
    hyphen; [in_run] tells that the previous character was white space. *)
Fixpoint replaceSpaces (in_run : bool) (l : list ascii) : list ascii :=
  match l with
  | [] => []
  | c :: r =>
      if is_space c
      then (if in_run then replaceSpaces true r
            else hyphen :: replaceSpaces true r)
      else c :: replaceSpaces false r
  end.

(** Modelled from the spec: the slug builder is the npm package
    [slugify], called as [slugify(text, { lower: true, strict: true })];
    the package is not part of the sources.  Section 4.1 gives its
    output as a lowercase, hyphen-separated token of URL-safe characters
    with diacritics and punctuation stripped.  On a byte string: the
    replacement character [-] counts as a separator, every character
    that is not a letter, a digit or white space is dropped (strict),
    the text is trimmed, white-space runs become one hyphen each, and
    letters are lowercased.  Bytes above 127 are dropped like
    punctuation. *)
Definition slugify_chars (l : list ascii) : list ascii :=
  let separated := map (fun c => if is_hyphen c then " "%char else c) l in
  let strict := List.filter (fun c => is_alnum c || is_space c) separated in
  map toLowerCase (replaceSpaces false (trim strict)).

Definition slugify (text : string) : string :=
  string_of_list_ascii (slugify_chars (list_ascii_of_string text)).

(** A character of a slug: a lowercase letter, a digit or a hyphen. *)
Definition slug_char (c : ascii) : bool :=
  is_lower c || is_digit c || is_hyphen c.

(** No hyphen at either end and no two hyphens in a row: the hyphens
    separate non-empty words. *)
Fixpoint no_double_hyphen (l : list ascii) : bool :=
  match l with
  | c :: (d :: _) as r => negb (is_hyphen c && is_hyphen d) && no_double_hyphen r
  | _ => true
  end.

Definition hyphen_separated (l : list ascii) : bool :=
    match l with
    | [] => true
    | c :: _ => negb (is_hyphen c) && negb (is_hyphen (List.last l c))
                && no_double_hyphen l
    end.
End Slug.

(** ** The Express server *)

(** [process.env] as far as the server reads it. *)
Record ProcessEnv : Type := mkEnv
  { GITHUB_TOKEN : option string;
    GITHUB_OWNER : option string;
    GITHUB_REPO : option string;
    GITHUB_BRANCH : option string;
    GITHUB_PAGES_BASE_URL : option string }.

Definition is_set (x : option string) : bool :=
  match x with
  | Some s => negb (String.eqb s "")
  | None => false
  end.

Definition initGitHubPublisher (env : ProcessEnv) : option GitHubPublisher :=
  match GITHUB_TOKEN env with
  | Some token =>
      if String.eqb token "" then None
      else Some (new_GitHubPublisher
                   {| cfg_token := token;
                      cfg_owner := GITHUB_OWNER env;
                      cfg_repo := Some (or_else (GITHUB_REPO env) "LuminateSPS");
                      cfg_branch := Some (or_else (GITHUB_BRANCH env) "main");
                      cfg_pagesBaseUrl := GITHUB_PAGES_BASE_URL env |})
  | None => None
  end.

(** What [res.status(code).json(body)] sends; [res.json] sends 200. *)
Record Response : Type := mkResponse { res_status : nat; res_body : JSValue }.

(** The argument of [generatePropertyHTML]. *)
Record TemplateData : Type := mkTemplateData
  { t_property : JSValue;
    t_realtor : JSValue;
    t_loanOfficer : JSValue;
    t_photos : list (JSValue * JSValue);     (* { url, label } *)
    t_testimonials : JSValue;
    t_githubOwner : option string;
    t_githubRepo : string;
    t_propertySlug : string }.

(** The renderer of [./template], which is not part of the sources: any
    function from the template data to the HTML text. *)
Class Template : Type := { generatePropertyHTML : TemplateData -> string }.

Definition requiredFields : list string :=
  [ "property.address"; "property.city"; "property.state"; "property.zip";
    "property.price"; "property.bedrooms"; "property.bathrooms"; "property.sqft";
    "property.yearBuilt"; "property.description";
    "realtor.name"; "realtor.company"; "realtor.license"; "realtor.phone";
    "realtor.email";
    "loanOfficer.name"; "loanOfficer.company"; "loanOfficer.nmls";
    "loanOfficer.phone"; "loanOfficer.email" ].

(** [field.split('.')] *)
Fixpoint split_dot (s : string) : list string :=
  match s with
  | EmptyString => [""]
  | String c r =>
      if Ascii.eqb c "."%char then "" :: split_dot r
      else match split_dot r with
           | [] => [String c ""]
           | w :: ws => String c w :: ws
           end
  end.

(** The value reached from [data] through the parts of [field], each
    step being [value?.[part]]. *)
Definition field_value (data : JSValue) (field : string) : JSValue :=
  foldl get data (split_dot field).

Definition missingFields (data : JSValue) : list string :=
  List.filter (fun field => negb (truthy (field_value data field))) requiredFields.

(** [v.part] where [v] may be [null] or [undefined]: that read throws. *)
Definition read (v : JSValue) (part : string) : Prog JSValue :=
  match v with
  | JUndefined | JNull =>
      Throw (TypeError ("Cannot read properties of " +:+
                          (match v with JNull => "null" | _ => "undefined" end)
                          +:+ " (reading '" +:+ part +:+ "')"))
  | _ => Ret (get v part)
  end.

(** The error of iterating over a value that is not iterable, where the
    iterated expression is not a plain name: the text names the type of
    the value and, for a primitive, the value. *)
Definition not_iterable `{NodeRuntime} (v : JSValue) : JSError :=
  TypeError
    (match v with
     | JUndefined => "undefined"
     | JNull => "object null"
     | JBool true => "boolean true"
     | JBool false => "boolean false"
     | JNum q => "number " +:+ Number_toString q
     | _ => "object"
     end +:+ " is not iterable (cannot read property Symbol(Symbol.iterator))").

(** [for (const x of v)]: arrays and strings are iterable, other values
    throw. *)
Definition iterate `{NodeRuntime} (v : JSValue) : Prog (list JSValue) :=
  match v with
  | JArr xs => Ret xs
  | JStr s => Ret (map (fun c => JStr (String c "")) (list_ascii_of_string s))
  | _ => Throw (not_iterable v)
  end.

Definition json_ok (fields : list (string * JSValue)) : Response :=
  mkResponse 200 (JObj fields).

Definition json_error (code : nat) (error : JSError) : Response :=
  mkResponse code
    (JObj [("success", JBool false); ("error", JStr (message error))]).

Section Server.
Context `{NodeRuntime} `{Template}.
Variable env : ProcessEnv.

(** The module variable [githubPublisher] when the request arrives: [None]
    until a first request has built the publisher. *)
Variable githubPublisher : option GitHubPublisher.

(** [if (!githubPublisher) githubPublisher = initGitHubPublisher()] *)
Definition the_publisher : option GitHubPublisher :=
  match githubPublisher with
  | Some p => Some p
  | None => initGitHubPublisher env
  end.

Definition propertySlug_of (data : JSValue) : string :=
  Slug.slugify (ToString (get (get data "property") "address") +:+ "-"
                  +:+ ToString (get (get data "property") "city")).

(** Whether the template literal of the slug gives a text: it converts
    the address and the city. *)
Definition slug_converts (data : JSValue) : bool :=
  converts (get (get data "property") "address")
  && converts (get (get data "property") "city").

(** The photo pushed for a local upload with the given file content. *)
Definition local_photo (photos : list Photo) (photo : JSValue) (p : string)
    (fileBuffer : string) : Photo :=
  let base64Content := toBase64 fileBuffer in
  let ext := extname p in
  let filename := "photo-" +:+ pretty (length photos + 1) +:+ ext in
  mkPhoto (JStr ("./images/" +:+ filename)) (get photo "label")
    (Some base64Content) (Some filename).

(** The body of the [try] for a local upload: read the file and push the
    photo. *)
Definition read_photo (photos : list Photo) (photo : JSValue)
  : Prog (list Photo) :=
  match get photo "path" with
  | JStr p =>
      fileBuffer <- await (FsReadFile (uploadPath p)) ;;
      Ret (photos ++ [local_photo photos photo p fileBuffer])
  | _ =>
      (* path.join refuses an argument that is not a string *)
      Throw (TypeError "The path argument must be of type string")
  end.

(** One turn of the photo loop; [photos] is the list built so far. *)
Definition process_photo (photos : list Photo) (photo : JSValue)
  : Prog (list Photo) :=
  url <- read photo "url" ;;
  if truthy url then
    (* External URL *)
    Ret (photos ++ [mkPhoto url (get photo "label") None None])
  else if truthy (get photo "path") then
    (* Local uploaded file *)
    try_catch (read_photo photos photo)
      (fun err => (* console.error *) Ret photos)
  else Ret photos.

Fixpoint process_photos (photos : list Photo) (todo : list JSValue)
  : Prog (list Photo) :=
  match todo with
  | [] => Ret photos
  | photo :: rest =>
      photos' <- process_photo photos photo ;;
      process_photos photos' rest
  end.

(** The body of the [try] of the cleanup: remove the uploaded file. *)
Definition unlink_photo (path : JSValue) : Prog unit :=
  match path with
  | JStr p => _ <- await (FsUnlink (uploadPath p)) ;; Ret tt
  | _ => Throw (TypeError "The path argument must be of type string")
  end.

(** Clean up uploaded files; errors of the removal are ignored. *)
Definition cleanup_photo (photo : JSValue) : Prog unit :=
  path <- read photo "path" ;;
  if truthy path then try_catch (unlink_photo path) (fun err => Ret tt)
  else Ret tt.

Definition has_base64 (p : Photo) : bool :=
  match p_base64Content p with
  | Some b64 => negb (String.eqb b64 "")
  | None => false
  end.

Definition template_data (data : JSValue) (photos : list Photo)
  : TemplateData :=
  {| t_property := get data "property";
     t_realtor := get data "realtor";
     t_loanOfficer := get data "loanOfficer";
     t_photos := map (fun p => (p_url p, p_label p)) photos;
     t_testimonials :=
       if truthy (get data "testimonials") then get data "testimonials"
       else JArr [];
     t_githubOwner := GITHUB_OWNER env;
     t_githubRepo := or_else (GITHUB_REPO env) "LuminateSPS";
     t_propertySlug := propertySlug_of data |}.

Definition published_message : string :=
  "Property site published successfully! It may take 1-2 minutes to appear on GitHub Pages.".

Definition generated_message : string :=
  "HTML generated successfully. Configure GitHub to auto-publish.".

Definition validation_failure (missing : list string) : Response :=
  mkResponse 400
    (JObj [("success", JBool false);
           ("error", JStr "Missing required fields");
           ("missingFields", JArr (map JStr missing))]).

(** Process photos: [data.photos], when it is an array, is turned into
    the photo list. *)
Definition collect_photos (data : JSValue) : Prog (list Photo) :=
  if truthy (get data "photos") && isArray (get data "photos")
  then todo <- iterate (get data "photos") ;; process_photos [] todo
  else Ret [].

(** [for (const photo of data.photos || [])] over [cleanup_photo]. *)
Definition cleanup_uploads (data : JSValue) : Prog unit :=
  uploaded <-
    (if truthy (get data "photos") then iterate (get data "photos")
     else Ret []) ;;
  for_each uploaded cleanup_photo.

Definition published_response (data : JSValue) (result : Published) : Response :=
  json_ok [("success", JBool true);
           ("published", JBool true);
           ("url", JStr (pub_url result));
           ("propertySlug", JStr (propertySlug_of data));
           ("message", JStr published_message)].

Definition generated_response (data : JSValue) (htmlContent : string)
  : Response :=
  json_ok [("success", JBool true);
           ("published", JBool false);
           ("html", JStr htmlContent);
           ("propertySlug", JStr (propertySlug_of data));
           ("message", JStr generated_message)].

(** What follows the validation in the handler of POST /api/generate.
    The handler also stores [githubOwner], [githubRepo] and [propertySlug]
    on [data]; nothing reads them back from there. *)
Definition generate_site (data : JSValue) : Prog Response :=
  if slug_converts data then
    let propertySlug := propertySlug_of data in
    photos <- collect_photos data ;;
    let htmlContent := generatePropertyHTML (template_data data photos) in
    if is_set (GITHUB_TOKEN env) then
      match the_publisher with
      | Some publisher =>
          result <- publishPropertySite publisher propertySlug htmlContent
                      (List.filter has_base64 photos) ;;
          _ <- cleanup_uploads data ;;
          Ret (published_response data result)
      | None =>
          Throw (TypeError "Cannot read properties of null (reading 'publishPropertySite')")
      end
    else Ret (generated_response data htmlContent)
  else
    (* the template literal of the slug throws *)
    Throw (TypeError "Cannot convert object to primitive value").

(** app.post('/api/generate', ...) with [data = req.body] *)
Definition api_generate (data : JSValue) : Prog Response :=
  try_catch
    (match missingFields data with
     | [] => generate_site data
     | missing => Ret (validation_failure missing)
     end)
    (fun error => (* console.error *) Ret (json_error 500 error)).

Definition site_json (site : SiteRef) : JSValue :=
  JObj [("slug", JStr (slug site)); ("url", JStr (url site))].

Definition properties_ok (properties : list SiteRef) : Response :=
  json_ok [("success", JBool true);
           ("properties", JArr (map site_json properties))].

(** app.get('/api/properties', ...) *)
Definition api_properties : Prog Response :=
  try_catch
    (if is_set (GITHUB_TOKEN env) then
       match the_publisher with
       | Some publisher =>
           properties <- listPropertySites publisher ;;
           Ret (properties_ok properties)
       | None =>
           Throw (TypeError "Cannot read properties of null (reading 'listPropertySites')")
       end
     else Ret (properties_ok []))
    (fun error => Ret (json_error 500 error)).

(** app.delete('/api/properties/:slug', ...) *)
Definition api_delete (slug : string) : Prog Response :=
  try_catch
    (if is_set (GITHUB_TOKEN env) then
       match the_publisher with
       | Some publisher =>
           _ <- deletePropertySite publisher slug ;;
           Ret (json_ok [("success", JBool true);
                         ("message", JStr "Property site deleted")])
       | None =>
           Throw (TypeError "Cannot read properties of null (reading 'deletePropertySite')")
       end
     else Ret (json_error 400 (mkError "GitHub not configured" None)))
    (fun error => Ret (json_error 500 error)).
End Server.

(** ** The hosted repository and the local disk *)

Module Hosting.

(** Modelled from the spec: the hosting API is an outside service, not
    code of the repository.  Its objects follow the glossary (a tree maps
    paths to blobs, a commit points to a tree and its parents, a branch
    pointer names the tip commit), tree creation follows section 4.4,
    step 4 (the new entries are layered on the base tree: other paths
    stay, an entry at the same path is replaced), and a contents read of a
    directory answers its immediate children (section 4.5).  A blob is
    kept as it was sent: its text and the encoding of the text. *)
Inductive GitObject : Type :=
  | OBlob (content encoding : string)
  | OTree (entries : gmap string Sha)
  | OCommit (msg : string) (tree : Sha) (parents : list Sha).

#[global] Instance GitObject_eq_dec : EqDecision GitObject.
Proof. solve_decision. Defined.

Record World : Type := mkWorld
  { objects : list GitObject;      (* the id of an object is its index *)
    refs : gmap string Sha;        (* branch pointers *)
    disk : gmap string string }.   (* files of the upload store *)

(** Objects are content-addressed: storing an object that is already
    there answers its id. *)
Definition intern (o : GitObject) (objs : list GitObject)
  : Sha * list GitObject :=
  match list_find (eq o) objs with
  | Some (i, _) => (i, objs)
  | None => (length objs, objs ++ [o])
  end.

Definition layer (base : gmap string Sha) (entries : list TreeEntry)
  : gmap string Sha :=
  foldl (fun m e => <[te_path e := te_sha e]> m) base entries.

Definition is_blob (objs : list GitObject) (sha : Sha) : bool :=
  match objs !! sha with Some (OBlob _ _) => true | _ => false end.

Definition is_blob_object (o : GitObject) : Prop :=
  match o with OBlob _ _ => True | _ => False end.

Definition is_commit (objs : list GitObject) (sha : Sha) : bool :=
  match objs !! sha with Some (OCommit _ _ _) => true | _ => false end.

Definition tree_of (objs : list GitObject) (sha : Sha)
  : option (gmap string Sha) :=
  match objs !! sha with Some (OTree m) => Some m | _ => None end.

Definition commit_of (objs : list GitObject) (sha : Sha) : option GitCommit :=
  match objs !! sha with
  | Some (OCommit m t ps) => Some (mkCommit sha t ps m)
  | _ => None
  end.

(** The files a reader of the branch sees: the tree of its tip commit. *)
Definition visible (w : World) (branch : string) : option (gmap string Sha) :=
  tip ← refs w !! ("heads/" +:+ branch);
  c ← commit_of (objects w) tip;
  tree_of (objects w) (c_tree c).

(** The content served at [path] on the branch. *)
Definition served (w : World) (branch path : string) : option string :=
  m ← visible w branch;
  b ← m !! path;
  match objects w !! b with
  | Some (OBlob content _) => Some content
  | _ => None
  end.

Definition not_found : JSError := mkError "Not Found" (Some 404).
Definition conflict : JSError := mkError "Conflict" (Some 409).
Definition unprocessable : JSError := mkError "Unprocessable Entity" (Some 422).
Definition enoent : JSError := mkError "ENOENT: no such file or directory" None.

Fixpoint strip_prefix (pre s : string) : option string :=
  match pre, s with
  | EmptyString, _ => Some s
  | String a p, String b r => if Ascii.eqb a b then strip_prefix p r else None
  | String _ _, EmptyString => None
  end.

(** The text up to the first slash, and whether a slash follows. *)
Fixpoint first_segment (s : string) : string * bool :=
  match s with
  | EmptyString => ("", false)
  | String c r =>
      if Ascii.eqb c "/"%char then ("", true)
      else let '(w, more) := first_segment r in (String c w, more)
  end.

Fixpoint insert_item (it : ContentItem) (items : list ContentItem)
  : list ContentItem :=
  match items with
  | [] => [it]
  | x :: rest =>
      if String.eqb (i_name it) (i_name x) then items
      else if String.ltb (i_name it) (i_name x) then it :: items
      else x :: insert_item it rest
  end.

(** The immediate children of directory [dir] in a tree, by name.  A
    tree keeps whole paths, so a sub-directory has no object of its own:
    it is listed with the id [root] of the tree it was read from. *)
Definition children (root : Sha) (m : gmap string Sha) (dir : string)
  : list ContentItem :=
  foldr insert_item []
    (omap (fun '(p, b) =>
             rest ← strip_prefix (dir +:+ "/") p;
             let '(name, more) := first_segment rest in
             Some (if more
                   then mkItem name (dir +:+ "/" +:+ name) root "dir"
                   else mkItem name p b "file"))
       (map_to_list m)).

(** The last segment of a path; [seg] is the segment read so far. *)
Fixpoint last_segment (seg path : string) : string :=
  match path with
  | EmptyString => seg
  | String c r =>
      if Ascii.eqb c "/"%char then last_segment "" r
      else last_segment (seg +:+ String c "") r
  end.

Definition base_name (path : string) : string := last_segment "" path.

Definition with_objects (w : World) (objs : list GitObject) : World :=
  mkWorld objs (refs w) (disk w).

Definition hosting : Handler World :=
  fun r w =>
    match r as r0 return (JSError + Reply r0) * World with
    | GitGetRef ref =>
        match refs w !! ref with
        | Some sha => (inr sha, w)
        | None => (inl not_found, w)
        end
    | GitGetCommit sha =>
        match commit_of (objects w) sha with
        | Some c => (inr c, w)
        | None => (inl not_found, w)
        end
    | GitCreateBlob content encoding =>
        let '(sha, objs) := intern (OBlob content encoding) (objects w) in
        (inr sha, with_objects w objs)
    | GitCreateTree base entries =>
        match tree_of (objects w) base with
        | Some m =>
            if forallb (fun e => is_blob (objects w) (te_sha e)) entries then
              let '(sha, objs) := intern (OTree (layer m entries)) (objects w) in
              (inr sha, with_objects w objs)
            else (inl unprocessable, w)
        | None => (inl not_found, w)
        end
    | GitCreateCommit msg tree parents =>
        match tree_of (objects w) tree with
        | Some _ =>
            if forallb (is_commit (objects w)) parents then
              let '(sha, objs) := intern (OCommit msg tree parents) (objects w) in
              (inr (mkCommit sha tree parents msg), with_objects w objs)
            else (inl unprocessable, w)
        | None => (inl not_found, w)
        end
    | GitUpdateRef ref sha =>
        match refs w !! ref with
        | Some _ =>
            if is_commit (objects w) sha
            then (inr tt, mkWorld (objects w) (<[ref := sha]> (refs w)) (disk w))
            else (inl unprocessable, w)
        | None => (inl unprocessable, w)
        end
    | ReposGetContent path ref =>
        match refs w !! ("heads/" +:+ ref) with
        | Some tip =>
            match commit_of (objects w) tip with
            | Some c =>
                match tree_of (objects w) (c_tree c) with
                | Some m =>
                    match m !! path with
                    | Some b =>
                        (inr (ContentFile (mkItem (base_name path) path b "file")), w)
                    | None =>
                        match children (c_tree c) m path with
                        | [] => (inl not_found, w)
                        | items => (inr (ContentDir items), w)
                        end
                    end
                | None => (inl not_found, w)
                end
            | None => (inl not_found, w)
            end
        | None => (inl not_found, w)
        end
    | ReposDeleteFile path msg sha branch =>
        match refs w !! ("heads/" +:+ branch) with
        | Some tip =>
            match commit_of (objects w) tip with
            | Some c =>
                match tree_of (objects w) (c_tree c) with
                | Some m =>
                    match m !! path with
                    | Some b =>
                        if Nat.eqb b sha then
                          let '(t, objs1) := intern (OTree (delete path m)) (objects w) in
                          let '(c', objs2) := intern (OCommit msg t [tip]) objs1 in
                          (inr tt,
                           mkWorld objs2 (<["heads/" +:+ branch := c']> (refs w))
                             (disk w))
                        else (inl conflict, w)
                    | None => (inl not_found, w)
                    end
                | None => (inl not_found, w)
                end
            | None => (inl not_found, w)
            end
        | None => (inl not_found, w)
        end
    | FsReadFile path =>
        match disk w !! path with
        | Some bytes => (inr bytes, w)
        | None => (inl enoent, w)
        end
    | FsUnlink path =>
        match disk w !! path with
        | Some _ => (inr tt, mkWorld (objects w) (refs w) (delete path (disk w)))
        | None => (inl enoent, w)
        end
    end.

(** A fresh repository: one empty tree, one initial commit and the
    branch [main] on it. *)
Definition fresh : World :=
  mkWorld [OTree ∅; OCommit "Initial commit" 0 []] {["heads/main" := 1]} ∅.
End Hosting.

(** ** A platform for the examples *)

Module Node.
Local Open Scope nat_scope.

Definition alphabet : list ascii :=
  list_ascii_of_string
    "ABCDEFGHIJKLMNOPQRSTUVWXYZabcdefghijklmnopqrstuvwxyz0123456789+/".

Definition digit (n : nat) : ascii := nth n alphabet "="%char.

Fixpoint encode (bytes : list nat) : list ascii :=
  match bytes with
  | [] => []
  | [a] => [digit (a / 4); digit (a mod 4 * 16); "="%char; "="%char]
  | [a; b] =>
      [digit (a / 4); digit (a mod 4 * 16 + b / 16); digit (b mod 16 * 4);
       "="%char]
  | a :: b :: c :: rest =>
      digit (a / 4) :: digit (a mod 4 * 16 + b / 16)
        :: digit (b mod 16 * 4 + c / 64) :: digit (c mod 64) :: encode rest
  end.

Definition base64 (s : string) : string :=
  string_of_list_ascii (encode (map nat_of_ascii (list_ascii_of_string s))).

(** The text from the last dot on, if there is a dot. *)
Fixpoint from_last_dot (s : string) : option string :=
  match s with
  | EmptyString => None
  | String c r =>
      match from_last_dot r with
      | Some e => Some e
      | None => if Ascii.eqb c "."%char then Some s else None
      end
  end.

Definition ext (p : string) : string :=
  match Hosting.base_name p with
  | EmptyString => ""
  | String _ r => default "" (from_last_dot r)
  end.

Definition join_uploads (p : string) : string :=
  match p with
  | String "/" _ => "/app/generator" +:+ p
  | _ => "/app/generator/" +:+ p
  end.

(** Whole numbers print as in JavaScript; other rationals print as a
    fraction, which is enough for the examples. *)
Definition number (q : Q) : string :=
  if Pos.eqb (Qden q) 1 then pretty (Qnum q)
  else pretty (Qnum q) +:+ "/" +:+ pretty (Zpos (Qden q)).

#[global] Instance runtime : NodeRuntime :=
  {| toBase64 := base64; extname := ext; uploadPath := join_uploads;
     Number_toString := number |}.

(** A renderer that prints the slug and the photo URLs. *)
#[global] Instance template : Template :=
  {| generatePropertyHTML := fun d =>
       "<h1>" +:+ t_propertySlug d +:+ "</h1>"
         +:+ String.concat ""
               (map (fun p => "<img src=" +:+ ToString p.1 +:+ ">") (t_photos d)) |}.

Definition env : ProcessEnv :=
  mkEnv (Some "ghp_token") (Some "Nsull042790") (Some "LuminateSPS")
    (Some "main") None.

Definition env_unconfigured : ProcessEnv := mkEnv None None None None None.

(** A complete request body with the given number of bedrooms and the
    given photos. *)
Definition request (bedrooms : Q) (photos : list JSValue) : JSValue :=
  JObj [("property",
         JObj [("address", JStr "12 Oak Ave"); ("city", JStr "Salem");
               ("state", JStr "OR"); ("zip", JStr "97301");
               ("price", JNum 250000); ("bedrooms", JNum bedrooms);
               ("bathrooms", JNum (5 # 2)); ("sqft", JNum 1400);
               ("yearBuilt", JNum 1990); ("description", JStr "Sunny")]);
        ("realtor",
         JObj [("name", JStr "Ann"); ("company", JStr "Oak Realty");
               ("license", JStr "RE1"); ("phone", JStr "555-0100");
               ("email", JStr "ann@example.com")]);
        ("loanOfficer",
         JObj [("name", JStr "Bob"); ("company", JStr "Salem Lending");
               ("nmls", JStr "123456"); ("phone", JStr "555-0101");
               ("email", JStr "bob@example.com")]);
        ("photos", JArr photos)].

(** A photo whose uploaded file is not on the disk. *)
Definition lost_photo : JSValue :=
  JObj [("path", JStr "/uploads/1700000000-42.jpg"); ("label", JStr "Front")].


Definition publisher : GitHubPublisher :=
  default (mkPublisher None None "main" "") (initGitHubPublisher env).

(** A site with one image, and the same site published again without it. *)
Definition photo1 : Photo :=
  mkPhoto (JStr "./images/photo-1.jpg") (JStr "Front") (Some (base64 "JPEG"))
    (Some "photo-1.jpg").

Definition first_publish : list FileSpec :=
  site_files "12-oak-ave-salem" "<h1>v1</h1>" [photo1].

Definition second_publish : list FileSpec :=
  site_files "12-oak-ave-salem" "<h1>v2</h1>" [].

Definition after_first : Hosting.World :=
  final (run Hosting.hosting
           (publishPropertySite publisher "12-oak-ave-salem" "<h1>v1</h1>" [photo1])
           Hosting.fresh).

Definition after_second : Hosting.World :=
  final (run Hosting.hosting
           (publishPropertySite publisher "12-oak-ave-salem" "<h1>v2</h1>" [])
           after_first).
End Node.

(** ** The steps of the publish protocol *)

(** The protocol step a request belongs to: 1 to 6 for the calls of
    [uploadMultipleFiles]; reading staged uploads comes before any of them
    (0) and everything else after (7). *)
Definition step_of (r : Request) : nat :=
  match r with
  | FsReadFile _ => 0
  | GitGetRef _ => 1
  | GitGetCommit _ => 2
  | GitCreateBlob _ _ => 3
  | GitCreateTree _ _ => 4
  | GitCreateCommit _ _ _ => 5
  | GitUpdateRef _ _ => 6
  | ReposGetContent _ _ | ReposDeleteFile _ _ _ _ | FsUnlink _ => 7
  end.

Section Listing.
Context {St : Type} (h : Handler St).

(** The files the deleter works on: what its one listing of the site's
    directory answered in world [s]. *)
Definition listed (this : GitHubPublisher) (propertySlug : string) (s : St)
  : list ContentItem :=
  match reply h (ReposGetContent (site_dir propertySlug) (branch this)) s with
  | inr (ContentDir items) => items
  | inr (ContentFile item) => [item]
  | inl _ => []
  end.
End Listing.

Section Failures.
Context {St A : Type} (h : Handler St).


End Failures.

Section ProtocolSteps.
Context {St : Type} (h : Handler St) `{NodeRuntime}.

(** Step 3 against the world: the requests in file order with the world
    each one meets, the world after the last one, and what each call
    settled to. *)
Fixpoint blobs_log (files : list FileSpec) (s : St) : list (Request * St) :=
  match files with
  | [] => []
  | f :: fs => (blob_request f, s) :: blobs_log fs (after h (blob_request f) s)
  end.

Fixpoint blobs_final (files : list FileSpec) (s : St) : St :=
  match files with
  | [] => s
  | f :: fs => blobs_final fs (after h (blob_request f) s)
  end.

Fixpoint blobs_settled (files : list FileSpec) (s : St)
  : list (JSError + TreeEntry) :=
  match files with
  | [] => []
  | f :: fs =>
      match reply h (blob_request f) s with
      | inl e => inl e
      | inr sha => inr (blob_entry f sha)
      end :: blobs_settled fs (after h (blob_request f) s)
  end.

(** Every file got its blob, in file order: [blobs] are the tree
    entries, one per file, each naming the file's path and the id the
    world gave to its blob. *)
Inductive BlobsCreated : St -> list FileSpec -> list TreeEntry -> St -> Prop :=
  | blobs_nil s : BlobsCreated s [] [] s
  | blobs_cons s f sha s1 fs blobs s2 :
      answers h s (blob_request f) sha s1 ->
      BlobsCreated s1 fs blobs s2 ->
      BlobsCreated s (f :: fs) (blob_entry f sha :: blobs) s2.

(** The run of [uploadMultipleFiles] written out call by call: at each
    step the world either rejects the call, which ends the run with that
    error, or fulfils it, which feeds the next step. *)
Definition upload_outcome (this : GitHubPublisher) (files : list FileSpec)
    (commitMessage : string) (s0 : St) : Outcome St GitCommit :=
  let r1 := GitGetRef (head_ref this) in
  let s1 := after h r1 s0 in
  match reply h r1 s0 with
  | inl e => mkOutcome (inl e) s1 [(r1, s0)]
  | inr c =>
      let r2 := GitGetCommit c in
      let s2 := after h r2 s1 in
      match reply h r2 s1 with
      | inl e => mkOutcome (inl e) s2 [(r1, s0); (r2, s1)]
      | inr cd =>
          let s3 := blobs_final files s2 in
          let l3 := [(r1, s0); (r2, s1)] ++ blobs_log files s2 in
          match collect (blobs_settled files s2) with
          | inl e => mkOutcome (inl e) s3 l3
          | inr blobs =>
              let r4 := GitCreateTree (c_tree cd) blobs in
              let s4 := after h r4 s3 in
              match reply h r4 s3 with
              | inl e => mkOutcome (inl e) s4 (l3 ++ [(r4, s3)])
              | inr t =>
                  let r5 := GitCreateCommit commitMessage t [c] in
                  let s5 := after h r5 s4 in
                  match reply h r5 s4 with
                  | inl e => mkOutcome (inl e) s5 (l3 ++ [(r4, s3); (r5, s4)])
                  | inr nc =>
                      let r6 := GitUpdateRef (head_ref this) (c_sha nc) in
                      let s6 := after h r6 s5 in
                      let l6 := l3 ++ [(r4, s3); (r5, s4); (r6, s5)] in
                      match reply h r6 s5 with
                      | inl e => mkOutcome (inl e) s6 l6
                      | inr _ => mkOutcome (inr nc) s6 l6
                      end
                  end
              end
          end
      end
  end.

End ProtocolSteps.

(** ** Statements about the published branch *)

Section BranchState.
Import Hosting.
Context `{NodeRuntime}.

(** Tree entry [e] is the entry of file [f]: it has the file's path and
    names a blob of [w] with the file's content. *)
Definition stored (w : World) (f : FileSpec) (e : TreeEntry) : Prop :=
  te_path e = f_path f /\
  objects w !! te_sha e = Some (OBlob (blob_content f) "base64").

(** What a publish that returned commit [nc] did to the branch of the
    repository [w], with outcome [o]: the branch pointed to [old] with tree
    [base]; the only pointer update of the run sets the branch to [nc],
    whose parent is [old]; every world a request of the run met still
    shows [base]; the final world shows [base] with one entry per file
    layered on, so that paths outside the files are as in [base] and every
    file, unless a later file of the list has the same path, is served with
    its content. *)
Definition atomic_publish (this : GitHubPublisher) (files : list FileSpec)
    (w : World) (o : Outcome World GitCommit) (nc : GitCommit) : Prop :=
  exists old base blobs,
    refs w !! head_ref this = Some old /\
    visible w (branch this) = Some base /\
    List.filter is_update_ref (requests o)
      = [GitUpdateRef (head_ref this) (c_sha nc)] /\
    refs (final o) = <[head_ref this := c_sha nc]> (refs w) /\
    c_parents nc = [old] /\
    (forall r s, (r, s) ∈ log o -> visible s (branch this) = Some base) /\
    map te_path blobs = map f_path files /\
    visible (final o) (branch this) = Some (layer base blobs) /\
    (forall p, p ∉ map f_path files -> layer base blobs !! p = base !! p) /\
    (forall pre f post,
        files = pre ++ f :: post -> f_path f ∉ map f_path post ->
        served (final o) (branch this) (f_path f) = Some (blob_content f)).

(** The reading of "the later publish fully supersedes the earlier one":
    no file of the [earlier] list whose path is not in the [later] list is
    still served. *)
Definition superseded (w : World) (branch : string)
    (earlier later : list FileSpec) : Prop :=
  forall f, f ∈ earlier -> f_path f ∉ map f_path later ->
            served w branch (f_path f) = None.

(** What a publish does instead: each file of the publish is served with
    its content (the last one, for a path given twice), and every other
    path serves what it served before. *)
Definition layered_on (w w' : World) (branch : string) (files : list FileSpec)
  : Prop :=
  (forall pre f post,
      files = pre ++ f :: post -> f_path f ∉ map f_path post ->
      served w' branch (f_path f) = Some (blob_content f)) /\
  (forall p content,
      p ∉ map f_path files -> served w branch p = Some content ->
      served w' branch p = Some content).
End BranchState.

(** ** The single-file upload and the Pages status

    [uploadFile] and [checkPagesStatus] await calls that the other methods
    do not use; they get a program type of their own, built like [Prog]. *)

Module Single.

(** [response.data] of a create-or-update: the ids of the written file and
    of the commit that wrote it. *)
Record FileChange : Type := mkChange { ch_content : Sha; ch_commit : Sha }.

(** [data] of the Pages read, as far as it is used. *)
Record PagesInfo : Type := mkPages { html_url : string; pages_state : string }.

Inductive Call : Type :=
| GetContent (path ref : string)
| CreateOrUpdateFileContents (path msg content branch : string)
    (sha : option Sha)
| GetPages.

Definition Answer (c : Call) : Type :=
  match c with
  | GetContent _ _ => Content
  | CreateOrUpdateFileContents _ _ _ _ _ => FileChange
  | GetPages => PagesInfo
  end.

Inductive Prog (A : Type) : Type :=
| Ret (a : A)
| Throw (e : JSError)
| Await (c : Call) (k : JSError + Answer c -> Prog A).

Arguments Ret {A} a.
Arguments Throw {A} e.
Arguments Await {A} c k.

Fixpoint bind {A B} (p : Prog A) (f : A -> Prog B) : Prog B :=
  match p with
  | Ret a => f a
  | Throw e => Throw e
  | Await c k => Await c (fun x => bind (k x) f)
  end.

Fixpoint try_catch {A} (p : Prog A) (handler : JSError -> Prog A) : Prog A :=
  match p with
  | Ret a => Ret a
  | Throw e => handler e
  | Await c k => Await c (fun x => try_catch (k x) handler)
  end.

Definition await (c : Call) : Prog (Answer c) :=
  Await c (fun x => match x with inl e => Throw e | inr v => Ret v end).

Definition Handler (St : Type) : Type :=
  forall c : Call, St -> (JSError + Answer c) * St.

(** What a run gives: the value returned or the error thrown, the world
    it leaves and the calls it issued, in order. *)
Record Outcome (St A : Type) : Type := mkOutcome
  { result : JSError + A; final : St; calls : list Call }.

Arguments mkOutcome {St A} result final calls.
Arguments result {St A} o.
Arguments final {St A} o.
Arguments calls {St A} o.

Fixpoint run {St A} (h : Handler St) (p : Prog A) (s : St) : Outcome St A :=
  match p with
  | Ret a => mkOutcome (inr a) s []
  | Throw e => mkOutcome (inl e) s []
  | Await c k =>
      let o := run h (k (h c s).1) (h c s).2 in
      mkOutcome (result o) (final o) (c :: calls o)
  end.

(** [sha = data.sha]: a file answer has a sha, a directory listing (an
    array) has none. *)
Definition sha_of (data : Content) : option Sha :=
  match data with
  | ContentFile item => Some (i_sha item)
  | ContentDir _ => None
  end.

(** The two results of [checkPagesStatus]: [{ enabled: true, url, status }]
    and [{ enabled: false }]. *)
Inductive PagesStatus : Type :=
| Enabled (url state : string)
| Disabled.

Section Methods.
Context `{NodeRuntime}.
Variable this : GitHubPublisher.

Definition uploadFile (path content message : string) (isBase64 : bool)
  : Prog FileChange :=
  try_catch
    (bind
       (* Check if file already exists *)
       (try_catch
          (bind (await (GetContent path (branch this)))
             (fun data => Ret (sha_of data)))
          (fun e => (* File doesn't exist, that's fine *) Ret None))
       (fun sha =>
          (* Create or update file *)
          bind (await (CreateOrUpdateFileContents path message
                         (if isBase64 then content else toBase64 content)
                         (branch this) sha))
            (fun response => Ret response)))
    (fun error => (* console.error *) Throw error).

Definition checkPagesStatus : Prog PagesStatus :=
  try_catch
    (bind (await GetPages)
       (fun data => Ret (Enabled (html_url data) (pages_state data))))
    (fun error =>
       match status error with
       | Some 404 => Ret Disabled
       | _ => Throw error
       end).
End Methods.
End Single.

(** ** The configuration and preview handlers *)

(** [x || d] on values. *)
Definition or_value (x d : JSValue) : JSValue := if truthy x then x else d.

(** [x || null] of an environment variable. *)
Definition or_null (x : option string) : JSValue :=
  match x with
  | Some s => if String.eqb s "" then JNull else JStr s
  | None => JNull
  end.

(** app.get('/api/config', ...) *)
Definition api_config (env : ProcessEnv) : Response :=
  json_ok
    [("githubConfigured", JBool (is_set (GITHUB_TOKEN env)));
     ("owner", or_null (GITHUB_OWNER env));
     ("repo", JStr (or_else (GITHUB_REPO env) "LuminateSPS"));
     ("pagesUrl",
      if is_set (GITHUB_PAGES_BASE_URL env)
      then or_null (GITHUB_PAGES_BASE_URL env)
      else if is_set (GITHUB_OWNER env)
           then JStr ("https://" +:+ interpolate (GITHUB_OWNER env)
                        +:+ ".github.io/"
                        +:+ or_else (GITHUB_REPO env) "LuminateSPS")
           else JNull)].

Definition has_key (k : string) (fields : list (string * JSValue)) : bool :=
  existsb (fun kv => String.eqb k kv.1) fields.

(** The own enumerable properties that [...v] copies: the fields of an
    object, the indexed elements of an array or a string, nothing for other
    values. *)
Definition own_entries (v : JSValue) : list (string * JSValue) :=
  match v with
  | JObj fields => fields
  | JArr xs => imap (fun i x => (pretty i, x)) xs
  | JStr s =>
      imap (fun i c => (pretty i, JStr (String c "")))
        (list_ascii_of_string s)
  | _ => []
  end.

(** [{ ...defaults, ...v }] for an object literal with the given default
    fields: a key of [v] replaces the default of the same key, other keys
    of [v] are added. *)
Definition spread (defaults : list (string * JSValue)) (v : JSValue)
  : list (string * JSValue) :=
  map (fun kd => (kd.1, if has_key kd.1 (own_entries v)
                        then assoc kd.1 (own_entries v) else kd.2))
    defaults
  ++ List.filter (fun kv => negb (has_key kv.1 defaults)) (own_entries v).

Definition property_placeholders : list (string * JSValue) :=
  [("address", JStr "123 Main St"); ("city", JStr "City"); ("state", JStr "ST");
   ("zip", JStr "00000"); ("price", JNum 500000); ("bedrooms", JNum 3);
   ("bathrooms", JNum 2); ("sqft", JNum 2000); ("yearBuilt", JNum 2000);
   ("description", JStr "Beautiful property description goes here.")].

Definition realtor_placeholders : list (string * JSValue) :=
  [("name", JStr "Realtor Name"); ("company", JStr "Realty Company");
   ("license", JStr "RE123456"); ("phone", JStr "(555) 123-4567");
   ("email", JStr "realtor@example.com")].

Definition loanOfficer_placeholders : list (string * JSValue) :=
  [("name", JStr "Loan Officer Name"); ("company", JStr "Lending Company");
   ("nmls", JStr "123456"); ("phone", JStr "(555) 987-6543");
   ("email", JStr "lo@example.com")].

(** [generatePropertyHTML] applied to the preview object: the renderer of
    [./template] again, here on the untyped object the preview hands over
    (its photos are passed as the body gave them). *)
Class PreviewTemplate : Type := { renderPreview : JSValue -> string }.

Section Preview.
Context `{NodeRuntime} `{PreviewTemplate}.
Variable env : ProcessEnv.

Definition preview_slug (data : JSValue) : string :=
  Slug.slugify
    (ToString (or_value (get (get data "property") "address") (JStr "preview"))
       +:+ "-"
       +:+ ToString (or_value (get (get data "property") "city") (JStr "city"))).

Definition previewData (data : JSValue) : JSValue :=
  JObj
    [("property", JObj (spread property_placeholders (get data "property")));
     ("realtor", JObj (spread realtor_placeholders (get data "realtor")));
     ("loanOfficer",
      JObj (spread loanOfficer_placeholders (get data "loanOfficer")));
     ("photos",
      or_value (get data "photos")
        (JArr [JObj [("url", JStr "https://images.unsplash.com/photo-1568605114967-8130f3a36994?w=800");
                     ("label", JStr "Front Exterior")]]));
     ("testimonials", or_value (get data "testimonials") (JArr []));
     ("githubOwner", JStr (or_else (GITHUB_OWNER env) "OWNER"));
     ("githubRepo", JStr (or_else (GITHUB_REPO env) "LuminateSPS"));
     ("propertySlug", JStr (preview_slug data))].

(** app.post('/api/preview', ...) with [data = req.body] *)
Definition api_preview (data : JSValue) : Response :=
  match data with
  | JUndefined | JNull =>
      (* data.property throws, the catch answers *)
      json_error 500
        (TypeError ("Cannot read properties of " +:+ ToString data
                      +:+ " (reading 'property')"))
  | _ =>
      if converts (or_value (get (get data "property") "address") (JStr "preview"))
         && converts (or_value (get (get data "property") "city") (JStr "city"))
      then json_ok [("success", JBool true);
                    ("html", JStr (renderPreview (previewData data)))]
      else
        (* the template literal of the slug throws, the catch answers *)
        json_error 500 (TypeError "Cannot convert object to primitive value")
  end.
End Preview.

(** ** The photo list of the form page *)

Module Client.
Local Open Scope nat_scope.

(** An element of [uploadedPhotos]: [{ path, label, preview }]. *)
Record Photo : Type := mkPhoto
  { path : string; label : string; preview : string }.

(** An element of [data.files] in the answer of the upload endpoint, as
    far as the page reads it. *)
Record UploadedFile : Type := mkUploaded { file_path : string }.

(** The answer to the upload request: [None] when [fetch] or [res.json]
    throws, else [data.success] and [data.files]. *)
Definition UploadAnswer : Type := option (bool * list UploadedFile).

Section Page.
Context {File : Type}.

(** The files appended to the form: the loop stops when the photo list,
    as it is before the upload, has reached 20. *)
Fixpoint form_files (uploadedPhotos : list Photo) (files : list File)
  : list File :=
  match files with
  | [] => []
  | file :: rest =>
      if 20 <=? length uploadedPhotos then (* showToast *) []
      else file :: form_files uploadedPhotos rest
  end.

(** The server behind [fetch('/api/upload')]. *)
Variable fetch_upload : list File -> UploadAnswer.

(** [handlePhotoFiles]: the photo list after the call. *)
Definition handlePhotoFiles (uploadedPhotos : list Photo) (files : list File)
  : list Photo :=
  match fetch_upload (form_files uploadedPhotos files) with
  | Some (true, uploaded) =>
      uploadedPhotos
        ++ map (fun file => mkPhoto (file_path file) "" (file_path file))
             uploaded
  | Some (false, _) => uploadedPhotos
  | None => (* showToast *) uploadedPhotos
  end.
End Page.

(** [data.photos] as [getFormData] builds it. *)
Definition form_photos (uploadedPhotos : list Photo) : JSValue :=
  JArr (map (fun photo => JObj [("path", JStr (path photo));
                                ("label", JStr (label photo))])
          uploadedPhotos).
End Client.

(** ** Statements about the photo files *)

(** An extension as [path.extname] gives it: empty, or a dot and more. *)
Definition is_extension (e : string) : Prop :=
  e = "" \/ exists r, e = String "."%char r.

Fixpoint has_dot (s : string) : bool :=
  match s with
  | EmptyString => false
  | String c r => Ascii.eqb c "."%char || has_dot r
  end.

(** The photos of [added] stand at positions [n], [n + 1], ... of the
    photo list: each one that carries file content is named after its
    position, counted from 1, followed by the extension of its upload. *)
Definition numbered_from `{NodeRuntime} (n : nat) (added : list Photo) : Prop :=
  forall i photo,
    added !! i = Some photo ->
    p_base64Content photo = None
    \/ exists p, p_filename photo
                 = Some ("photo-" +:+ pretty (n + i + 1) +:+ extname p).

(** ** Statements about single calls *)

Section Fulfilment.
Context {St : Type} (h : Handler St).

(** The logged call was fulfilled by the world it met. *)
Definition fulfilled (rs : Request * St) : Prop :=
  exists v, reply h rs.1 rs.2 = inr v.
End Fulfilment.

(** ** Statements about responses *)

(** A success payload is sent with status 200 and [success: true]; an
    error payload with status 400 or 500, [success: false] and the error
    text. *)
Definition success_payload (r : Response) : Prop :=
  res_status r = 200 /\ get (res_body r) "success" = JBool true.

Definition error_payload (r : Response) : Prop :=
  (res_status r = 400 \/ res_status r = 500)
  /\ get (res_body r) "success" = JBool false
  /\ exists text, get (res_body r) "error" = JStr text.

(** ** Worlds for the examples *)

Module Demo.

(** A site of one page, without images. *)
Definition page_only : Hosting.World :=
  final (run Hosting.hosting
           (publishPropertySite Node.publisher "12-oak-ave-salem" "<h1>v1</h1>" [])
           Hosting.fresh).

(** A directory with one file and one sub-directory. *)
Definition nested : Hosting.World :=
  final (run Hosting.hosting
           (uploadMultipleFiles Node.publisher
              [mkFile "properties/demo/a.txt" "first" false;
               mkFile "properties/demo/z/b.txt" "second" false]
              "Add demo")
           Hosting.fresh).

(** A hosting service that is down: every call is rejected with status
    503. *)
Definition unavailable : JSError := mkError "Service Unavailable" (Some 503).

Definition down : Handler unit :=
  fun r s =>
    (match r as r0 return JSError + Reply r0 with
     | _ => inl unavailable
     end, s).

(** A repository with one staged upload on the disk, and the photo of a
    request that names it. *)
Definition staged : Hosting.World :=
  Hosting.mkWorld (Hosting.objects Hosting.fresh) (Hosting.refs Hosting.fresh)
    {["/app/generator/uploads/a.jpg" := "JPEG"]}.

Definition staged_photo : JSValue :=
  JObj [("path", JStr "/uploads/a.jpg"); ("label", JStr "Front")].

(** The same with an upload of no bytes. *)
Definition staged_empty : Hosting.World :=
  Hosting.mkWorld (Hosting.objects Hosting.fresh) (Hosting.refs Hosting.fresh)
    {["/app/generator/uploads/a.jpg" := ""]}.

(** A complete request body whose [photos] is the given value. *)
Definition with_photos (photos : JSValue) : JSValue :=
  match Node.request 3 [] with
  | JObj fields => JObj (("photos", photos) :: fields)
  | body => body
  end.
End Demo.

(** * Properties *)

(** ** Running programs *)

Section RunLemmas.
Context {St : Type} (h : Handler St).

Lemma run_bind {A B} (p : Prog A) (f : A -> Prog B) s :
  run h (bind p f) s =
    match result (run h p s) with
    | inl e => mkOutcome (inl e) (final (run h p s)) (log (run h p s))
    | inr a =>
        let o := run h (f a) (final (run h p s)) in
        mkOutcome (result o) (final o) (log (run h p s) ++ log o)
    end.
Proof.
    revert s. induction p as [a|e|r k IH]; intros s; simpl.
    - by destruct (run h (f a) s).
    - done.
    - rewrite IH. by destruct (result (run h (k (h r s).1) (h r s).2)).
Qed.

Lemma run_try_catch {A} (p : Prog A) (handler : JSError -> Prog A) s :
  run h (try_catch p handler) s =
    match result (run h p s) with
    | inl e =>
        let o := run h (handler e) (final (run h p s)) in
        mkOutcome (result o) (final o) (log (run h p s) ++ log o)
    | inr a => mkOutcome (inr a) (final (run h p s)) (log (run h p s))
    end.
Proof.
    revert s. induction p as [a|e|r k IH]; intros s; simpl.
    - done.
    - by destruct (run h (handler e) s).
    - rewrite IH. by destruct (result (run h (k (h r s).1) (h r s).2)).
Qed.

Lemma run_await r s :
  run h (await r) s = mkOutcome (h r s).1 (h r s).2 [(r, s)].
Proof. unfold await. simpl. by destruct (h r s).1. Qed.

(** Rethrowing in the handler is the same as no handler. *)
Lemma run_rethrow {A} (p : Prog A) s :
  run h (try_catch p (fun e => Throw e)) s = run h p s.
Proof.
    rewrite run_try_catch. destruct (run h p s) as [[e|a] s' tr]; simpl; [|done].
    by rewrite app_nil_r.
Qed.
End RunLemmas.

(** ** The publish protocol against any world *)

Section Protocol.
Context {St : Type} (h : Handler St) `{NodeRuntime}.
Variable this : GitHubPublisher.

Lemma run_create_blob f s :
  run h (settle (create_blob f)) s =
    mkOutcome
      (inr match reply h (blob_request f) s with
           | inl e => inl e
           | inr sha => inr (blob_entry f sha)
           end)
      (after h (blob_request f) s) [(blob_request f, s)].
Proof.
    unfold settle, create_blob, reply, after. simpl.
    by destruct (h (blob_request f) s) as [[e|sha] s1].
Qed.

Lemma run_all_settled files s :
  run h (all_settled (map create_blob files)) s =
    mkOutcome (inr (blobs_settled h files s)) (blobs_final h files s)
      (blobs_log h files s).
Proof.
    revert s. induction files as [|f fs IH]; intros s; [done|].
    cbn [map all_settled]. rewrite run_bind, run_create_blob. cbn.
    rewrite run_bind, IH. cbn. by rewrite app_nil_r.
Qed.

Lemma run_promise_all files s :
  run h (promise_all (map create_blob files)) s =
    mkOutcome (collect (blobs_settled h files s)) (blobs_final h files s)
      (blobs_log h files s).
Proof.
    unfold promise_all. rewrite run_bind, run_all_settled. cbn.
    destruct (collect (blobs_settled h files s)); cbn; by rewrite app_nil_r.
Qed.

Lemma run_upload files msg s0 :
  run h (uploadMultipleFiles this files msg) s0 =
    upload_outcome h this files msg s0.
Proof.
    unfold uploadMultipleFiles, upload_outcome. rewrite run_rethrow.
    unfold reply, after.
    rewrite run_bind, run_await; cbn [result final log].
    destruct (h (GitGetRef (head_ref this)) s0) as [[e|c] s1];
      cbn [fst snd]; [done|].
    rewrite run_bind, run_await; cbn [result final log].
    destruct (h (GitGetCommit c) s1) as [[e|cd] s2]; cbn [fst snd]; [done|].
    rewrite run_bind, run_promise_all; cbn [result final log].
    destruct (collect (blobs_settled h files s2)) as [e|blobs]; [done|].
    rewrite run_bind, run_await; cbn [result final log].
    destruct (h (GitCreateTree (c_tree cd) blobs) (blobs_final h files s2))
      as [[e|t] s4]; cbn [fst snd]; [by rewrite <- !app_assoc|].
    rewrite run_bind, run_await; cbn [result final log].
    destruct (h (GitCreateCommit msg t [c]) s4) as [[e|nc] s5]; cbn [fst snd];
      [by rewrite <- !app_assoc|].
    rewrite run_bind, run_await; cbn [result final log].
    destruct (h (GitUpdateRef (head_ref this) (c_sha nc)) s5) as [[e|[]] s6];
      cbn [fst snd result final log run]; by rewrite <- ?app_assoc.
Qed.

Lemma answers_reply s r (v : Reply r) :
  reply h r s = inr v -> answers h s r v (after h r s).
Proof. unfold reply, after, answers. by destruct (h r s) as [x s']; cbn; intros ->. Qed.

Lemma reply_answers s r (v : Reply r) s' :
  answers h s r v s' -> reply h r s = inr v /\ after h r s = s'.
Proof. unfold reply, after, answers. by intros ->. Qed.

Lemma blobs_log_requests files s :
  (blobs_log h files s).*1 = map blob_request files.
Proof. revert s. induction files as [|f fs IH]; intros s; cbn; [done|]. by rewrite IH. Qed.

Lemma blobs_log_step files s r s' :
  (r, s') ∈ blobs_log h files s -> step_of r = 3.
Proof.
    revert s. induction files as [|f fs IH]; intros s; cbn.
    - by intros ?%elem_of_nil.
    - intros [[= -> ->]|Hin]%elem_of_cons; [done|eauto].
Qed.

(** All blob calls were fulfilled exactly when the settled results
    collect to a list of tree entries. *)
Lemma collect_blobs files s blobs :
  collect (blobs_settled h files s) = inr blobs <->
  BlobsCreated h s files blobs (blobs_final h files s).
Proof.
    revert s blobs. induction files as [|f fs IH]; intros s blobs; cbn.
    - split; [intros [= <-]; constructor | by inversion 1].
    - split.
      + destruct (reply h (blob_request f) s) as [e|sha] eqn:Hr; [done|].
        destruct (collect (blobs_settled h fs (after h (blob_request f) s)))
          as [e|bs] eqn:Hc; [done|].
        intros [= <-]. econstructor; [by apply answers_reply|by apply IH].
      + inversion 1 as [|? ? sha s1 ? bs ? Ha Hb]; subst.
        apply reply_answers in Ha as [Hrep <-]. rewrite Hrep.
        apply IH in Hb. by rewrite Hb.
Qed.

Lemma blobs_created_fulfilled files s blobs r s' :
  collect (blobs_settled h files s) = inr blobs ->
  (r, s') ∈ blobs_log h files s -> exists v, reply h r s' = inr v.
Proof.
    revert s blobs. induction files as [|f fs IH]; intros s blobs; cbn.
    - by intros _ ?%elem_of_nil.
    - destruct (reply h (blob_request f) s) as [e|sha] eqn:Hr; [done|].
      destruct (collect (blobs_settled h fs (after h (blob_request f) s)))
        as [e|bs] eqn:Hc; [done|].
      intros _ [[= -> ->]|Hin]%elem_of_cons; eauto.
Qed.


Lemma blobs_created_paths s files blobs s' :
  BlobsCreated h s files blobs s' -> map te_path blobs = map f_path files.
Proof. induction 1; cbn; [done|]. by f_equal. Qed.
End Protocol.

(** ** The order of the protocol and its failures *)

Section ProtocolOrder.
Context {St : Type} (h : Handler St) `{NodeRuntime}.
Variable this : GitHubPublisher.

Ltac split_log Hin :=
  repeat (first
    [ apply elem_of_app in Hin as [Hin|Hin]
    | apply elem_of_cons in Hin as [Hin|Hin]
    | apply elem_of_nil in Hin as [] ]).


Lemma upload_success_inv files msg s0 nc :
  result (upload_outcome h this files msg s0) = inr nc ->
  exists c cd blobs t s1 s2 s3 s4 s5,
    answers h s0 (GitGetRef (head_ref this)) c s1 /\
    answers h s1 (GitGetCommit c) cd s2 /\
    BlobsCreated h s2 files blobs s3 /\
    answers h s3 (GitCreateTree (c_tree cd) blobs) t s4 /\
    answers h s4 (GitCreateCommit msg t [c]) nc s5 /\
    answers h s5 (GitUpdateRef (head_ref this) (c_sha nc)) tt
      (final (upload_outcome h this files msg s0)) /\
    log (upload_outcome h this files msg s0) =
      (GitGetRef (head_ref this), s0) :: (GitGetCommit c, s1)
        :: blobs_log h files s2
        ++ [(GitCreateTree (c_tree cd) blobs, s3);
            (GitCreateCommit msg t [c], s4);
            (GitUpdateRef (head_ref this) (c_sha nc), s5)].
Proof.
  unfold upload_outcome.
  destruct (reply h (GitGetRef (head_ref this)) s0) as [e|c] eqn:H1; [by cbn|].
  destruct (reply h (GitGetCommit c) _) as [e|cd] eqn:H2; [by cbn|].
  destruct (collect _) as [e|blobs] eqn:H3; [by cbn|].
  destruct (reply h (GitCreateTree _ _) _) as [e|t] eqn:H4; [by cbn|].
  destruct (reply h (GitCreateCommit _ _ _) _) as [e|nc'] eqn:H5; [by cbn|].
  destruct (reply h (GitUpdateRef _ _) _) as [e|[]] eqn:H6; [by cbn|].
  cbn. intros [= ->].
  eexists c, cd, blobs, t, _, _, _, _, _.
  split_and!; try (apply answers_reply; eassumption).
  - by apply collect_blobs.
  - done.
Qed.

(** The converse: when the world fulfils the six steps in turn, the
    upload returns the new commit. *)
Lemma upload_succeeds files msg s0 c cd blobs t nc s1 s2 s3 s4 s5 s6 :
  answers h s0 (GitGetRef (head_ref this)) c s1 ->
  answers h s1 (GitGetCommit c) cd s2 ->
  BlobsCreated h s2 files blobs s3 ->
  answers h s3 (GitCreateTree (c_tree cd) blobs) t s4 ->
  answers h s4 (GitCreateCommit msg t [c]) nc s5 ->
  answers h s5 (GitUpdateRef (head_ref this) (c_sha nc)) tt s6 ->
  result (run h (uploadMultipleFiles this files msg) s0) = inr nc /\
  final (run h (uploadMultipleFiles this files msg) s0) = s6.
Proof.
  intros [H1 <-]%reply_answers [H2 <-]%reply_answers Hb.
  assert (s3 = blobs_final h files (after h (GitGetCommit c)
            (after h (GitGetRef (head_ref this)) s0))) as ->.
  { clear -Hb. induction Hb as [|s f sha s1 fs bs s2 Ha _ IH]; [done|].
    cbn. apply reply_answers in Ha as [_ <-]. done. }
  apply collect_blobs in Hb.
  intros [H4 <-]%reply_answers [H5 <-]%reply_answers [H6 <-]%reply_answers.
  rewrite run_upload. unfold upload_outcome.
  rewrite H1, H2, Hb, H4, H5, H6. done.
Qed.

(** Every request of an upload belongs to one of the six steps. *)
Lemma upload_log_steps files msg s0 r s :
  (r, s) ∈ log (upload_outcome h this files msg s0) ->
  1 <= step_of r <= 6.
Proof.
  unfold upload_outcome.
  destruct (reply h (GitGetRef (head_ref this)) s0) as [e|c];
    [|destruct (reply h (GitGetCommit c) _) as [e|cd];
      [|destruct (collect _) as [e|blobs];
        [|destruct (reply h (GitCreateTree _ _) _) as [e|t];
          [|destruct (reply h (GitCreateCommit _ _ _) _) as [e|nc'];
            [|destruct (reply h (GitUpdateRef _ _) _) as [e|[]]]]]]];
    cbn [log]; intros Hin; split_log Hin;
    try (injection Hin as -> ->; cbn; lia);
    apply blobs_log_step in Hin; lia.
Qed.


End ProtocolOrder.

(** ** The hosted repository: objects are only ever added *)

Section HostingFacts.
Import Hosting.

Lemma intern_lookup o objs :
  (intern o objs).2 !! (intern o objs).1 = Some o.
Proof.
  unfold intern. destruct (list_find (eq o) objs) as [[i x]|] eqn:Hf; cbn.
  - apply list_find_Some in Hf as (Hi & -> & _). done.
  - rewrite lookup_app_r by done. by rewrite Nat.sub_diag.
Qed.

Lemma intern_extends o objs :
  (intern o objs).2 = objs \/ (intern o objs).2 = objs ++ [o].
Proof. unfold intern. destruct (list_find (eq o) objs) as [[i x]|]; auto. Qed.

Lemma intern_prefix o objs : objs `prefix_of` (intern o objs).2.
Proof.
  destruct (intern_extends o objs) as [-> | ->]; [done|]. by apply prefix_app_r.
Qed.

Lemma tree_of_prefix objs objs' sha m :
  objs `prefix_of` objs' -> tree_of objs sha = Some m -> tree_of objs' sha = Some m.
Proof.
  unfold tree_of. intros Hp.
  destruct (objs !! sha) as [o|] eqn:Ho; [|done].
  by rewrite (prefix_lookup_Some _ _ _ _ Ho Hp).
Qed.

Lemma commit_of_prefix objs objs' sha c :
  objs `prefix_of` objs' -> commit_of objs sha = Some c ->
  commit_of objs' sha = Some c.
Proof.
  unfold commit_of. intros Hp.
  destruct (objs !! sha) as [o|] eqn:Ho; [|done].
  by rewrite (prefix_lookup_Some _ _ _ _ Ho Hp).
Qed.

(** A reader's view of a branch does not change while the branch pointers
    stay and objects are added. *)
Lemma visible_prefix w w' b m :
  refs w' = refs w -> objects w `prefix_of` objects w' ->
  visible w b = Some m -> visible w' b = Some m.
Proof.
  unfold visible. intros -> Hp.
  destruct (refs w !! ("heads/" +:+ b)) as [tip|]; [cbn|done].
  destruct (commit_of (objects w) tip) as [c|] eqn:Hc; [cbn|done].
  rewrite (commit_of_prefix _ _ _ _ Hp Hc). cbn.
  by apply tree_of_prefix.
Qed.

Lemma served_prefix w w' b p content :
  refs w' = refs w -> objects w `prefix_of` objects w' ->
  served w b p = Some content -> served w' b p = Some content.
Proof.
  unfold served. intros Hr Hp.
  destruct (visible w b) as [m|] eqn:Hv; [cbn|done].
  rewrite (visible_prefix _ _ _ _ Hr Hp Hv). cbn.
  destruct (m !! p) as [sha|]; [cbn|done].
  destruct (objects w !! sha) as [o|] eqn:Ho; [|done].
  by rewrite (prefix_lookup_Some _ _ _ _ Ho Hp).
Qed.

(** *** Layering entries on a tree *)

Lemma layer_cons base e es :
  layer base (e :: es) = layer (<[te_path e := te_sha e]> base) es.
Proof. done. Qed.

Lemma layer_untouched base es p :
  p ∉ map te_path es -> layer base es !! p = base !! p.
Proof.
  revert base. induction es as [|e es IH]; intros base Hp; [done|].
  rewrite layer_cons, IH.
  - apply lookup_insert_ne. intros <-. apply Hp. cbn. apply elem_of_cons. by left.
  - intros Hin. apply Hp. cbn. apply elem_of_cons. by right.
Qed.

Lemma layer_replaced base pre e post :
  te_path e ∉ map te_path post ->
  layer base (pre ++ e :: post) !! te_path e = Some (te_sha e).
Proof.
  intros Hp. unfold layer. rewrite foldl_app. cbn.
  fold (layer (<[te_path e := te_sha e]>
                 (foldl (fun m e0 => <[te_path e0 := te_sha e0]> m) base pre)) post).
  rewrite layer_untouched by done. apply lookup_insert_eq.
Qed.
End HostingFacts.

(** ** The publish protocol against the hosted repository *)

Section HostingUpload.
Import Hosting.
Context `{NodeRuntime}.
Variable this : GitHubPublisher.

Lemma tree_of_not_new objs extra sha m :
  Forall is_blob_object extra ->
  tree_of (objs ++ extra) sha = Some m -> tree_of objs sha = Some m.
Proof.
  unfold tree_of. intros Hall.
  destruct (decide (sha < length objs)) as [Hlt|Hge].
  - by rewrite lookup_app_l.
  - rewrite lookup_app_r by lia.
    destruct (extra !! (sha - length objs)) as [o|] eqn:Ho; [|done].
    apply list_elem_of_lookup_2 in Ho.
    rewrite Forall_forall in Hall. specialize (Hall _ Ho).
    by destruct o.
Qed.

(** Step 3 adds blobs and nothing else. *)
Lemma blobs_created_hosting w files blobs w' :
  BlobsCreated hosting w files blobs w' ->
  refs w' = refs w /\
  (exists extra, objects w' = objects w ++ extra /\ Forall is_blob_object extra) /\
  Forall2 (stored w') files blobs.
Proof.
  induction 1 as [w|w f sha w1 fs blobs w2 Ha _ IH].
  - split_and!; [done|exists []; by rewrite app_nil_r|constructor].
  - destruct IH as (Hrefs & (extra & Hobjs & Hextra) & Hall).
    unfold answers in Ha. cbn in Ha.
    pose proof (intern_lookup (OBlob (blob_content f) "base64") (objects w)) as Hl.
    pose proof (intern_extends (OBlob (blob_content f) "base64") (objects w)) as He.
    destruct (intern _ _) as [sha' objs']. cbn in Hl, He.
    inversion Ha; subst; clear Ha. cbn in *.
    split_and!.
    + done.
    + destruct He as [-> | ->].
      * by exists extra.
      * exists (OBlob (blob_content f) "base64" :: extra).
        split; [by rewrite Hobjs, <- app_assoc|by constructor].
    + constructor; [|done]. split; [done|].
      rewrite Hobjs. by apply lookup_app_l_Some.
Qed.

Lemma blobs_log_hosting files w r s :
  (r, s) ∈ blobs_log hosting files w ->
  refs s = refs w /\ objects w `prefix_of` objects s.
Proof.
  revert w. induction files as [|f fs IH]; intros w; cbn.
  - by intros ?%elem_of_nil.
  - intros [[= -> ->]|Hin]%elem_of_cons; [done|].
    apply IH in Hin as [-> Hp]. unfold after in *. cbn in *.
    pose proof (intern_prefix (OBlob (blob_content f) "base64") (objects w)) as Hi.
    destruct (intern _ _) as [sha' objs']. cbn in *.
    split; [done|by etrans].
Qed.

(** What a successful upload does to the repository. *)
Lemma upload_hosting_success files msg w nc :
  result (run hosting (uploadMultipleFiles this files msg) w) = inr nc ->
  let o := run hosting (uploadMultipleFiles this files msg) w in
  exists old base blobs,
    refs w !! head_ref this = Some old /\
    visible w (branch this) = Some base /\
    c_parents nc = [old] /\
    refs (final o) = <[head_ref this := c_sha nc]> (refs w) /\
    objects w `prefix_of` objects (final o) /\
    visible (final o) (branch this) = Some (layer base blobs) /\
    Forall2 (stored (final o)) files blobs /\
    (forall r s, (r, s) ∈ log o ->
                 refs s = refs w /\ objects w `prefix_of` objects s).
Proof.
  intros Hres o. unfold o. clear o. revert Hres. rewrite run_upload. intros Hres.
  destruct (upload_success_inv _ _ _ _ _ _ Hres)
    as (c & cd & blobs & t & s1 & s2 & s3 & s4 & s5
        & H1 & H2 & Hb & H4 & H5 & H6 & Hlog).
  rewrite Hlog. clear Hlog Hres.
  set (w' := final (upload_outcome hosting this files msg w)) in *. clearbody w'.
  (* steps 1 and 2 read *)
  unfold answers in H1. cbn in H1.
  destruct (refs w !! head_ref this) as [old|] eqn:Hold; [|done].
  injection H1 as <- <-.
  unfold answers in H2. cbn in H2.
  destruct (commit_of (objects w) old) as [cd'|] eqn:Hcd; [|done].
  injection H2 as <- <-. rename cd' into cd.
  (* step 3 adds blobs *)
  pose proof (blobs_log_hosting files w) as Hblog.
  apply blobs_created_hosting in Hb as (Hr3 & (extra & Ho3 & Hextra) & Hall).
  (* step 4 *)
  unfold answers in H4. cbn in H4.
  destruct (tree_of (objects s3) (c_tree cd)) as [base|] eqn:Hbase; [|done].
  destruct (forallb _ blobs); [|done].
  pose proof (intern_lookup (OTree (layer base blobs)) (objects s3)) as Hl4.
  pose proof (intern_prefix (OTree (layer base blobs)) (objects s3)) as Hp4.
  destruct (intern _ _) as [t' objs4]. cbn in Hl4, Hp4.
  injection H4 as <- <-. rename t' into t.
  (* step 5 *)
  unfold answers in H5. cbn in H5.
  destruct (tree_of objs4 t) as [m5|]; [|done].
  destruct (is_commit objs4 old); cbn in H5; [|done].
  pose proof (intern_lookup (OCommit msg t [old]) objs4) as Hl5.
  pose proof (intern_prefix (OCommit msg t [old]) objs4) as Hp5.
  destruct (intern _ _) as [sha5 objs5]. cbn in Hl5, Hp5.
  injection H5 as <- <-. cbn in *.
  (* step 6 *)
  unfold answers in H6. cbn in H6. rewrite Hr3 in H6.
  change ("heads/" +:+ branch this) with (head_ref this) in *.
  rewrite Hold in H6.
  destruct (is_commit objs5 sha5); [|done].
  injection H6 as <-. cbn.
  assert (objects w `prefix_of` objects s3) as Hp3 by (rewrite Ho3; by apply prefix_app_r).
  rewrite Ho3 in Hbase. apply tree_of_not_new in Hbase; [|done].
  exists old, base, blobs. split_and!; try done.
  - unfold visible. change ("heads/" +:+ branch this) with (head_ref this).
    rewrite Hold. cbn. rewrite Hcd. done.
  - by do 2 (etrans; [|eassumption]).
  - unfold visible. cbn. change ("heads/" +:+ branch this) with (head_ref this).
    rewrite lookup_insert_eq. cbn. unfold commit_of. rewrite Hl5. cbn.
    unfold tree_of. by rewrite (prefix_lookup_Some _ _ _ _ Hl4 Hp5).
  - eapply Forall2_impl; [exact Hall|]. cbn. intros f e [Hpath Hobj].
    split; [done|].
    eapply prefix_lookup_Some; [exact Hobj|]. by etrans.
  - intros r s Hin.
    repeat (first [ apply elem_of_cons in Hin as [Hin|Hin]
                  | apply elem_of_app in Hin as [Hin|Hin]
                  | apply elem_of_nil in Hin as [] ]);
      try (injection Hin as -> ->; cbn; split; [congruence|]);
      try done.
    + by apply (Hblog _ _ Hin).
    + by etrans.
    + by do 2 (etrans; [|eassumption]).
Qed.
End HostingUpload.

(** ** The claims about the commit publisher *)



Section PublishOnHosting.
Import Hosting.
Context `{NodeRuntime}.
Variable this : GitHubPublisher.

Lemma stored_paths w' files blobs :
  Forall2 (stored w') files blobs -> map te_path blobs = map f_path files.
Proof. induction 1 as [|f e fs es [Hp _] _ IH]; cbn; [done|]. by rewrite Hp, IH. Qed.

(** A file of the list is served with its content, unless a later file
    has its path. *)
Lemma served_layered w' base blobs files pre f post :
  visible w' (branch this) = Some (layer base blobs) ->
  Forall2 (stored w') files blobs ->
  files = pre ++ f :: post -> f_path f ∉ map f_path post ->
  served w' (branch this) (f_path f) = Some (blob_content f).
Proof.
  intros Hv Hall -> Hlast.
  apply Forall2_app_inv_l in Hall as (bpre & brest & Hpre & Hrest & ->).
  apply Forall2_cons_inv_l in Hrest as (e & bpost & [Hpath Hobj] & Hpost & ->).
  unfold served. rewrite Hv. cbn.
  rewrite <- Hpath, layer_replaced.
  - cbn. by rewrite Hobj.
  - by rewrite (stored_paths _ _ _ Hpost), Hpath.
Qed.

(** A path outside the list serves what it served. *)
Lemma served_kept w w' base blobs files p content :
  visible w (branch this) = Some base ->
  visible w' (branch this) = Some (layer base blobs) ->
  objects w `prefix_of` objects w' ->
  map te_path blobs = map f_path files ->
  p ∉ map f_path files ->
  served w (branch this) p = Some content ->
  served w' (branch this) p = Some content.
Proof.
  intros Hv Hv' Hp Hpaths Hout. unfold served. rewrite Hv, Hv'. cbn.
  rewrite layer_untouched by (by rewrite Hpaths).
  destruct (base !! p) as [sha|]; [cbn|done].
  destruct (objects w !! sha) as [o|] eqn:Ho; [|done].
  by rewrite (prefix_lookup_Some _ _ _ _ Ho Hp).
Qed.

Lemma upload_layers files msg w nc :
  result (run hosting (uploadMultipleFiles this files msg) w) = inr nc ->
  layered_on w (final (run hosting (uploadMultipleFiles this files msg) w))
    (branch this) files.
Proof.
  intros Hres.
  destruct (upload_hosting_success this files msg w nc Hres)
    as (old & base & blobs & Hold & Hbase & Hpar & Hrefs & Hpre & Hvis & Hall & Hlog).
  split.
  - intros pre f post. by eapply served_layered.
  - intros p content. eapply served_kept; eauto using stored_paths.
Qed.
End PublishOnHosting.

(** C1. A multi-file publish that returns successfully moves the branch
    pointer exactly once, by its last request, to one new commit whose
    parent is the previous tip and whose tree is the previous tree with
    all supplied files layered on; every state of the repository before
    that move still shows the previous tree, so no reader sees a branch
    with only part of the files.  (A tree holds one blob per path: of two
    supplied files with the same path the later one is the one served.) *)
Theorem publish_is_atomic `{NodeRuntime} (this : GitHubPublisher)
    (files : list FileSpec) (msg : string) (w : Hosting.World)
    (nc : GitCommit) :
  result (run Hosting.hosting (uploadMultipleFiles this files msg) w) = inr nc ->
  atomic_publish this files w
    (run Hosting.hosting (uploadMultipleFiles this files msg) w) nc.
Proof.
  intros Hres.
  destruct (upload_hosting_success this files msg w nc Hres)
    as (old & base & blobs & Hold & Hbase & Hpar & Hrefs & Hpre & Hvis & Hall & Hlog).
  pose proof (stored_paths _ _ _ Hall) as Hpaths.
  exists old, base, blobs. split_and!; try done.
  - revert Hres. rewrite run_upload. intros Hres.
    destruct (upload_success_inv _ _ _ _ _ _ Hres)
      as (c & cd & blobs' & t & s1 & s2 & s3 & s4 & s5 & _ & _ & _ & _ & _ & _ & Hl).
    unfold requests. rewrite Hl. cbn. rewrite fmap_app, blobs_log_requests.
    rewrite List.filter_app. cbn.
    replace (List.filter is_update_ref (map (blob_request) files)) with (@nil Request);
      [done|].
    clear. induction files as [|f fs IH]; [done|]. cbn. done.
  - intros r s Hin. destruct (Hlog r s Hin) as [Hr Hp].
    by eapply visible_prefix.
  - intros p Hout. apply layer_untouched. by rewrite Hpaths.
  - intros pre f post. by eapply served_layered.
Qed.

Lemma publish_is_atomic_witness :
  result (run Hosting.hosting
            (uploadMultipleFiles Node.publisher Node.first_publish "Add site")
            Hosting.fresh)
    = inr (mkCommit 5 4 [1] "Add site") /\
  atomic_publish Node.publisher Node.first_publish Hosting.fresh
    (run Hosting.hosting
       (uploadMultipleFiles Node.publisher Node.first_publish "Add site")
       Hosting.fresh)
    (mkCommit 5 4 [1] "Add site").
Proof.
  split; [vm_compute; reflexivity|].
  apply publish_is_atomic. vm_compute. reflexivity.
Defined.

Lemma run_publish `{NodeRuntime} {St : Type} (h : Handler St)
    (this : GitHubPublisher) slug html images s :
  run h (publishPropertySite this slug html images) s =
    let o := run h (uploadMultipleFiles this (site_files slug html images)
                      ("Add property site: " +:+ slug)) s in
    mkOutcome
      match result o with
      | inl e => inl e
      | inr _ =>
          inr {| pub_url := pagesBaseUrl this +:+ "/properties/" +:+ slug +:+ "/";
                 pub_path := site_dir slug +:+ "/" |}
      end
      (final o) (log o).
Proof.
  unfold publishPropertySite. rewrite run_bind. cbn zeta.
  destruct (result (run h (uploadMultipleFiles _ _ _) s)); cbn; [done|].
  by rewrite app_nil_r.
Qed.

(** C3, as the code has it.  A successful publish of a site serves every
    file of that publish with its content and leaves every other path of
    the branch serving what it served before: files of an earlier publish
    to the same slug that the later publish does not supply remain (the
    new tree is the previous tree with the new files layered on). *)
Theorem republish_layers `{NodeRuntime} (this : GitHubPublisher)
    (slug html : string) (images : list Photo) (w : Hosting.World)
    (res : Published) :
  result (run Hosting.hosting (publishPropertySite this slug html images) w)
    = inr res ->
  layered_on w
    (final (run Hosting.hosting (publishPropertySite this slug html images) w))
    (branch this) (site_files slug html images).
Proof.
  rewrite run_publish. cbn zeta. cbn [result final].
  destruct (result (run Hosting.hosting (uploadMultipleFiles _ _ _) w))
    as [e|nc] eqn:Hres; [done|].
  intros _. by eapply upload_layers.
Qed.

Lemma republish_layers_witness :
  result (run Hosting.hosting
            (publishPropertySite Node.publisher "12-oak-ave-salem" "<h1>v2</h1>" [])
            Node.after_first)
    = inr (mkPublished
             "https://Nsull042790.github.io/LuminateSPS/properties/12-oak-ave-salem/"
             "properties/12-oak-ave-salem/") /\
  layered_on Node.after_first
    (final (run Hosting.hosting
              (publishPropertySite Node.publisher "12-oak-ave-salem" "<h1>v2</h1>" [])
              Node.after_first))
    "main" Node.second_publish.
Proof.
  split; [vm_compute; reflexivity|].
  apply (republish_layers Node.publisher "12-oak-ave-salem" "<h1>v2</h1>" []
           Node.after_first
           (mkPublished
              "https://Nsull042790.github.io/LuminateSPS/properties/12-oak-ave-salem/"
              "properties/12-oak-ave-salem/")).
  vm_compute. reflexivity.
Defined.

(** C3 as stated fails: publish a site with one image, then publish the
    same slug again without images.  Both publishes succeed, and the image
    of the first publish, which the second one does not supply, is still
    served. *)
Lemma republish_keeps_old_image :
  (exists r1,
     result (run Hosting.hosting
               (publishPropertySite Node.publisher "12-oak-ave-salem" "<h1>v1</h1>"
                  [Node.photo1])
               Hosting.fresh) = inr r1) /\
  (exists r2,
     result (run Hosting.hosting
               (publishPropertySite Node.publisher "12-oak-ave-salem" "<h1>v2</h1>" [])
               Node.after_first) = inr r2) /\
  ~ superseded Node.after_second "main" Node.first_publish Node.second_publish.
Proof.
  split_and!.
  - exists (mkPublished
              "https://Nsull042790.github.io/LuminateSPS/properties/12-oak-ave-salem/"
              "properties/12-oak-ave-salem/").
    vm_compute. reflexivity.
  - exists (mkPublished
              "https://Nsull042790.github.io/LuminateSPS/properties/12-oak-ave-salem/"
              "properties/12-oak-ave-salem/").
    vm_compute. reflexivity.
  - intros Hsup.
    assert (Hosting.served Node.after_second "main"
              "properties/12-oak-ave-salem/images/photo-1.jpg" = Some "SlBFRw==")
      as Hserved by (vm_compute; reflexivity).
    assert (Hosting.served Node.after_second "main"
              "properties/12-oak-ave-salem/images/photo-1.jpg" = None) as Hnone.
    { apply (Hsup (mkFile "properties/12-oak-ave-salem/images/photo-1.jpg"
                     (Node.base64 "JPEG") true)).
      - vm_compute. apply elem_of_cons. right. apply elem_of_cons. by left.
      - vm_compute. intros Hin.
        apply elem_of_cons in Hin as [Heq|Hin]; [discriminate|].
        by apply elem_of_nil in Hin. }
    discriminate (eq_trans (eq_sym Hnone) Hserved).
Qed.

(** ** The handler of POST /api/generate *)

Section GenerateRuns.
Context `{NodeRuntime} `{Template} {St : Type} (h : Handler St).
Variable env : ProcessEnv.
Variable githubPublisher : option GitHubPublisher.

Ltac in_log Hin :=
  repeat (first
    [ apply elem_of_app in Hin as [Hin|Hin]
    | apply elem_of_cons in Hin as [Hin|Hin]
    | apply elem_of_nil in Hin as [] ]).

(** One turn of the photo loop issues at most one request, the read of
    the photo's file. *)
Lemma run_read_photo photos photo p s :
  get photo "path" = JStr p ->
  run h (read_photo photos photo) s =
    mkOutcome
      match reply h (FsReadFile (uploadPath p)) s with
      | inl e => inl e
      | inr fileBuffer => inr (photos ++ [local_photo photos photo p fileBuffer])
      end
      (after h (FsReadFile (uploadPath p)) s)
      [(FsReadFile (uploadPath p), s)].
Proof.
  intros Hp. unfold read_photo, reply, after. rewrite Hp. cbn.
  by destruct (h (FsReadFile (uploadPath p)) s) as [[e|buf] s1].
Qed.

Lemma read_photo_log photos photo s r s' :
  (r, s') ∈ log (run h (read_photo photos photo) s) ->
  exists p, get photo "path" = JStr p /\ r = FsReadFile (uploadPath p) /\ s' = s.
Proof.
  destruct (get photo "path") as [| | | |p| |] eqn:Hp;
    try (unfold read_photo; rewrite Hp; by intros ?%elem_of_nil).
  rewrite (run_read_photo _ _ p) by done. cbn.
  intros [= -> ->]%list_elem_of_singleton. eauto.
Qed.

Lemma process_photo_log photos photo s r s' :
  (r, s') ∈ log (run h (process_photo photos photo) s) ->
  exists p, get photo "path" = JStr p /\ r = FsReadFile (uploadPath p) /\ s' = s.
Proof.
  unfold process_photo, read.
  destruct photo; cbn [bind run log]; try (by intros ?%elem_of_nil).
  all: destruct (truthy _); cbn [run log]; try (by intros ?%elem_of_nil).
  all: destruct (truthy _); cbn [run log]; try (by intros ?%elem_of_nil).
  all: rewrite run_try_catch.
  all: destruct (result (run h (read_photo _ _) s)); cbn [log run];
    rewrite ?app_nil_r; apply read_photo_log.
Qed.

Lemma process_photos_log photos todo s r s' :
  (r, s') ∈ log (run h (process_photos photos todo) s) ->
  exists p, r = FsReadFile p.
Proof.
  revert photos s. induction todo as [|photo rest IH]; intros photos s; cbn [process_photos].
  - by intros ?%elem_of_nil.
  - rewrite run_bind.
    destruct (result (run h (process_photo photos photo) s)) as [e|photos'];
      cbn [log]; intros Hin; in_log Hin.
    + apply process_photo_log in Hin as (p & _ & -> & _). eauto.
    + apply process_photo_log in Hin as (p & _ & -> & _). eauto.
    + by eapply IH.
Qed.

Lemma collect_photos_log data s r s' :
  (r, s') ∈ log (run h (collect_photos data) s) -> exists p, r = FsReadFile p.
Proof.
  unfold collect_photos.
  destruct (truthy _ && isArray _); [|by intros ?%elem_of_nil].
  rewrite run_bind.
  destruct (get data "photos"); cbn; try (by intros ?%elem_of_nil);
    intros Hin; in_log Hin; by eapply process_photos_log.
Qed.

Lemma unlink_photo_log path s r s' :
  (r, s') ∈ log (run h (unlink_photo path) s) -> exists p, r = FsUnlink p.
Proof.
  destruct path as [| | | |p| |]; cbn; try (by intros ?%elem_of_nil).
  destruct (h (FsUnlink (uploadPath p)) s) as [[e|[]] s1]; cbn;
    intros [= -> ->]%list_elem_of_singleton; eauto.
Qed.

Lemma cleanup_photo_log photo s r s' :
  (r, s') ∈ log (run h (cleanup_photo photo) s) -> exists p, r = FsUnlink p.
Proof.
  unfold cleanup_photo, read.
  destruct photo; cbn [bind run log]; try (by intros ?%elem_of_nil).
  all: destruct (truthy _); cbn [run log]; try (by intros ?%elem_of_nil).
  all: rewrite run_try_catch.
  all: destruct (result (run h (unlink_photo _) s)); cbn [log run];
    rewrite ?app_nil_r; apply unlink_photo_log.
Qed.

Lemma for_each_cleanup_log photos s r s' :
  (r, s') ∈ log (run h (for_each photos cleanup_photo) s) ->
  exists p, r = FsUnlink p.
Proof.
  revert s. induction photos as [|photo rest IH]; intros s; cbn [for_each].
  - by intros ?%elem_of_nil.
  - rewrite run_bind.
    destruct (result (run h (cleanup_photo photo) s)); cbn [log];
      intros Hin; in_log Hin; eauto using cleanup_photo_log.
Qed.

Lemma cleanup_uploads_log data s r s' :
  (r, s') ∈ log (run h (cleanup_uploads data) s) -> exists p, r = FsUnlink p.
Proof.
  unfold cleanup_uploads. rewrite run_bind.
  destruct (truthy _); [|cbn; by intros ?%elem_of_nil].
  destruct (get data "photos"); cbn; try (by intros ?%elem_of_nil);
    intros Hin; in_log Hin; by eapply for_each_cleanup_log.
Qed.

(** The run of [generate_site], part by part: the photo loop, then the
    publish, then the cleanup. *)
Lemma run_generate_site data s :
  slug_converts data = true ->
  run h (generate_site env githubPublisher data) s =
    let o1 := run h (collect_photos data) s in
    match result o1 with
    | inl e => mkOutcome (inl e) (final o1) (log o1)
    | inr photos =>
        let html := generatePropertyHTML (template_data env data photos) in
        if is_set (GITHUB_TOKEN env) then
          match the_publisher env githubPublisher with
          | Some publisher =>
              let o2 := run h (publishPropertySite publisher (propertySlug_of data)
                                 html (List.filter has_base64 photos)) (final o1) in
              match result o2 with
              | inl e => mkOutcome (inl e) (final o2) (log o1 ++ log o2)
              | inr res =>
                  let o3 := run h (cleanup_uploads data) (final o2) in
                  mkOutcome
                    match result o3 with
                    | inl e => inl e
                    | inr _ => inr (published_response data res)
                    end
                    (final o3) (log o1 ++ log o2 ++ log o3)
              end
          | None =>
              mkOutcome
                (inl (TypeError "Cannot read properties of null (reading 'publishPropertySite')"))
                (final o1) (log o1)
          end
        else mkOutcome (inr (generated_response data html)) (final o1) (log o1)
    end.
Proof.
  intros Hconv. unfold generate_site. rewrite Hconv, run_bind. cbn zeta.
  destruct (result (run h (collect_photos data) s)) as [e|photos]; [done|].
  destruct (is_set (GITHUB_TOKEN env)); [|cbn; by rewrite app_nil_r].
  destruct (the_publisher env githubPublisher) as [publisher|];
    [|cbn; by rewrite app_nil_r].
  rewrite run_bind.
  destruct (result (run h (publishPropertySite _ _ _ _) _)) as [e|res]; [done|].
  cbn zeta. rewrite run_bind.
  destruct (result (run h (cleanup_uploads data) _)) as [e|[]]; cbn;
    by rewrite ?app_nil_r.
Qed.

(** A slug text that does not convert ends the handler before any call. *)
Lemma run_generate_site_throws data s :
  slug_converts data = false ->
  run h (generate_site env githubPublisher data) s
  = mkOutcome (inl (TypeError "Cannot convert object to primitive value")) s [].
Proof. intros Hconv. unfold generate_site. by rewrite Hconv. Qed.
End GenerateRuns.

Lemma protocol_step_kind r :
  1 <= step_of r <= 6 -> is_removal r = false /\ is_hosting_call r = true.
Proof. destruct r; cbn; intros ?; split; (done || lia). Qed.



(** ** Validation *)

Lemma missingFields_spec data field :
  field ∈ missingFields data <->
  field ∈ requiredFields /\ truthy (field_value data field) = false.
Proof.
  unfold missingFields. rewrite !list_elem_of_In, List.filter_In.
  by rewrite negb_true_iff.
Qed.

(** The check [!value] also reports a required field that is present with
    the number 0. *)
Lemma zero_counts_as_missing data field q :
  field ∈ requiredFields -> field_value data field = JNum q ->
  Qeq_bool q 0 = true -> field ∈ missingFields data.
Proof.
  intros Hreq Hval Hzero. apply missingFields_spec. split; [done|].
  rewrite Hval. cbn. by rewrite Hzero.
Qed.



(** C7 fails on the code: a body in which every required field is present
    and the number of bedrooms is 0 is answered with status 400 and
    [missingFields = ["property.bedrooms"]], because the check [!value]
    takes the number 0 for a missing value. *)
Theorem zero_bedrooms_reported_missing :
  Forall (fun field => field_value (Node.request 0 []) field <> JUndefined)
    requiredFields /\
  field_value (Node.request 0 []) "property.bedrooms" = JNum 0 /\
  run Hosting.hosting (api_generate Node.env None (Node.request 0 []))
    Hosting.fresh
    = mkOutcome
        (inr (mkResponse 400
                (JObj [("success", JBool false);
                       ("error", JStr "Missing required fields");
                       ("missingFields", JArr [JStr "property.bedrooms"])])))
        Hosting.fresh [].
Proof.
  split_and!; [|reflexivity|vm_compute; reflexivity].
  repeat constructor; vm_compute; discriminate.
Qed.

(** ** Listing and deleting sites *)

Section ListAndDelete.
Context `{NodeRuntime} {St : Type} (h : Handler St).
Variable this : GitHubPublisher.

Lemma run_list_not_found s e :
  reply h (ReposGetContent "properties" (branch this)) s = inl e ->
  status e = Some 404 ->
  result (run h (listPropertySites this) s) = inr [].
Proof.
  unfold listPropertySites, reply. intros Hrep Hst. cbn.
  destruct (h (ReposGetContent "properties" (branch this)) s) as [x s1].
  cbn in Hrep. subst x. cbn. by rewrite Hst.
Qed.

Lemma run_list_directory s items :
  reply h (ReposGetContent "properties" (branch this)) s = inr (ContentDir items) ->
  result (run h (listPropertySites this) s)
    = inr (map (site_of this) (filter (fun item => i_type item = "dir") items)).
Proof.
  unfold listPropertySites, reply. intros Hrep. cbn.
  destruct (h (ReposGetContent "properties" (branch this)) s) as [x s1].
  cbn in Hrep. subst x. done.
Qed.

Lemma for_each_delete_log slug files s r s' :
  (r, s') ∈ log (run h (for_each files (fun file =>
                    _ <- await (delete_request this slug file) ;; Ret tt)) s) ->
  exists file, file ∈ files /\ r = delete_request this slug file.
Proof.
  revert s. induction files as [|file rest IH]; intros s; cbn [for_each].
  - by intros ?%elem_of_nil.
  - rewrite run_bind. rewrite run_bind, run_await. cbn [result final log].
    destruct (h (delete_request this slug file) s) as [[e|[]] s1]; cbn.
    + intros [= -> ->]%list_elem_of_singleton. exists file.
      split; [apply elem_of_cons; by left|done].
    + intros [[= -> ->]|Hin]%elem_of_cons.
      * exists file. split; [apply elem_of_cons; by left|done].
      * destruct (IH _ Hin) as (f & Hf & ->). exists f.
        split; [apply elem_of_cons; by right|done].
Qed.

(** Whatever the hosting API answers, the deleter lists the site's
    directory once and then only asks to delete entries of that listing:
    it never lists a sub-directory, so a file below one is never named in
    a delete call unless the listing itself named it. *)
Lemma delete_only_listed slug s r s' :
  (r, s') ∈ log (run h (deletePropertySite this slug) s) ->
  (r = ReposGetContent (site_dir slug) (branch this) /\ s' = s) \/
  exists file, file ∈ listed h this slug s /\ r = delete_request this slug file.
Proof.
  unfold deletePropertySite, listed, reply. rewrite run_rethrow, run_bind, run_await.
  cbn [result final log].
  destruct (h (ReposGetContent (site_dir slug) (branch this)) s)
    as [[e|[items|item]] s1]; cbn [fst snd result log app].
  - intros [= -> ->]%list_elem_of_singleton. by left.
  - intros [[= -> ->]|Hin]%elem_of_cons; [by left|right].
    by eapply for_each_delete_log.
  - intros [[= -> ->]|Hin]%elem_of_cons; [by left|right].
    by eapply for_each_delete_log.
Qed.
End ListAndDelete.

Lemma publisher_when_configured env githubPublisher :
  is_set (GITHUB_TOKEN env) = true ->
  exists this, the_publisher env githubPublisher = Some this.
Proof.
  unfold the_publisher, initGitHubPublisher, is_set.
  destruct githubPublisher as [p|]; [by eauto|].
  destruct (GITHUB_TOKEN env) as [token|]; [|done].
  destruct (String.eqb token ""); [done|by eauto].
Qed.

(** C8. Listing the published sites when the top-level path [properties]
    does not exist (the hosting API answers not-found, status 404) yields
    the empty list from [listPropertySites] and the successful response
    [{ success: true, properties: [] }] from GET /api/properties, not an
    error; when the path is a directory, exactly its children of type
    [dir] are returned, each with its slug and the derived URL. *)
Theorem listing_absent_is_empty `{NodeRuntime} `{Template} {St : Type}
    (h : Handler St) (env : ProcessEnv)
    (githubPublisher : option GitHubPublisher) (this : GitHubPublisher)
    (s : St) :
  is_set (GITHUB_TOKEN env) = true ->
  the_publisher env githubPublisher = Some this ->
  (forall e,
     reply h (ReposGetContent "properties" (branch this)) s = inl e ->
     status e = Some 404 ->
     result (run h (listPropertySites this) s) = inr [] /\
     result (run h (api_properties env githubPublisher) s)
       = inr (json_ok [("success", JBool true); ("properties", JArr [])])) /\
  (forall items,
     reply h (ReposGetContent "properties" (branch this)) s
       = inr (ContentDir items) ->
     result (run h (api_properties env githubPublisher) s)
       = inr (json_ok
                [("success", JBool true);
                 ("properties",
                  JArr (map (fun item =>
                               JObj [("slug", JStr (i_name item));
                                     ("url", JStr (pagesBaseUrl this +:+ "/properties/"
                                                     +:+ i_name item +:+ "/"))])
                          (filter (fun item => i_type item = "dir") items)))])).
Proof.
  intros Htoken Hpub.
  assert (forall sites,
            result (run h (listPropertySites this) s) = inr sites ->
            result (run h (api_properties env githubPublisher) s)
              = inr (properties_ok sites)) as Hapi.
  { intros sites Hsites. unfold api_properties. rewrite Htoken, Hpub.
    rewrite run_try_catch, run_bind, Hsites. done. }
  split.
  - intros e Hrep Hst.
    pose proof (run_list_not_found h this s e Hrep Hst) as Hl.
    split; [done|]. by rewrite (Hapi _ Hl).
  - intros items Hrep.
    rewrite (Hapi _ (run_list_directory h this s items Hrep)).
    unfold properties_ok, site_json, site_of.
    by rewrite <- list_fmap_compose.
Qed.

Lemma listing_absent_is_empty_witness :
  (is_set (GITHUB_TOKEN Node.env) = true /\
   the_publisher Node.env None = Some Node.publisher /\
   reply Hosting.hosting (ReposGetContent "properties" "main") Hosting.fresh
     = inl Hosting.not_found /\
   status Hosting.not_found = Some 404) /\
  result (run Hosting.hosting (listPropertySites Node.publisher) Hosting.fresh)
    = inr [] /\
  result (run Hosting.hosting (api_properties Node.env None) Hosting.fresh)
    = inr (json_ok [("success", JBool true); ("properties", JArr [])]) /\
  reply Hosting.hosting (ReposGetContent "properties" "main") Node.after_first
    = inr (ContentDir [mkItem "12-oak-ave-salem" "properties/12-oak-ave-salem" 4 "dir"]) /\
  result (run Hosting.hosting (api_properties Node.env None) Node.after_first)
    = inr (json_ok
             [("success", JBool true);
              ("properties",
               JArr [JObj [("slug", JStr "12-oak-ave-salem");
                           ("url", JStr "https://Nsull042790.github.io/LuminateSPS/properties/12-oak-ave-salem/")]])]).
Proof.
  assert (reply Hosting.hosting (ReposGetContent "properties" "main") Node.after_first
    = inr (ContentDir [mkItem "12-oak-ave-salem" "properties/12-oak-ave-salem" 4 "dir"]))
    as Hdir by (vm_compute; reflexivity).
  split_and!.
  1-4: reflexivity.
  - exact (proj1 (proj1 (listing_absent_is_empty Hosting.hosting Node.env None
                           Node.publisher Hosting.fresh eq_refl eq_refl)
                    Hosting.not_found eq_refl eq_refl)).
  - exact (proj2 (proj1 (listing_absent_is_empty Hosting.hosting Node.env None
                           Node.publisher Hosting.fresh eq_refl eq_refl)
                    Hosting.not_found eq_refl eq_refl)).
  - exact Hdir.
  - exact (proj2 (listing_absent_is_empty Hosting.hosting Node.env None
                    Node.publisher Node.after_first eq_refl eq_refl) _ Hdir).
Defined.

(** C5 fails on the code for files in nested directories.  On a
    repository that holds a published site with one image, the deleter
    lists [properties/<slug>] once and asks to delete the entry [images],
    a directory, which the hosting API refuses; the image
    [properties/<slug>/images/photo-1.jpg] is never named in a delete call
    and is still served afterwards, and DELETE /api/properties/<slug>
    answers 500. *)
Theorem delete_misses_nested_files :
  Hosting.served Node.after_first "main"
    "properties/12-oak-ave-salem/images/photo-1.jpg" = Some "SlBFRw==" /\
  requests (run Hosting.hosting
              (deletePropertySite Node.publisher "12-oak-ave-salem")
              Node.after_first)
    = [ReposGetContent "properties/12-oak-ave-salem" "main";
       ReposDeleteFile "properties/12-oak-ave-salem/images"
         "Delete property site: 12-oak-ave-salem" 4 "main"] /\
  result (run Hosting.hosting
            (deletePropertySite Node.publisher "12-oak-ave-salem")
            Node.after_first) = inl Hosting.not_found /\
  Hosting.served
    (final (run Hosting.hosting
              (deletePropertySite Node.publisher "12-oak-ave-salem")
              Node.after_first))
    "main" "properties/12-oak-ave-salem/images/photo-1.jpg" = Some "SlBFRw==" /\
  result (run Hosting.hosting (api_delete Node.env None "12-oak-ave-salem")
            Node.after_first)
    = inr (json_error 500 Hosting.not_found).
Proof. split_and!; vm_compute; reflexivity. Qed.

(** ** The slug builder *)

Example slugify_main_st :
  Slug.slugify "123 Main St-Springfield" = "123-main-st-springfield".
Proof. reflexivity. Qed.

Example slugify_punctuation :
  Slug.slugify "  4 Elm St., Apt #2 - New  York " = "4-elm-st-apt-2-new-york".
Proof. reflexivity. Qed.

Example base64_hello : Node.base64 "Hello!!" = "SGVsbG8hIQ==".
Proof. reflexivity. Qed.

Example extname_jpg : Node.ext "/uploads/1700000000-42.jpg" = ".jpg".
Proof. reflexivity. Qed.

Section SlugFacts.
Import Slug.
Local Open Scope nat_scope.

Ltac all_chars c := destruct c as [[] [] [] [] [] [] [] []]; vm_compute; done.

Lemma lower_of_alnum c :
  is_alnum c = true ->
  slug_char (toLowerCase c) = true /\ is_hyphen (toLowerCase c) = false.
Proof. all_chars c. Qed.

Lemma hyphen_lower c : is_hyphen (toLowerCase c) = is_hyphen c.
Proof. all_chars c. Qed.

Lemma space_not_alnum c : is_space c = true -> is_alnum c = false.
Proof. all_chars c. Qed.

Lemma alnum_not_hyphen c : is_alnum c || is_space c = true -> is_hyphen c = false.
Proof. all_chars c. Qed.

Lemma trimStart_head l :
  match trimStart l with
  | [] => True
  | c :: _ => is_space c = false
  end.
Proof.
  induction l as [|c r IH]; cbn; [done|].
  by destruct (is_space c) eqn:Hc.
Qed.

Lemma trimStart_snoc l c :
  is_space c = false -> trimStart (l ++ [c]) = trimStart l ++ [c].
Proof.
  intros Hc. induction l as [|a r IH]; cbn; [by rewrite Hc|].
  by destruct (is_space a).
Qed.

Lemma trimStart_Forall (P : ascii -> Prop) l :
  Forall P l -> Forall P (trimStart l).
Proof.
  induction 1 as [|c r Hc Hr IH]; cbn; [done|].
  destruct (is_space c); [done|by constructor].
Qed.

Lemma trim_Forall (P : ascii -> Prop) l : Forall P l -> Forall P (trim l).
Proof.
  intros Hl. unfold trim.
  apply Forall_rev, trimStart_Forall, Forall_rev, trimStart_Forall, Hl.
Qed.

(** A trimmed text is empty or starts and ends with a character that is
    not white space. *)
Lemma trim_edges l :
  trim l = [] \/
  exists c m d, trim l = c :: m /\ is_space c = false /\
                trim l = removelast (trim l) ++ [d] /\ is_space d = false.
Proof.
  unfold trim. pose proof (trimStart_head l) as Hh.
  destruct (trimStart l) as [|c r]; [by left|right].
  cbn [rev]. rewrite trimStart_snoc by done.
  rewrite rev_app_distr. cbn [rev app].
  exists c, (rev (trimStart (rev r))).
  pose proof (trimStart_head (rev r)) as Hr.
  destruct (trimStart (rev r)) as [|d b].
  - exists c. cbn. done.
  - exists d. cbn [rev]. split_and!; [done..| |done].
    rewrite app_comm_cons, removelast_last. done.
Qed.

Lemma replaceSpaces_snoc b l d :
  is_space d = false -> replaceSpaces b (l ++ [d]) = replaceSpaces b l ++ [d].
Proof.
  intros Hd. revert b. induction l as [|c r IH]; intros b; cbn.
  - by rewrite Hd.
  - destruct (is_space c); [destruct b|]; by rewrite IH.
Qed.

Lemma replaceSpaces_chars b l x :
  x ∈ replaceSpaces b l -> x = hyphen \/ (x ∈ l /\ is_space x = false).
Proof.
  revert b. induction l as [|c r IH]; intros b; cbn.
  - by intros ?%elem_of_nil.
  - destruct (is_space c) eqn:Hc; [destruct b|].
    + intros Hx. destruct (IH _ Hx) as [->|[Hin Hs]]; [by left|right].
      split; [apply elem_of_cons; by right|done].
    + intros [->|Hx]%elem_of_cons; [by left|].
      destruct (IH _ Hx) as [->|[Hin Hs]]; [by left|right].
      split; [apply elem_of_cons; by right|done].
    + intros [->|Hx]%elem_of_cons.
      * right. split; [apply elem_of_cons; by left|done].
      * destruct (IH _ Hx) as [->|[Hin Hs]]; [by left|right].
        split; [apply elem_of_cons; by right|done].
Qed.

Lemma no_double_cons c d r :
  no_double_hyphen (c :: d :: r)
    = negb (is_hyphen c && is_hyphen d) && no_double_hyphen (d :: r).
Proof. done. Qed.

Lemma replaceSpaces_no_double b l :
  Forall (fun c => is_hyphen c = false) l ->
  no_double_hyphen (replaceSpaces b l) = true /\
  (b = true ->
   match replaceSpaces b l with
   | [] => True
   | c :: _ => is_hyphen c = false
   end).
Proof.
  intros Hl. revert b. induction Hl as [|c r Hc Hr IH]; intros b; cbn [replaceSpaces].
  - done.
  - destruct (is_space c) eqn:Hs; [destruct b|].
    + apply IH.
    + destruct (IH true) as [Hnd Hhead]. specialize (Hhead eq_refl).
      split; [|done].
      destruct (replaceSpaces true r) as [|d o]; [done|].
      rewrite no_double_cons, Hhead, Hnd. by rewrite andb_false_r.
    + destruct (IH false) as [Hnd _]. split; [|done].
      destruct (replaceSpaces false r) as [|d o]; [done|].
      by rewrite no_double_cons, Hc, Hnd.
Qed.

Lemma no_double_lower l :
  no_double_hyphen (map toLowerCase l) = no_double_hyphen l.
Proof.
  induction l as [|c [|d r] IH]; [done..|].
  cbn [map] in *. by rewrite !no_double_cons, IH, !hyphen_lower.
Qed.

(** The strict characters: what is left after the separator and strict
    passes is letters, digits and white space. *)
Lemma strict_chars l :
  Forall (fun c => is_alnum c || is_space c = true)
    (List.filter (fun c => is_alnum c || is_space c)
       (map (fun c => if is_hyphen c then " "%char else c) l)).
Proof.
  apply Forall_forall. intros x Hx.
  apply list_elem_of_In, List.filter_In in Hx. by destruct Hx.
Qed.

Lemma slugify_chars_safe l :
  Forall (fun c => slug_char c = true) (slugify_chars l).
Proof.
  unfold slugify_chars.
  pose proof (trim_Forall _ _ (strict_chars l)) as Hstrict.
  set (t := trim _) in *. clearbody t.
  apply Forall_forall. intros x Hx.
  apply list_elem_of_fmap in Hx as (y & -> & Hy).
  apply replaceSpaces_chars in Hy as [->|[Hy Hs]]; [done|].
  rewrite Forall_forall in Hstrict. specialize (Hstrict _ Hy).
  rewrite Hs, orb_false_r in Hstrict. by apply lower_of_alnum.
Qed.

Lemma slugify_chars_separated l : hyphen_separated (slugify_chars l) = true.
Proof.
  unfold slugify_chars.
  pose proof (trim_Forall _ _ (strict_chars l)) as Hstrict.
  pose proof (trim_edges
                (List.filter (fun c => is_alnum c || is_space c)
                   (map (fun c => if is_hyphen c then " "%char else c) l)))
    as Hedges.
  set (t := trim _) in *. clearbody t.
  destruct Hedges as [->|(c & m & d & Ht & Hc & Hlast & Hd)]; [done|].
  assert (Forall (fun c => is_hyphen c = false) t) as Hnohyphen.
  { eapply Forall_impl; [exact Hstrict|]. intros x. apply alnum_not_hyphen. }
  assert (is_alnum c = true) as Hac.
  { rewrite Forall_forall in Hstrict. pose proof (Hstrict c) as Hx.
    rewrite Ht, Hc, orb_false_r in Hx. apply Hx, elem_of_cons. by left. }
  assert (is_alnum d = true) as Had.
  { rewrite Forall_forall in Hstrict. pose proof (Hstrict d) as Hx.
    rewrite Hd, orb_false_r in Hx. apply Hx.
    rewrite Hlast. apply elem_of_app. right. apply elem_of_cons. by left. }
  unfold hyphen_separated.
  assert (no_double_hyphen (map toLowerCase (replaceSpaces false t)) = true) as Hnd.
  { rewrite no_double_lower. by apply replaceSpaces_no_double. }
  assert (List.last (map toLowerCase (replaceSpaces false t)) (toLowerCase c)
          = toLowerCase d) as Hl.
  { rewrite Hlast, replaceSpaces_snoc by done.
    rewrite map_app. cbn [map]. apply last_last. }
  rewrite Ht in *. cbn [replaceSpaces] in *. rewrite Hc in *. cbn [map] in *.
  rewrite Hl, Hnd.
  destruct (lower_of_alnum c Hac) as [_ ->].
  destruct (lower_of_alnum d Had) as [_ ->]. done.
Qed.
End SlugFacts.

(** C9. The slug is a function of the address and city strings alone:
    two requests with the same address and city get the same slug, which
    is the slug builder applied to [address-city]; and every output of the
    slug builder consists of lowercase letters, digits and hyphens only,
    with no hyphen at either end and no two hyphens in a row (punctuation
    is stripped, words are hyphen-separated). *)
Theorem slug_is_deterministic_and_url_safe `{NodeRuntime}
    (data1 data2 : JSValue) (address city : string) :
  get (get data1 "property") "address" = JStr address ->
  get (get data1 "property") "city" = JStr city ->
  get (get data2 "property") "address" = JStr address ->
  get (get data2 "property") "city" = JStr city ->
  propertySlug_of data1 = Slug.slugify (address +:+ "-" +:+ city) /\
  propertySlug_of data1 = propertySlug_of data2 /\
  forall text,
    Forall (fun c => Slug.slug_char c = true)
      (list_ascii_of_string (Slug.slugify text)) /\
    Slug.hyphen_separated (list_ascii_of_string (Slug.slugify text)) = true.
Proof.
  intros Ha1 Hc1 Ha2 Hc2. unfold propertySlug_of.
  rewrite Ha1, Hc1, Ha2, Hc2. cbn [ToString].
  split_and!; [done..|].
  intros text. unfold Slug.slugify.
  rewrite list_ascii_of_string_of_list_ascii.
  split; [apply slugify_chars_safe|apply slugify_chars_separated].
Qed.

Lemma slug_is_deterministic_and_url_safe_witness :
  (get (get (Node.request 3 []) "property") "address" = JStr "12 Oak Ave" /\
   get (get (Node.request 3 []) "property") "city" = JStr "Salem" /\
   get (get (Node.request 0 [JNull]) "property") "address" = JStr "12 Oak Ave" /\
   get (get (Node.request 0 [JNull]) "property") "city" = JStr "Salem") /\
  propertySlug_of (Node.request 3 []) = "12-oak-ave-salem" /\
  propertySlug_of (Node.request 3 []) = propertySlug_of (Node.request 0 [JNull]) /\
  Forall (fun c => Slug.slug_char c = true)
    (list_ascii_of_string (Slug.slugify "12 Oak Ave-Salem")).
Proof.
  pose proof (slug_is_deterministic_and_url_safe
                (Node.request 3 []) (Node.request 0 [JNull]) "12 Oak Ave" "Salem"
                eq_refl eq_refl eq_refl eq_refl) as (Hslug & Hsame & Hsafe).
  split_and!.
  1-4: reflexivity.
  - rewrite Hslug. reflexivity.
  - exact Hsame.
  - exact (proj1 (Hsafe "12 Oak Ave-Salem")).
Defined.

(** ** Photos that cannot be read *)

Section UnreadablePhoto.
Context `{NodeRuntime} `{Template} {St : Type} (h : Handler St).
Variable env : ProcessEnv.
Variable githubPublisher : option GitHubPublisher.






End UnreadablePhoto.

Section DroppedPhoto.
Context `{NodeRuntime} `{Template} {St : Type} (h : Handler St).
Variable env : ProcessEnv.
Variable githubPublisher : option GitHubPublisher.
Variables data1 data2 : JSValue.
Variables pre post : list JSValue.
Variable photo : JSValue.
Variable p : string.
Hypothesis Hphotos1 : get data1 "photos" = JArr (pre ++ photo :: post).
Hypothesis Hphotos2 : get data2 "photos" = JArr (pre ++ post).
Hypothesis Hsame : forall k, k <> "photos" -> get data1 k = get data2 k.
Hypothesis Hurl : truthy (get photo "url") = false.
Hypothesis Hpath : get photo "path" = JStr p.
Hypothesis Hp : p <> "".








End DroppedPhoto.

(** The request with the photo that cannot be read is answered with the
    success payload, and the photo's read is the only trace of it. *)
Example lost_photo_still_published :
  result (run Hosting.hosting
            (api_generate Node.env None (Node.request 3 [Node.lost_photo]))
            Hosting.fresh)
    = inr (json_ok
             [("success", JBool true); ("published", JBool true);
              ("url", JStr "https://Nsull042790.github.io/LuminateSPS/properties/12-oak-ave-salem/");
              ("propertySlug", JStr "12-oak-ave-salem");
              ("message", JStr published_message)]) /\
  map Hosting.base_name
    (map fst (default [] (map_to_list <$>
       Hosting.visible
         (final (run Hosting.hosting
                   (api_generate Node.env None (Node.request 3 [Node.lost_photo]))
                   Hosting.fresh)) "main")))
    = ["index.html"].
Proof. split; vm_compute; reflexivity. Qed.

(** A complete form with hosting not configured is answered with
    [published: false] and the generated HTML; nothing is requested from
    the outside. *)
Example unconfigured_returns_html :
  run Hosting.hosting (api_generate Node.env_unconfigured None (Node.request 3 []))
    Hosting.fresh
    = mkOutcome
        (inr (json_ok
                [("success", JBool true); ("published", JBool false);
                 ("html", JStr "<h1>12-oak-ave-salem</h1>");
                 ("propertySlug", JStr "12-oak-ave-salem");
                 ("message", JStr generated_message)]))
        Hosting.fresh [].
Proof. vm_compute. reflexivity. Qed.

(** ** Deleting a site, call by call *)

Section DeleteRuns.
Context {St : Type} (h : Handler St).
Variable this : GitHubPublisher.
Variable propertySlug : string.

Lemma run_delete_file (file : ContentItem) (s : St) :
  run h (_ <- await (delete_request this propertySlug file) ;; Ret tt) s
  = mkOutcome
      (match reply h (delete_request this propertySlug file) s with
       | inl e => inl e
       | inr _ => inr tt
       end)
      (after h (delete_request this propertySlug file) s)
      [(delete_request this propertySlug file, s)].
Proof.
  rewrite run_bind, run_await. unfold reply, after.
  destruct (h (delete_request this propertySlug file) s) as [[e|v] s'];
    reflexivity.
Qed.

(** The loop of the deleter: it ends at the first rejected removal, after
    the removals of the files before it were fulfilled. *)
Lemma run_delete_loop (files : list ContentItem) (s : St) :
  let o := run h (for_each files (fun file =>
                    _ <- await (delete_request this propertySlug file) ;;
                    Ret tt)) s in
  match result o with
  | inr _ =>
      requests o = map (delete_request this propertySlug) files
      /\ Forall (fulfilled h) (log o)
  | inl e =>
      exists removed file rest dlog s',
        files = removed ++ file :: rest
        /\ log o = dlog ++ [(delete_request this propertySlug file, s')]
        /\ dlog.*1 = map (delete_request this propertySlug) removed
        /\ Forall (fulfilled h) dlog
        /\ reply h (delete_request this propertySlug file) s' = inl e
  end.
Proof.
  revert s. induction files as [|file files IH]; intros s.
  - cbn. split; [reflexivity | constructor].
  - cbn zeta. change (for_each (file :: files) ?b)
      with (_ <- b file ;; for_each files b).
    rewrite run_bind, run_delete_file. cbn [result final log].
    destruct (reply h (delete_request this propertySlug file) s)
      as [e|v] eqn:Hr.
    + cbn [result]. exists [], file, files, [], s.
      repeat split; try reflexivity; [constructor | exact Hr].
    + specialize (IH (after h (delete_request this propertySlug file) s)).
      cbn zeta in IH. cbn [result log].
      destruct (result (run h (for_each files _) _)) as [e|[]] eqn:Hres.
      * destruct IH as (removed & f & rest & dlog & s' & -> & Hlog & Hd & Hf & He).
        exists (file :: removed), f, rest,
          ((delete_request this propertySlug file, s) :: dlog), s'.
        repeat split.
        -- cbn [app]. rewrite Hlog. reflexivity.
        -- cbn. rewrite Hd. reflexivity.
        -- constructor; [exists v; exact Hr | exact Hf].
        -- exact He.
      * destruct IH as [Hreq Hf]. split.
        -- unfold requests in *. cbn [log]. rewrite fmap_app, Hreq.
           reflexivity.
        -- constructor; [exists v; exact Hr | exact Hf].
Qed.

Lemma run_delete_site (s : St) :
  run h (deletePropertySite this propertySlug) s
  = let r0 := ReposGetContent (site_dir propertySlug) (branch this) in
    match reply h r0 s with
    | inl e => mkOutcome (inl e) (after h r0 s) [(r0, s)]
    | inr _ =>
        let o := run h (for_each (listed h this propertySlug s) (fun file =>
                          _ <- await (delete_request this propertySlug file) ;;
                          Ret tt)) (after h r0 s) in
        mkOutcome (result o) (final o) ((r0, s) :: log o)
    end.
Proof.
  unfold deletePropertySite. rewrite run_rethrow, run_bind, run_await.
  unfold listed, reply, after. cbn [result final log].
  destruct (h (ReposGetContent (site_dir propertySlug) (branch this)) s)
    as [[e|[items|item]] s']; reflexivity.
Qed.

(** X1 (deletePropertySite): a deletion that ends without error asked for
    the listing once and then removed every listed file, one call per file
    in listing order, and every one of these calls was fulfilled. *)
Theorem delete_removes_every_listed_file (s : St) :
  result (run h (deletePropertySite this propertySlug) s) = inr tt ->
  requests (run h (deletePropertySite this propertySlug) s)
  = ReposGetContent (site_dir propertySlug) (branch this)
      :: map (delete_request this propertySlug) (listed h this propertySlug s)
  /\ Forall (fulfilled h) (log (run h (deletePropertySite this propertySlug) s)).
Proof.
  rewrite run_delete_site. cbn zeta.
  destruct (reply h (ReposGetContent (site_dir propertySlug) (branch this)) s)
    as [e|v] eqn:Hr; [discriminate|].
  cbn [result log]. intros Hres.
  pose proof (run_delete_loop (listed h this propertySlug s)
                (after h (ReposGetContent (site_dir propertySlug) (branch this)) s))
    as Hloop.
  cbn zeta in Hloop. rewrite Hres in Hloop. destruct Hloop as [Hreq Hf].
  split.
  - unfold requests in *. cbn [log]. rewrite fmap_cons, Hreq. reflexivity.
  - constructor; [exists v; exact Hr | exact Hf].
Qed.

(** X2 (deletePropertySite): a deletion that fails either had its listing
    rejected, and then removed nothing, or stopped at the first rejected
    removal: the files listed before it were removed and stay removed, the
    files after it were never asked for, and the error thrown is the one of
    the rejected call. *)
Theorem delete_stops_at_first_rejection (s : St) (e : JSError) :
  result (run h (deletePropertySite this propertySlug) s) = inl e ->
  let r0 := ReposGetContent (site_dir propertySlug) (branch this) in
  (reply h r0 s = inl e
   /\ log (run h (deletePropertySite this propertySlug) s) = [(r0, s)])
  \/ (exists removed file rest dlog s',
        listed h this propertySlug s = removed ++ file :: rest
        /\ log (run h (deletePropertySite this propertySlug) s)
           = (r0, s) :: dlog ++ [(delete_request this propertySlug file, s')]
        /\ dlog.*1 = map (delete_request this propertySlug) removed
        /\ Forall (fulfilled h) ((r0, s) :: dlog)
        /\ reply h (delete_request this propertySlug file) s' = inl e).
Proof.
  rewrite run_delete_site. cbn zeta.
  destruct (reply h (ReposGetContent (site_dir propertySlug) (branch this)) s)
    as [e0|v] eqn:Hr.
  - cbn [result log]. intros [= ->]. left. split; reflexivity.
  - cbn [result log]. intros Hres. right.
    pose proof (run_delete_loop (listed h this propertySlug s)
                  (after h (ReposGetContent (site_dir propertySlug) (branch this)) s))
      as Hloop.
    cbn zeta in Hloop. rewrite Hres in Hloop.
    destruct Hloop as (removed & file & rest & dlog & s' & Hl & Hlog & Hd & Hf & He).
    exists removed, file, rest, dlog, s'. repeat split; try assumption.
    + rewrite Hlog. reflexivity.
    + constructor; [exists v; exact Hr | exact Hf].
Qed.
End DeleteRuns.

Lemma delete_removes_every_listed_file_witness :
  result (run Hosting.hosting
            (deletePropertySite Node.publisher "12-oak-ave-salem")
            Demo.page_only) = inr tt
  /\ listed Hosting.hosting Node.publisher "12-oak-ave-salem" Demo.page_only
     = [mkItem "index.html" "properties/12-oak-ave-salem/index.html" 2 "file"]
  /\ requests (run Hosting.hosting
                 (deletePropertySite Node.publisher "12-oak-ave-salem")
                 Demo.page_only)
     = ReposGetContent (site_dir "12-oak-ave-salem") (branch Node.publisher)
         :: map (delete_request Node.publisher "12-oak-ave-salem")
              (listed Hosting.hosting Node.publisher "12-oak-ave-salem"
                 Demo.page_only).
Proof.
  assert (result (run Hosting.hosting
                    (deletePropertySite Node.publisher "12-oak-ave-salem")
                    Demo.page_only) = inr tt) as Hres
    by (vm_compute; reflexivity).
  split; [exact Hres|]. split; [vm_compute; reflexivity|].
  exact (proj1 (delete_removes_every_listed_file Hosting.hosting Node.publisher
                  "12-oak-ave-salem" Demo.page_only Hres)).
Defined.

Lemma delete_stops_at_first_rejection_witness :
  result (run Hosting.hosting (deletePropertySite Node.publisher "demo")
            Demo.nested) = inl Hosting.not_found
  /\ listed Hosting.hosting Node.publisher "demo" Demo.nested
     = [mkItem "a.txt" "properties/demo/a.txt" 2 "file";
        mkItem "z" "properties/demo/z" 4 "dir"]
  /\ ((reply Hosting.hosting (ReposGetContent (site_dir "demo") "main")
         Demo.nested = inl Hosting.not_found
       /\ log (run Hosting.hosting (deletePropertySite Node.publisher "demo")
                 Demo.nested)
          = [(ReposGetContent (site_dir "demo") "main", Demo.nested)])
      \/ (exists removed file rest dlog s',
            listed Hosting.hosting Node.publisher "demo" Demo.nested
            = removed ++ file :: rest
            /\ log (run Hosting.hosting (deletePropertySite Node.publisher "demo")
                      Demo.nested)
               = (ReposGetContent (site_dir "demo") "main", Demo.nested)
                   :: dlog ++ [(delete_request Node.publisher "demo" file, s')]
            /\ dlog.*1 = map (delete_request Node.publisher "demo") removed
            /\ Forall (fulfilled Hosting.hosting)
                 ((ReposGetContent (site_dir "demo") "main", Demo.nested) :: dlog)
            /\ reply Hosting.hosting (delete_request Node.publisher "demo" file) s'
               = inl Hosting.not_found)).
Proof.
  assert (result (run Hosting.hosting (deletePropertySite Node.publisher "demo")
                    Demo.nested) = inl Hosting.not_found) as Hres
    by (vm_compute; reflexivity).
  split; [exact Hres|]. split; [vm_compute; reflexivity|].
  exact (delete_stops_at_first_rejection Hosting.hosting Node.publisher "demo"
           Demo.nested Hosting.not_found Hres).
Defined.
(** ** What the routes answer *)

Lemma status_other_than_404 {A} (o : option nat) (a b : A) :
  o <> Some 404 -> match o with Some 404 => a | _ => b end = b.
Proof.
  intros Ho. destruct o as [n|]; [|reflexivity].
  destruct (decide (n = 404)) as [->|Hne]; [by destruct Ho|].
  do 404 (destruct n as [|n]; [reflexivity|]).
  destruct n as [|n]; [by destruct Hne|reflexivity].
Qed.

Section Routes.
Context `{NodeRuntime} `{Template} `{PreviewTemplate} {St : Type}
  (h : Handler St).
Variable env : ProcessEnv.
Variable githubPublisher : option GitHubPublisher.

Lemma json_error_payload (code : nat) (e : JSError) :
  code = 400 \/ code = 500 -> error_payload (json_error code e).
Proof.
  intros Hc. split; [exact Hc|]. split; [reflexivity|].
  exists (message e). reflexivity.
Qed.

(** What the guarded part of the generate handler returns when it does
    not throw. *)
Lemma generate_returns (data : JSValue) (s : St) (r : Response) :
  result (run h (generate_site env githubPublisher data) s) = inr r ->
  success_payload r.
Proof.
  destruct (slug_converts data) eqn:Hconv;
    [|by rewrite run_generate_site_throws].
  rewrite run_generate_site by done. cbn zeta.
  destruct (result (run h (collect_photos data) s)) as [e|photos];
    [discriminate|].
  destruct (is_set (GITHUB_TOKEN env)).
  - destruct (the_publisher env githubPublisher) as [publisher|];
      [|discriminate].
    destruct (result (run h (publishPropertySite publisher _ _ _) _))
      as [e|res]; [discriminate|].
    cbn [result].
    destruct (result (run h (cleanup_uploads data) _)) as [e|[]];
      [discriminate|].
    intros [= <-]. split; reflexivity.
  - intros [= <-]. split; reflexivity.
Qed.

(** X3 (POST /api/generate, GET /api/properties, DELETE
    /api/properties/:slug, POST /api/preview): whatever the hosting
    service and the disk do, each handler returns a response and never
    throws; the response is a success payload with status 200 or an error
    payload with status 400 or 500. *)
Theorem handlers_always_answer (data : JSValue) (slug : string) (s : St) :
  (exists r, result (run h (api_generate env githubPublisher data) s) = inr r
             /\ (success_payload r \/ error_payload r))
  /\ (exists r, result (run h (api_properties env githubPublisher) s) = inr r
                /\ (success_payload r \/ error_payload r))
  /\ (exists r, result (run h (api_delete env githubPublisher slug) s) = inr r
                /\ (success_payload r \/ error_payload r))
  /\ (success_payload (api_preview env data)
      \/ error_payload (api_preview env data)).
Proof.
  split_and!.
  - unfold api_generate. rewrite run_try_catch.
    destruct (result (run h _ s)) as [e|r] eqn:Hres.
    + eexists. split; [reflexivity|]. right.
      apply json_error_payload. by right.
    + exists r. split; [reflexivity|].
      destruct (missingFields data) as [|f fs].
      * left. exact (generate_returns data s r Hres).
      * injection Hres as <-. right. split; [by left|].
        split; [reflexivity|]. by eexists.
  - unfold api_properties. rewrite run_try_catch.
    destruct (result (run h _ s)) as [e|r] eqn:Hres.
    + eexists. split; [reflexivity|]. right.
      apply json_error_payload. by right.
    + exists r. split; [reflexivity|]. left.
      destruct (is_set (GITHUB_TOKEN env)).
      * destruct (the_publisher env githubPublisher) as [publisher|];
          [|discriminate].
        rewrite run_bind in Hres.
        destruct (result (run h (listPropertySites publisher) s));
          [discriminate|].
        injection Hres as <-. split; reflexivity.
      * injection Hres as <-. split; reflexivity.
  - unfold api_delete. rewrite run_try_catch.
    destruct (result (run h _ s)) as [e|r] eqn:Hres.
    + eexists. split; [reflexivity|]. right.
      apply json_error_payload. by right.
    + exists r. split; [reflexivity|].
      destruct (is_set (GITHUB_TOKEN env)).
      * destruct (the_publisher env githubPublisher) as [publisher|];
          [|discriminate].
        rewrite run_bind in Hres.
        destruct (result (run h (deletePropertySite publisher slug) s));
          [discriminate|].
        injection Hres as <-. left. split; reflexivity.
      * injection Hres as <-. right. apply json_error_payload. by left.
  - destruct data; cbn [api_preview];
      try (right; apply json_error_payload; by right);
      match goal with
      | |- context [if ?c then _ else _] => destruct c
      end;
      first [left; split; reflexivity
            |right; apply json_error_payload; by right].
Qed.

(** X4 (the three handlers without a token): when GITHUB_TOKEN is unset
    or empty, no handler issues a hosting call and none removes an upload:
    generating only reads the staged photos, listing answers the empty
    list and deleting answers 400, both without any call. *)
Theorem without_token_nothing_is_touched (data : JSValue) (slug : string)
    (s : St) :
  is_set (GITHUB_TOKEN env) = false ->
  (forall r s', (r, s') ∈ log (run h (api_generate env githubPublisher data) s) ->
                exists p, r = FsReadFile p)
  /\ run h (api_properties env githubPublisher) s
     = mkOutcome (inr (properties_ok [])) s []
  /\ run h (api_delete env githubPublisher slug) s
     = mkOutcome (inr (json_error 400 (mkError "GitHub not configured" None)))
         s [].
Proof.
  intros Htoken. split_and!.
  - intros r s'. unfold api_generate. rewrite run_try_catch.
    destruct (missingFields data) as [|f fs].
    + destruct (slug_converts data) eqn:Hconv.
      2:{ rewrite run_generate_site_throws by done. cbn.
          intros Hin. by apply elem_of_nil in Hin. }
      rewrite run_generate_site by done. cbn zeta. rewrite Htoken.
      destruct (result (run h (collect_photos data) s)) as [e|photos];
        cbn [result final log run]; rewrite ?app_nil_r;
        apply collect_photos_log.
    + cbn. intros Hin. by apply elem_of_nil in Hin.
  - unfold api_properties. rewrite Htoken. reflexivity.
  - unfold api_delete. rewrite Htoken. reflexivity.
Qed.

(** X5 (DELETE /api/properties/:slug on deletePropertySite): when the
    listing of the site's directory is rejected, as it is for a slug that
    was never published, the handler answers 500 with the message of that
    error, and the listing is the only call: nothing is removed. *)
Theorem delete_of_absent_site_fails (this : GitHubPublisher) (slug : string)
    (s : St) (e : JSError) :
  is_set (GITHUB_TOKEN env) = true ->
  the_publisher env githubPublisher = Some this ->
  reply h (ReposGetContent (site_dir slug) (branch this)) s = inl e ->
  result (run h (api_delete env githubPublisher slug) s)
  = inr (json_error 500 e)
  /\ requests (run h (api_delete env githubPublisher slug) s)
     = [ReposGetContent (site_dir slug) (branch this)].
Proof.
  intros Htoken Hpub Hrep. unfold api_delete. rewrite Htoken, Hpub.
  rewrite run_try_catch, run_bind, run_delete_site. cbn zeta.
  rewrite Hrep. cbn [result final log run]. split; reflexivity.
Qed.

(** X6 (GET /api/properties on listPropertySites): only a 404 counts as
    no sites.  Any other rejection of the listing is thrown by
    [listPropertySites] and answered with 500 by the handler; a listing
    that answers a file instead of a directory gives the empty list. *)
Theorem listing_errors_surface (this : GitHubPublisher) (s : St) :
  is_set (GITHUB_TOKEN env) = true ->
  the_publisher env githubPublisher = Some this ->
  (forall e,
     reply h (ReposGetContent "properties" (branch this)) s = inl e ->
     status e <> Some 404 ->
     result (run h (listPropertySites this) s) = inl e
     /\ result (run h (api_properties env githubPublisher) s)
        = inr (json_error 500 e))
  /\ (forall item,
        reply h (ReposGetContent "properties" (branch this)) s
          = inr (ContentFile item) ->
        result (run h (listPropertySites this) s) = inr []
        /\ result (run h (api_properties env githubPublisher) s)
           = inr (properties_ok [])).
Proof.
  intros Htoken Hpub.
  assert (forall res,
            result (run h (listPropertySites this) s) = res ->
            result (run h (api_properties env githubPublisher) s)
            = inr (match res with
                   | inl e => json_error 500 e
                   | inr sites => properties_ok sites
                   end)) as Hapi.
  { intros res Hres. unfold api_properties. rewrite Htoken, Hpub.
    rewrite run_try_catch, run_bind, Hres. by destruct res. }
  split.
  - intros e Hrep Hst.
    assert (result (run h (listPropertySites this) s) = inl e) as Hl.
    { unfold listPropertySites. rewrite run_try_catch, run_bind, run_await.
      unfold reply in Hrep.
      destruct (h (ReposGetContent "properties" (branch this)) s)
        as [[e0|v] s'] eqn:Hh; cbn [fst snd result final log] in *;
        [|discriminate].
      injection Hrep as ->. cbn [result].
      by rewrite (status_other_than_404 _ _ _ Hst). }
    split; [exact Hl|]. exact (Hapi _ Hl).
  - intros item Hrep.
    assert (result (run h (listPropertySites this) s) = inr []) as Hl.
    { unfold listPropertySites. rewrite run_try_catch, run_bind, run_await.
      unfold reply in Hrep.
      destruct (h (ReposGetContent "properties" (branch this)) s)
        as [[e0|v] s'] eqn:Hh; cbn [fst snd result final log] in *;
        [discriminate|].
      injection Hrep as ->. reflexivity. }
    split; [exact Hl|]. exact (Hapi _ Hl).
Qed.
End Routes.

Lemma without_token_nothing_is_touched_witness :
  is_set (GITHUB_TOKEN Node.env_unconfigured) = false
  /\ run Hosting.hosting (api_properties Node.env_unconfigured None) Node.after_first
     = mkOutcome (inr (properties_ok [])) Node.after_first []
  /\ run Hosting.hosting (api_delete Node.env_unconfigured None "12-oak-ave-salem")
       Node.after_first
     = mkOutcome (inr (json_error 400 (mkError "GitHub not configured" None)))
         Node.after_first [].
Proof.
  split; [reflexivity|].
  exact (proj2 (without_token_nothing_is_touched Hosting.hosting
                  Node.env_unconfigured None (Node.request 3 [])
                  "12-oak-ave-salem" Node.after_first eq_refl)).
Defined.

Lemma delete_of_absent_site_fails_witness :
  (is_set (GITHUB_TOKEN Node.env) = true
   /\ the_publisher Node.env None = Some Node.publisher
   /\ reply Hosting.hosting (ReposGetContent (site_dir "no-such-site") "main")
        Node.after_first = inl Hosting.not_found)
  /\ result (run Hosting.hosting (api_delete Node.env None "no-such-site")
               Node.after_first)
     = inr (json_error 500 Hosting.not_found)
  /\ requests (run Hosting.hosting (api_delete Node.env None "no-such-site")
                 Node.after_first)
     = [ReposGetContent (site_dir "no-such-site") "main"].
Proof.
  assert (reply Hosting.hosting (ReposGetContent (site_dir "no-such-site") "main")
            Node.after_first = inl Hosting.not_found) as Hrep
    by (vm_compute; reflexivity).
  split; [split_and!; [reflexivity | reflexivity | exact Hrep]|].
  exact (delete_of_absent_site_fails Hosting.hosting Node.env None
           Node.publisher "no-such-site" Node.after_first Hosting.not_found
           eq_refl eq_refl Hrep).
Defined.

Lemma listing_errors_surface_witness :
  (is_set (GITHUB_TOKEN Node.env) = true
   /\ the_publisher Node.env None = Some Node.publisher)
  /\ result (run Demo.down (listPropertySites Node.publisher) tt)
     = inl Demo.unavailable
  /\ result (run Demo.down (api_properties Node.env None) tt)
     = inr (json_error 500 Demo.unavailable).
Proof.
  split; [split; reflexivity|].
  refine (proj1 (listing_errors_surface Demo.down Node.env None Node.publisher
                   tt eq_refl eq_refl) Demo.unavailable eq_refl _).
  discriminate.
Defined.
(** ** The publish path of the generate handler *)

Section PublishPath.
Context `{NodeRuntime} `{Template} {St : Type} (h : Handler St).
Variable env : ProcessEnv.
Variable githubPublisher : option GitHubPublisher.

(** A publish that returns ended with the fulfilled update of the
    branch. *)
Lemma publish_ends_with_update (this : GitHubPublisher) (slug html : string)
    (images : list Photo) (s : St) (res : Published) :
  result (run h (publishPropertySite this slug html images) s) = inr res ->
  exists calls sha s5,
    log (run h (publishPropertySite this slug html images) s)
    = calls ++ [(GitUpdateRef (head_ref this) sha, s5)]
    /\ fulfilled h (GitUpdateRef (head_ref this) sha, s5)
    /\ forall r s', (r, s') ∈ calls -> is_removal r = false.
Proof.
  rewrite run_publish. cbn zeta. cbn [result log]. rewrite run_upload.
  destruct (result (upload_outcome h this _ _ s)) as [e|nc] eqn:Hres;
    [discriminate|].
  intros _.
  destruct (@upload_success_inv St h _ this _ _ s nc Hres)
    as (c & cd & blobs & t & s1 & s2 & s3 & s4 & s5
        & H1 & H2 & H3 & H4 & H5 & H6 & Hlog).
  exists ((GitGetRef (head_ref this), s) :: (GitGetCommit c, s1)
            :: blobs_log h (site_files slug html images) s2
            ++ [(GitCreateTree (c_tree cd) blobs, s3);
                (GitCreateCommit ("Add property site: " +:+ slug) t [c], s4)]),
    (c_sha nc), s5.
  split_and!.
  - rewrite Hlog. cbn [app]. do 2 f_equal. rewrite <- app_assoc. reflexivity.
  - exists tt. unfold reply. cbn [fst snd]. unfold answers in H6.
    destruct (h (GitUpdateRef (head_ref this) (c_sha nc)) s5) as [[e|[]] s6];
      [discriminate|reflexivity].
  - intros r s' Hin.
    assert ((r, s') ∈ log (upload_outcome h this (site_files slug html images)
                             ("Add property site: " +:+ slug) s)) as Hin'.
    { rewrite Hlog. cbn [app] in Hin.
      apply elem_of_cons in Hin as [Hin|Hin]; [apply elem_of_cons; by left|].
      apply elem_of_cons in Hin as [Hin|Hin];
        [apply elem_of_cons; right; apply elem_of_cons; by left|].
      do 2 (apply elem_of_cons; right).
      apply elem_of_app in Hin as [Hin|Hin]; apply elem_of_app;
        [by left|right].
      apply elem_of_cons in Hin as [Hin|Hin]; [apply elem_of_cons; by left|].
      apply elem_of_cons; right. apply elem_of_cons in Hin as [Hin|Hin];
        [apply elem_of_cons; by left|by apply elem_of_nil in Hin]. }
    exact (proj1 (protocol_step_kind r (@upload_log_steps St h _ this _ _ s r s' Hin'))).
Qed.

(** The cleanup of one photo with a staged file: the file is unlinked,
    and the outcome of the unlink is ignored. *)
Lemma run_cleanup_staged (photo : JSValue) (p : string) (s : St) :
  get photo "path" = JStr p -> p <> "" ->
  run h (cleanup_photo photo) s
  = mkOutcome (inr tt) (after h (FsUnlink (uploadPath p)) s)
      [(FsUnlink (uploadPath p), s)].
Proof.
  intros Hpath Hp. unfold cleanup_photo.
  destruct photo as [| | | | |xs|fields]; try discriminate Hpath.
  unfold read. rewrite run_bind. cbn [run result final log]. rewrite Hpath.
  cbn [truthy]. destruct (String.eqb_spec p ""); [contradiction|].
  cbn [negb]. unfold unlink_photo.
  rewrite run_try_catch, run_bind, run_await. unfold after.
  destruct (h (FsUnlink (uploadPath p)) s) as [[e|[]] s']; reflexivity.
Qed.

Lemma cleanup_unlinks_staged (photos : list JSValue) (s : St) (photo : JSValue)
    (p : string) :
  result (run h (for_each photos cleanup_photo) s) = inr tt ->
  photo ∈ photos -> get photo "path" = JStr p -> p <> "" ->
  FsUnlink (uploadPath p) ∈ (log (run h (for_each photos cleanup_photo) s)).*1.
Proof.
  revert s. induction photos as [|x xs IH]; intros s Hres Hin Hpath Hp.
  - by apply elem_of_nil in Hin.
  - change (for_each (x :: xs) cleanup_photo)
      with (_ <- cleanup_photo x ;; for_each xs cleanup_photo) in *.
    rewrite run_bind in *.
    destruct (result (run h (cleanup_photo x) s)) as [e|[]] eqn:Hx;
      [discriminate|].
    cbn [result log] in *. rewrite fmap_app. apply elem_of_app.
    apply elem_of_cons in Hin as [->|Hin].
    + left. rewrite (run_cleanup_staged x p s Hpath Hp). cbn.
      apply elem_of_cons. by left.
    + right. by apply IH.
Qed.

(** X7 (POST /api/generate, cleanup): after a publish that answered 200
    with a token set, the calls end with the fulfilled update of the
    branch followed by unlinks only, and every photo of the request that
    names a staged file had its file unlinked, also one that was sent
    with a URL.  No upload is removed before the branch moved. *)
Theorem uploads_removed_after_publish (data : JSValue) (photos : list JSValue)
    (s : St) (r : Response) :
  get data "photos" = JArr photos ->
  is_set (GITHUB_TOKEN env) = true ->
  result (run h (api_generate env githubPublisher data) s) = inr r ->
  res_status r = 200 ->
  exists calls update unlinks,
    log (run h (api_generate env githubPublisher data) s)
    = calls ++ update :: unlinks
    /\ is_update_ref update.1 = true
    /\ fulfilled h update
    /\ (forall c s', (c, s') ∈ calls -> is_removal c = false)
    /\ (forall c s', (c, s') ∈ unlinks -> exists p, c = FsUnlink p)
    /\ (forall photo p, photo ∈ photos -> get photo "path" = JStr p ->
                        p <> "" -> FsUnlink (uploadPath p) ∈ unlinks.*1).
Proof.
  intros Hphotos Htoken. unfold api_generate. rewrite run_try_catch.
  destruct (missingFields data) as [|f fs].
  2:{ cbn. intros [= <-]. discriminate. }
  destruct (slug_converts data) eqn:Hconv.
  2:{ rewrite run_generate_site_throws by done. cbn. intros [= <-].
      discriminate. }
  rewrite run_generate_site by done. cbn zeta. rewrite Htoken.
  destruct (result (run h (collect_photos data) s)) as [e|collected] eqn:H1.
  { cbn. intros [= <-]. discriminate. }
  destruct (the_publisher env githubPublisher) as [this|].
  2:{ cbn. intros [= <-]. discriminate. }
  destruct (result (run h (publishPropertySite this _ _ _) _)) as [e|res] eqn:H2.
  { cbn. intros [= <-]. discriminate. }
  cbn [result].
  destruct (result (run h (cleanup_uploads data) _)) as [e|[]] eqn:H3.
  { cbn. intros [= <-]. discriminate. }
  cbn [result final log]. intros _ _.
  destruct (publish_ends_with_update _ _ _ _ _ _ H2)
    as (calls & sha & s5 & Hlog & Hful & Hcalls).
  exists (log (run h (collect_photos data) s) ++ calls),
    (GitUpdateRef (head_ref this) sha, s5),
    (log (run h (cleanup_uploads data)
            (final (run h (publishPropertySite this (propertySlug_of data)
                             (generatePropertyHTML (template_data env data collected))
                             (List.filter has_base64 collected))
                      (final (run h (collect_photos data) s)))))).
  split_and!.
  - rewrite Hlog, <- !app_assoc. reflexivity.
  - reflexivity.
  - exact Hful.
  - intros c s' Hin. apply elem_of_app in Hin as [Hin|Hin].
    + by destruct (collect_photos_log _ _ _ _ _ Hin) as [p ->].
    + exact (Hcalls c s' Hin).
  - intros c s'. apply cleanup_uploads_log.
  - intros photo p Hin Hpath Hp.
    unfold cleanup_uploads in *. rewrite Hphotos in *. cbn [truthy iterate] in *.
    rewrite run_bind in *. cbn [run result final log] in *.
    rewrite app_nil_l.
    by apply (cleanup_unlinks_staged photos _ photo p).
Qed.

(** X8 (POST /api/generate, cleanup loop): a body that passes the
    validation, whose address and city convert to text and whose [photos]
    is truthy but neither an array nor a string (an object, a number,
    true) skips the photo loop, publishes the page, and then fails in the
    cleanup loop, which iterates over it: the answer is 500 with the error
    of the iteration although the branch was updated. *)
Theorem published_then_reported_failed (data : JSValue) (this : GitHubPublisher)
    (s : St) (res : Published) :
  missingFields data = [] ->
  slug_converts data = true ->
  is_set (GITHUB_TOKEN env) = true ->
  the_publisher env githubPublisher = Some this ->
  truthy (get data "photos") = true ->
  isArray (get data "photos") = false ->
  (forall text, get data "photos" <> JStr text) ->
  result (run h (publishPropertySite this (propertySlug_of data)
                   (generatePropertyHTML (template_data env data [])) []) s)
  = inr res ->
  result (run h (api_generate env githubPublisher data) s)
  = inr (json_error 500 (not_iterable (get data "photos")))
  /\ exists calls sha s5,
       log (run h (api_generate env githubPublisher data) s)
       = calls ++ [(GitUpdateRef (head_ref this) sha, s5)]
       /\ fulfilled h (GitUpdateRef (head_ref this) sha, s5).
Proof.
  intros Hmiss Hconv Htoken Hpub Htruthy Harr Hstr Hres.
  destruct (publish_ends_with_update _ _ _ _ _ _ Hres)
    as (calls & sha & s5 & Hlog & Hful & _).
  unfold api_generate.
  rewrite Hmiss, run_try_catch, run_generate_site by done.
  cbn zeta. unfold collect_photos. rewrite Htruthy, Harr.
  cbn [andb run result final log]. rewrite Htoken, Hpub.
  cbn [List.filter]. rewrite Hres. cbn [result final log].
  unfold cleanup_uploads. rewrite Htruthy, run_bind.
  destruct (get data "photos") as [| | | | text |xs|fields] eqn:Hp;
    try discriminate; try (by destruct (Hstr text));
    cbn [iterate run result final log]; rewrite !app_nil_r;
    (split; [reflexivity|]); exists calls, sha, s5; split; assumption.
Qed.

Lemma process_photos_null (acc : list Photo) (todo : list JSValue) (s : St) :
  JNull ∈ todo ->
  exists e, result (run h (process_photos acc todo) s) = inl e.
Proof.
  revert acc s. induction todo as [|x xs IH]; intros acc s Hin.
  - by apply elem_of_nil in Hin.
  - change (process_photos acc (x :: xs))
      with (photos' <- process_photo acc x ;; process_photos photos' xs).
    rewrite run_bind.
    destruct (result (run h (process_photo acc x) s)) as [e|acc'] eqn:Hx.
    + by exists e.
    + apply elem_of_cons in Hin as [<-|Hin]; [discriminate Hx|].
      cbn [result]. by apply IH.
Qed.

(** X9 (POST /api/generate, photo loop): a [null] among the photos makes
    the read of its [url] throw, outside the inner [try]: the request is
    answered with 500, before any hosting call and without removing an
    upload. *)
Theorem null_photo_fails_the_request (data : JSValue) (photos : list JSValue)
    (s : St) :
  missingFields data = [] ->
  get data "photos" = JArr photos ->
  JNull ∈ photos ->
  (exists e, result (run h (api_generate env githubPublisher data) s)
             = inr (json_error 500 e))
  /\ forall r s', (r, s') ∈ log (run h (api_generate env githubPublisher data) s) ->
                  exists p, r = FsReadFile p.
Proof.
  intros Hmiss Hphotos Hnull.
  assert (exists e, result (run h (collect_photos data) s) = inl e) as [e He].
  { unfold collect_photos. rewrite Hphotos. cbn [truthy isArray andb iterate].
    rewrite run_bind. cbn [run result final log].
    destruct (process_photos_null [] photos s Hnull) as [e He].
    exists e. by rewrite He. }
  unfold api_generate. rewrite Hmiss, run_try_catch.
  destruct (slug_converts data) eqn:Hconv.
  2:{ rewrite run_generate_site_throws by done. cbn.
      split; [by eexists|]. intros r s' Hin. by apply elem_of_nil in Hin. }
  rewrite run_generate_site by done.
  cbn zeta. rewrite He. cbn [result final log run]. rewrite app_nil_r.
  split; [by exists e|]. intros r s'. apply collect_photos_log.
Qed.
End PublishPath.

Lemma uploads_removed_after_publish_witness :
  (get (Node.request 3 [Demo.staged_photo]) "photos" = JArr [Demo.staged_photo]
   /\ is_set (GITHUB_TOKEN Node.env) = true
   /\ res_status
        (published_response (Node.request 3 [Demo.staged_photo])
           (mkPublished
              "https://Nsull042790.github.io/LuminateSPS/properties/12-oak-ave-salem/"
              "properties/12-oak-ave-salem/")) = 200)
  /\ exists calls update unlinks,
       log (run Hosting.hosting
              (api_generate Node.env None (Node.request 3 [Demo.staged_photo]))
              Demo.staged)
       = calls ++ update :: unlinks
       /\ is_update_ref update.1 = true
       /\ fulfilled Hosting.hosting update
       /\ (forall c s', (c, s') ∈ calls -> is_removal c = false)
       /\ (forall c s', (c, s') ∈ unlinks -> exists p, c = FsUnlink p)
       /\ (forall photo p, photo ∈ [Demo.staged_photo] ->
                           get photo "path" = JStr p -> p <> "" ->
                           FsUnlink (uploadPath p) ∈ unlinks.*1).
Proof.
  split; [split_and!; reflexivity|].
  refine (uploads_removed_after_publish Hosting.hosting Node.env None
            (Node.request 3 [Demo.staged_photo]) [Demo.staged_photo] Demo.staged
            (published_response (Node.request 3 [Demo.staged_photo])
               (mkPublished
                  "https://Nsull042790.github.io/LuminateSPS/properties/12-oak-ave-salem/"
                  "properties/12-oak-ave-salem/"))
            eq_refl eq_refl _ eq_refl).
  vm_compute. reflexivity.
Defined.

Lemma published_then_reported_failed_witness :
  (missingFields (Demo.with_photos (JObj [])) = []
   /\ slug_converts (Demo.with_photos (JObj [])) = true
   /\ is_set (GITHUB_TOKEN Node.env) = true
   /\ the_publisher Node.env None = Some Node.publisher
   /\ truthy (get (Demo.with_photos (JObj [])) "photos") = true
   /\ isArray (get (Demo.with_photos (JObj [])) "photos") = false)
  /\ result (run Hosting.hosting
               (api_generate Node.env None (Demo.with_photos (JObj [])))
               Hosting.fresh)
     = inr (json_error 500
              (TypeError "object is not iterable (cannot read property Symbol(Symbol.iterator))"))
  /\ Hosting.served
       (final (run Hosting.hosting
                 (api_generate Node.env None (Demo.with_photos (JObj [])))
                 Hosting.fresh))
       "main" "properties/12-oak-ave-salem/index.html"
     = Some (Node.base64 "<h1>12-oak-ave-salem</h1>")
  /\ exists calls sha s5,
       log (run Hosting.hosting
              (api_generate Node.env None (Demo.with_photos (JObj [])))
              Hosting.fresh)
       = calls ++ [(GitUpdateRef (head_ref Node.publisher) sha, s5)]
       /\ fulfilled Hosting.hosting (GitUpdateRef (head_ref Node.publisher) sha, s5).
Proof.
  split; [split_and!; reflexivity|].
  split; [vm_compute; reflexivity|]. split; [vm_compute; reflexivity|].
  refine (proj2 (published_then_reported_failed Hosting.hosting Node.env None
                   (Demo.with_photos (JObj [])) Node.publisher Hosting.fresh
                   (mkPublished
                      "https://Nsull042790.github.io/LuminateSPS/properties/12-oak-ave-salem/"
                      "properties/12-oak-ave-salem/")
                   eq_refl eq_refl eq_refl eq_refl eq_refl eq_refl _ _)).
  - discriminate.
  - vm_compute. reflexivity.
Defined.

Lemma null_photo_fails_the_request_witness :
  (missingFields (Node.request 3 [JNull]) = []
   /\ get (Node.request 3 [JNull]) "photos" = JArr [JNull])
  /\ (exists e,
        result (run Hosting.hosting
                  (api_generate Node.env None (Node.request 3 [JNull]))
                  Hosting.fresh)
        = inr (json_error 500 e))
  /\ forall r s',
       (r, s') ∈ log (run Hosting.hosting
                        (api_generate Node.env None (Node.request 3 [JNull]))
                        Hosting.fresh) ->
       exists p, r = FsReadFile p.
Proof.
  split; [split; reflexivity|].
  refine (null_photo_fails_the_request Hosting.hosting Node.env None
            (Node.request 3 [JNull]) [JNull] Hosting.fresh eq_refl eq_refl _).
  apply elem_of_cons. by left.
Defined.
(** ** The photo list and the file names *)

Lemma pretty_N_char_no_dot (x : N) : pretty_N_char x <> "."%char.
Proof. unfold pretty_N_char. repeat case_match; discriminate. Qed.

Lemma pretty_N_go_no_dot (x : N) (s : string) :
  has_dot s = false -> has_dot (pretty_N_go x s) = false.
Proof.
  revert s. induction (N.lt_wf_0 x) as [x _ IH]; intros s Hs.
  destruct (decide (0 < x)%N) as [Hx|Hx].
  - rewrite pretty_N_go_step by done.
    apply IH; [by apply N.div_lt|]. cbn [has_dot]. rewrite Hs, orb_false_r.
    apply Ascii.eqb_neq, pretty_N_char_no_dot.
  - assert (x = 0%N) as -> by lia. by rewrite pretty_N_go_0.
Qed.

Lemma pretty_nat_no_dot (n : nat) : has_dot (pretty n) = false.
Proof.
  unfold pretty, pretty_nat, pretty, pretty_N.
  case_decide; [reflexivity|]. by apply pretty_N_go_no_dot.
Qed.

(** A number and an extension are told apart by the dot. *)
Lemma number_extension_split (d1 d2 e1 e2 : string) :
  has_dot d1 = false -> has_dot d2 = false ->
  is_extension e1 -> is_extension e2 ->
  d1 +:+ e1 = d2 +:+ e2 -> d1 = d2.
Proof.
  revert d2. induction d1 as [|c d1 IH]; intros d2 H1 H2 He1 He2 Heq.
  - destruct d2 as [|c' d2]; [reflexivity|]. exfalso.
    cbn in Heq, H2. apply orb_false_elim in H2 as [Hc _].
    apply Ascii.eqb_neq in Hc.
    destruct He1 as [->|[r ->]]; [discriminate|]. by injection Heq as <- _.
  - cbn in H1. apply orb_false_elim in H1 as [Hc H1].
    apply Ascii.eqb_neq in Hc.
    destruct d2 as [|c' d2].
    + exfalso. cbn in Heq.
      destruct He2 as [->|[r ->]]; [discriminate|]. by injection Heq as -> _.
    + cbn in Heq, H2. apply orb_false_elim in H2 as [_ H2].
      injection Heq as <- Heq. f_equal. by apply IH.
Qed.

Section PhotoList.
Context `{NodeRuntime} {St : Type} (h : Handler St).

(** One turn of the photo loop that does not throw leaves the list as it
    is or appends one photo, labelled as the entry and, when it carries
    file content, named after its position. *)
Lemma process_photo_step (acc : list Photo) (x : JSValue) (s : St)
    (acc' : list Photo) :
  result (run h (process_photo acc x) s) = inr acc' ->
  acc' = acc
  \/ exists photo,
       acc' = acc ++ [photo]
       /\ p_label photo = get x "label"
       /\ (p_base64Content photo = None
           \/ exists p, p_filename photo
                        = Some ("photo-" +:+ pretty (length acc + 1)
                                  +:+ extname p)).
Proof.
  unfold process_photo. rewrite run_bind.
  destruct x as [| | | | | |fields];
    try (cbn [read run result final log get truthy];
         intros [= <-]; by left);
    try discriminate.
  cbn [read run result final log].
  destruct (truthy (get (JObj fields) "url")).
  - cbn [run result]. intros [= <-]. right. eexists. split; [reflexivity|].
    split; [reflexivity|]. by left.
  - destruct (truthy (get (JObj fields) "path")).
    2:{ cbn [run result]. intros [= <-]. by left. }
    rewrite run_try_catch. unfold read_photo.
    destruct (get (JObj fields) "path") as [| | | |p| |] eqn:Hpath;
      try (cbn [run result final log]; intros [= <-]; by left).
    rewrite run_bind, run_await.
    destruct (h (FsReadFile (uploadPath p)) s) as [[e|buf] s'];
      cbn [fst snd run result final log].
    + intros [= <-]. by left.
    + intros [= <-]. right. eexists. split; [reflexivity|].
      split; [reflexivity|]. right. by exists p.
Qed.

Lemma process_photos_steps (acc : list Photo) (todo : list JSValue) (s : St)
    (photos : list Photo) :
  result (run h (process_photos acc todo) s) = inr photos ->
  exists added,
    photos = acc ++ added
    /\ numbered_from (length acc) added
    /\ p_label <$> added `sublist_of` (fun x => get x "label") <$> todo.
Proof.
  revert acc s. induction todo as [|x xs IH]; intros acc s.
  - cbn. intros [= <-]. exists []. rewrite app_nil_r. split; [reflexivity|].
    split; [|constructor]. intros i photo Hi. by rewrite lookup_nil in Hi.
  - change (process_photos acc (x :: xs))
      with (photos' <- process_photo acc x ;; process_photos photos' xs).
    rewrite run_bind.
    destruct (result (run h (process_photo acc x) s)) as [e|acc'] eqn:Hx;
      [discriminate|].
    cbn [result]. intros Hres.
    destruct (IH _ _ Hres) as (added & -> & Hnum & Hsub).
    destruct (process_photo_step acc x s acc' Hx)
      as [->|(photo & -> & Hlabel & Hname)].
    + exists added. split; [reflexivity|]. split; [exact Hnum|].
      rewrite fmap_cons. by apply sublist_cons.
    + exists (photo :: added). split; [by rewrite <- app_assoc|]. split.
      * intros [|i] ph Hi.
        -- injection Hi as <-. by rewrite Nat.add_0_r.
        -- cbn in Hi. rewrite length_app in Hnum. cbn in Hnum.
           destruct (Hnum i ph Hi) as [Hnone|(p & Hf)]; [by left|].
           right. exists p. rewrite Hf.
           by replace (length acc + S i + 1) with (length acc + 1 + i + 1) by lia.
      * rewrite !fmap_cons, Hlabel. by apply sublist_skip.
Qed.

(** X10 (POST /api/generate, photo loop): the photos handed to the
    renderer keep the order of the request: their labels are the labels of
    the request's photos with some entries left out, never reordered or
    repeated. *)
Theorem gallery_keeps_request_order (data : JSValue) (todo : list JSValue)
    (s : St) (photos : list Photo) :
  get data "photos" = JArr todo ->
  result (run h (collect_photos data) s) = inr photos ->
  p_label <$> photos `sublist_of` (fun x => get x "label") <$> todo.
Proof.
  intros Hphotos. unfold collect_photos. rewrite Hphotos.
  cbn [truthy isArray andb iterate]. rewrite run_bind.
  cbn [run result final log]. intros Hres.
  destruct (result (run h (process_photos [] todo) s)) as [e|photos'] eqn:Hp;
    [discriminate|].
  cbn [result] in Hres. injection Hres as <-.
  by destruct (process_photos_steps [] todo s photos' Hp)
    as (added & -> & _ & Hsub).
Qed.

Lemma omap_cons_match {A B} (g : A -> option B) (a : A) (l : list A) :
  omap g (a :: l)
  = match g a with Some z => z :: omap g l | None => omap g l end.
Proof. reflexivity. Qed.

Lemma image_files_filter (slug : string) (photos : list Photo) :
  image_files slug (List.filter has_base64 photos) = image_files slug photos.
Proof.
  unfold image_files. induction photos as [|photo photos IH]; [reflexivity|].
  cbn [List.filter].
  destruct (has_base64 photo) eqn:Hh; unfold has_base64 in Hh;
    rewrite !omap_cons_match, IH; [reflexivity|].
  destruct (p_base64Content photo) as [b64|]; [|reflexivity].
  destruct (String.eqb b64 ""); [reflexivity|discriminate Hh].
Qed.

Lemma NoDup_omap_positions {A B} (k : A -> option B) (l : list A) :
  (forall i j x y z, l !! i = Some x -> l !! j = Some y ->
                     k x = Some z -> k y = Some z -> i = j) ->
  NoDup (omap k l).
Proof.
  induction l as [|a l IH]; intros Hinj; [constructor|].
  rewrite omap_cons_match. destruct (k a) as [z|] eqn:Ha.
  - constructor.
    + intros Hin. apply list_elem_of_omap in Hin as (y & Hy & Hky).
      apply list_elem_of_lookup in Hy as [j Hj].
      discriminate (Hinj 0 (S j) a y z eq_refl Hj Ha Hky).
    + apply IH. intros i j x y z' Hi Hj Hx Hy.
      by injection (Hinj (S i) (S j) x y z' Hi Hj Hx Hy).
  - apply IH. intros i j x y z' Hi Hj Hx Hy.
    by injection (Hinj (S i) (S j) x y z' Hi Hj Hx Hy).
Qed.

(** X11 (POST /api/generate on publishPropertySite): the files of one
    publish have pairwise distinct paths: the page and one image per photo
    with file content, no two images under the same name.  It rests on
    [path.extname] answering the empty text or a text that begins with a
    dot. *)
Theorem published_paths_are_distinct (data : JSValue) (s : St)
    (photos : list Photo) (slug html : string) :
  (forall p, is_extension (extname p)) ->
  result (run h (collect_photos data) s) = inr photos ->
  NoDup (f_path <$> site_files slug html (List.filter has_base64 photos)).
Proof.
  intros Hext Hres.
  assert (numbered_from 0 photos) as Hnum.
  { revert Hres. unfold collect_photos.
    destruct (truthy (get data "photos") && isArray (get data "photos")).
    - destruct (get data "photos") as [| | | |t|todo|fields];
        cbn [iterate]; rewrite run_bind; cbn [run result final log];
        try discriminate.
      + destruct (result (run h (process_photos [] _ ) s)) as [e|ps] eqn:Hp;
          [discriminate|].
        cbn [result]. intros [= <-].
        by destruct (process_photos_steps [] _ s ps Hp)
          as (added & -> & Hn & _).
      + destruct (result (run h (process_photos [] todo) s)) as [e|ps] eqn:Hp;
          [discriminate|].
        cbn [result]. intros [= <-].
        by destruct (process_photos_steps [] todo s ps Hp)
          as (added & -> & Hn & _).
    - cbn. intros [= <-] i photo Hi. by rewrite lookup_nil in Hi. }
  unfold site_files. rewrite image_files_filter, fmap_cons. cbn [f_path].
  constructor.
  - intros Hin. apply list_elem_of_fmap in Hin as (file & Hpath & Hfile).
    unfold image_files in Hfile.
    apply list_elem_of_omap in Hfile as (photo & _ & Hphoto).
    destruct (p_base64Content photo) as [b64|]; [|discriminate].
    destruct (String.eqb b64 ""); [discriminate|].
    injection Hphoto as <-. cbn [f_path] in Hpath.
    apply (inj (String.app (site_dir slug))) in Hpath. discriminate.
  - unfold image_files. rewrite list_fmap_omap. apply NoDup_omap_positions.
    intros i j x y z Hi Hj Hx Hy.
    assert (forall n photo,
              photos !! n = Some photo ->
              f_path <$> match p_base64Content photo with
                         | Some b64 =>
                             if String.eqb b64 "" then None
                             else Some {| f_path := site_dir slug +:+ "/images/"
                                                      +:+ interpolate (p_filename photo);
                                          f_content := b64;
                                          f_isBase64 := true |}
                         | None => None
                         end = Some z ->
              exists e, is_extension e
                        /\ z = site_dir slug +:+ "/images/" +:+ "photo-"
                                 +:+ pretty (n + 1) +:+ e) as Hname.
    { intros n photo Hn Hz.
      destruct (Hnum n photo Hn) as [Hnone|(p & Hf)].
      - rewrite Hnone in Hz. discriminate.
      - exists (extname p). split; [apply Hext|].
        destruct (p_base64Content photo) as [b64|]; [|discriminate].
        destruct (String.eqb b64 ""); [discriminate|].
        injection Hz as <-. rewrite Hf. reflexivity. }
    destruct (Hname i x Hi Hx) as (e1 & He1 & Hz1).
    destruct (Hname j y Hj Hy) as (e2 & He2 & Hz2).
    rewrite Hz1 in Hz2.
    apply (inj (String.app (site_dir slug))) in Hz2.
    apply (inj (String.app "/images/")) in Hz2.
    apply (inj (String.app "photo-")) in Hz2.
    apply number_extension_split in Hz2;
      [|apply pretty_nat_no_dot|apply pretty_nat_no_dot|done|done].
    apply (inj pretty) in Hz2. lia.
Qed.

(** X12 (POST /api/generate, photo loop and filter): a staged file of no
    bytes, whose base64 text is empty, yields a photo that the page refers
    to under [./images/photo-N] but that is filtered out of the commit: no
    file is published for it. *)
Theorem empty_upload_is_shown_but_not_published (acc : list Photo)
    (photo : JSValue) (p buf : string) (s s' : St) (slug : string) :
  truthy (get photo "url") = false ->
  get photo "path" = JStr p -> p <> "" ->
  h (FsReadFile (uploadPath p)) s = (inr buf, s') ->
  toBase64 buf = "" ->
  exists shown,
    result (run h (process_photo acc photo) s) = inr (acc ++ [shown])
    /\ p_url shown
       = JStr ("./images/photo-" +:+ pretty (length acc + 1) +:+ extname p)
    /\ image_files slug (List.filter has_base64 (acc ++ [shown]))
       = image_files slug (List.filter has_base64 acc).
Proof.
  intros Hurl Hpath Hp Hread Hempty.
  exists (local_photo acc photo p buf). split_and!.
  - unfold process_photo. rewrite run_bind.
    destruct photo as [| | | | | |fields]; try discriminate Hpath.
    cbn [read run result final log]. rewrite Hurl, Hpath. cbn [truthy].
    destruct (String.eqb_spec p ""); [contradiction|]. cbn [negb].
    rewrite run_try_catch, (run_read_photo h acc (JObj fields) p s Hpath).
    unfold reply. rewrite Hread. reflexivity.
  - reflexivity.
  - rewrite !image_files_filter. unfold image_files.
    rewrite omap_app, omap_cons_match. unfold local_photo.
    cbn [p_base64Content]. rewrite Hempty. cbn. by rewrite app_nil_r.
Qed.
End PhotoList.

Lemma from_last_dot_extension (s e : string) :
  Node.from_last_dot s = Some e -> is_extension e.
Proof.
  revert e. induction s as [|c r IH]; intros e; [discriminate|].
  cbn [Node.from_last_dot].
  destruct (Node.from_last_dot r) as [e'|].
  - intros [= <-]. by apply IH.
  - destruct (Ascii.eqb_spec c "."%char) as [->|]; [|discriminate].
    intros [= <-]. right. by exists r.
Qed.

(** The extension function of the examples answers extensions. *)
Lemma Node_ext_is_extension (p : string) : is_extension (Node.ext p).
Proof.
  unfold Node.ext. destruct (Hosting.base_name p) as [|c r]; [by left|].
  destruct (Node.from_last_dot r) as [e|] eqn:He; [|by left].
  exact (from_last_dot_extension r e He).
Qed.

Lemma gallery_keeps_request_order_witness :
  (get (Node.request 3 [Node.lost_photo; Demo.staged_photo]) "photos"
      = JArr [Node.lost_photo; Demo.staged_photo]
   /\ result (run Hosting.hosting
                (collect_photos (Node.request 3 [Node.lost_photo; Demo.staged_photo]))
                Demo.staged)
      = inr [mkPhoto (JStr "./images/photo-1.jpg") (JStr "Front")
               (Some (Node.base64 "JPEG")) (Some "photo-1.jpg")])
  /\ [JStr "Front"] `sublist_of` [JStr "Front"; JStr "Front"].
Proof.
  assert (result (run Hosting.hosting
                    (collect_photos (Node.request 3 [Node.lost_photo; Demo.staged_photo]))
                    Demo.staged)
          = inr [mkPhoto (JStr "./images/photo-1.jpg") (JStr "Front")
                   (Some (Node.base64 "JPEG")) (Some "photo-1.jpg")]) as Hres
    by (vm_compute; reflexivity).
  split; [split; [reflexivity | exact Hres]|].
  exact (gallery_keeps_request_order Hosting.hosting
           (Node.request 3 [Node.lost_photo; Demo.staged_photo])
           [Node.lost_photo; Demo.staged_photo] Demo.staged _ eq_refl Hres).
Defined.

Lemma published_paths_are_distinct_witness :
  ((forall p, is_extension (extname p))
   /\ result (run Hosting.hosting
                (collect_photos (Node.request 3 [Demo.staged_photo; Demo.staged_photo]))
                Demo.staged)
      = inr [mkPhoto (JStr "./images/photo-1.jpg") (JStr "Front")
               (Some (Node.base64 "JPEG")) (Some "photo-1.jpg");
             mkPhoto (JStr "./images/photo-2.jpg") (JStr "Front")
               (Some (Node.base64 "JPEG")) (Some "photo-2.jpg")])
  /\ NoDup ["properties/s/index.html"; "properties/s/images/photo-1.jpg";
            "properties/s/images/photo-2.jpg"].
Proof.
  assert (result (run Hosting.hosting
                    (collect_photos (Node.request 3 [Demo.staged_photo; Demo.staged_photo]))
                    Demo.staged)
          = inr [mkPhoto (JStr "./images/photo-1.jpg") (JStr "Front")
                   (Some (Node.base64 "JPEG")) (Some "photo-1.jpg");
                 mkPhoto (JStr "./images/photo-2.jpg") (JStr "Front")
                   (Some (Node.base64 "JPEG")) (Some "photo-2.jpg")]) as Hres
    by (vm_compute; reflexivity).
  split; [split; [exact Node_ext_is_extension | exact Hres]|].
  exact (published_paths_are_distinct Hosting.hosting
           (Node.request 3 [Demo.staged_photo; Demo.staged_photo]) Demo.staged
           _ "s" "<h1>s</h1>" Node_ext_is_extension Hres).
Defined.

Lemma empty_upload_is_shown_but_not_published_witness :
  (truthy (get Demo.staged_photo "url") = false
   /\ get Demo.staged_photo "path" = JStr "/uploads/a.jpg"
   /\ Hosting.hosting (FsReadFile (uploadPath "/uploads/a.jpg")) Demo.staged_empty
      = (inr "", Demo.staged_empty)
   /\ toBase64 "" = "")
  /\ exists shown,
       result (run Hosting.hosting (process_photo [] Demo.staged_photo)
                 Demo.staged_empty) = inr ([] ++ [shown])
       /\ p_url shown
          = JStr ("./images/photo-" +:+ pretty (length (@nil Photo) + 1)
                    +:+ extname "/uploads/a.jpg")
       /\ image_files "s" (List.filter has_base64 ([] ++ [shown]))
          = image_files "s" (List.filter has_base64 []).
Proof.
  assert (Hosting.hosting (FsReadFile (uploadPath "/uploads/a.jpg"))
            Demo.staged_empty = (inr "", Demo.staged_empty)) as Hread
    by (vm_compute; reflexivity).
  split; [split_and!; [reflexivity | reflexivity | exact Hread | reflexivity]|].
  refine (empty_upload_is_shown_but_not_published Hosting.hosting []
            Demo.staged_photo "/uploads/a.jpg" "" Demo.staged_empty
            Demo.staged_empty "s" eq_refl eq_refl _ Hread eq_refl).
  discriminate.
Defined.
(** ** Configuration and preview *)

(** X13 (GET /api/config against the constructor of GitHubPublisher): with
    a token and either a Pages base URL or an owner configured, the
    [pagesUrl] that the configuration endpoint reports is the base URL the
    publisher puts in front of every site URL.  With neither configured the
    endpoint reports [null], while the publisher builds its URLs on the
    text undefined. *)
Theorem config_reports_the_publishing_url (env : ProcessEnv) :
  is_set (GITHUB_TOKEN env) = true ->
  exists this,
    initGitHubPublisher env = Some this
    /\ (is_set (GITHUB_PAGES_BASE_URL env) || is_set (GITHUB_OWNER env) = true ->
        get (res_body (api_config env)) "pagesUrl" = JStr (pagesBaseUrl this))
    /\ (is_set (GITHUB_PAGES_BASE_URL env) = false ->
        GITHUB_OWNER env = None ->
        get (res_body (api_config env)) "pagesUrl" = JNull
        /\ pagesBaseUrl this
           = "https://undefined.github.io/"
               +:+ or_else (GITHUB_REPO env) "LuminateSPS").
Proof.
  destruct env as [token owner repo br pages]. cbn [GITHUB_TOKEN].
  intros Htoken. unfold initGitHubPublisher. cbn [GITHUB_TOKEN].
  destruct token as [token|]; [|discriminate]. cbn [is_set] in Htoken.
  destruct (String.eqb token ""); [discriminate|].
  eexists. split; [reflexivity|].
  cbn [GITHUB_PAGES_BASE_URL GITHUB_OWNER GITHUB_REPO api_config json_ok
       res_body get assoc String.eqb Ascii.eqb Bool.eqb pagesBaseUrl
       new_GitHubPublisher cfg_pagesBaseUrl cfg_owner cfg_repo].
  split.
  - destruct pages as [u|]; cbn [is_set or_null or_else].
    + destruct (String.eqb u ""); cbn [negb orb]; [|reflexivity].
      destruct owner as [o|]; cbn [is_set]; [|discriminate].
      destruct (String.eqb o ""); cbn [negb]; [discriminate|reflexivity].
    + destruct owner as [o|]; cbn [is_set orb]; [|discriminate].
      destruct (String.eqb o ""); cbn [negb]; [discriminate|reflexivity].
  - intros Hpages ->. cbn [is_set interpolate default].
    destruct pages as [u|]; cbn [is_set or_null or_else] in *.
    + destruct (String.eqb u ""); [|discriminate]. split; reflexivity.
    + split; reflexivity.
Qed.

Lemma config_reports_the_publishing_url_witness :
  is_set (GITHUB_TOKEN Node.env) = true
  /\ exists this,
       initGitHubPublisher Node.env = Some this
       /\ (is_set (GITHUB_PAGES_BASE_URL Node.env) || is_set (GITHUB_OWNER Node.env)
           = true ->
           get (res_body (api_config Node.env)) "pagesUrl"
           = JStr (pagesBaseUrl this))
       /\ (is_set (GITHUB_PAGES_BASE_URL Node.env) = false ->
           GITHUB_OWNER Node.env = None ->
           get (res_body (api_config Node.env)) "pagesUrl" = JNull
           /\ pagesBaseUrl this
              = "https://undefined.github.io/"
                  +:+ or_else (GITHUB_REPO Node.env) "LuminateSPS").
Proof.
  split; [reflexivity|].
  exact (config_reports_the_publishing_url Node.env eq_refl).
Defined.

Lemma has_key_assoc (k : string) (fields : list (string * JSValue)) :
  has_key k fields = false -> assoc k fields = JUndefined.
Proof.
  induction fields as [|[k' v] fields IH]; [reflexivity|].
  unfold has_key. cbn [existsb assoc fst].
  destruct (String.eqb k k'); [discriminate|]. exact IH.
Qed.

Lemma assoc_app (k : string) (l1 l2 : list (string * JSValue)) :
  assoc k (l1 ++ l2) = if has_key k l1 then assoc k l1 else assoc k l2.
Proof.
  induction l1 as [|[k1 v1] l1 IH]; [reflexivity|].
  unfold has_key in *. cbn [app assoc existsb fst].
  destruct (String.eqb k k1); [reflexivity|exact IH].
Qed.

(** Reading a key of [{ ...defaults, ...v }]. *)
Lemma assoc_spread (defaults : list (string * JSValue)) (v : JSValue)
    (k : string) :
  assoc k (spread defaults v)
  = if has_key k (own_entries v) then assoc k (own_entries v)
    else assoc k defaults.
Proof.
  unfold spread. generalize (own_entries v) as own. intros own.
  rewrite assoc_app.
  assert (has_key k (map (fun kd => (kd.1, if has_key kd.1 own
                                           then assoc kd.1 own else kd.2))
                       defaults)
          = has_key k defaults) as ->.
  { unfold has_key. induction defaults as [|[k' d] defaults IH];
      [reflexivity|]. cbn [map existsb fst]. by rewrite IH. }
  destruct (has_key k defaults) eqn:Hk.
  - induction defaults as [|[k' d] defaults IH]; [discriminate|].
    unfold has_key in Hk. cbn [existsb fst] in Hk. cbn [map assoc fst snd].
    destruct (String.eqb_spec k k') as [->|Hne]; [reflexivity|].
    exact (IH Hk).
  - assert (assoc k (List.filter (fun kv => negb (has_key kv.1 defaults)) own)
            = assoc k own) as ->.
    { induction own as [|[k0 v0] own IH]; [reflexivity|].
      cbn [List.filter fst].
      destruct (has_key k0 defaults) eqn:Hk0; cbn [negb assoc].
      - destruct (String.eqb_spec k k0) as [->|Hne]; [congruence|exact IH].
      - by rewrite IH. }
    destruct (has_key k own) eqn:Hown; [reflexivity|].
    by rewrite !has_key_assoc.
Qed.

Section PreviewFacts.
Context `{NodeRuntime} `{PreviewTemplate} `{Template}.
Variable env : ProcessEnv.

(** X14 (POST /api/preview): in the preview a field that the body gives
    under [property], [realtor] or [loanOfficer] always wins over the
    placeholder, whatever its value (also 0, the empty text or null); only
    a field the body does not have shows the placeholder. *)
Theorem preview_keeps_given_fields (data : JSValue) (section : string)
    (placeholders fields : list (string * JSValue)) (k : string) :
  (section, placeholders)
    ∈ [("property", property_placeholders);
       ("realtor", realtor_placeholders);
       ("loanOfficer", loanOfficer_placeholders)] ->
  get data section = JObj fields ->
  get (get (previewData env data) section) k
  = if has_key k fields then assoc k fields else assoc k placeholders.
Proof.
  intros Hsec Hfields.
  assert (get (previewData env data) section
          = JObj (spread placeholders (get data section))) as ->.
  { repeat (apply elem_of_cons in Hsec as [[= -> ->]|Hsec]; [reflexivity|]).
    by apply elem_of_nil in Hsec. }
  cbn [get]. rewrite assoc_spread, Hfields. reflexivity.
Qed.

(** X15 (POST /api/preview against POST /api/generate): for a body that
    passes the validation of the generate handler, the preview is rendered
    for the same slug under which the site would be published. *)
Theorem preview_uses_the_publish_slug (data : JSValue) :
  missingFields data = [] ->
  get (previewData env data) "propertySlug" = JStr (propertySlug_of data).
Proof.
  intros Hmiss.
  assert (forall field, field ∈ requiredFields ->
                        truthy (field_value data field) = true) as Hgiven.
  { intros field Hin. destruct (truthy (field_value data field)) eqn:Ht;
      [reflexivity|].
    assert (field ∈ missingFields data) as Hm
      by (apply missingFields_spec; by split).
    rewrite Hmiss in Hm. by apply elem_of_nil in Hm. }
  assert (truthy (get (get data "property") "address") = true) as Ha.
  { apply (Hgiven "property.address"). apply elem_of_cons. by left. }
  assert (truthy (get (get data "property") "city") = true) as Hc.
  { apply (Hgiven "property.city"). apply elem_of_cons. right.
    apply elem_of_cons. by left. }
  cbn [previewData get assoc String.eqb Ascii.eqb Bool.eqb].
  unfold preview_slug, propertySlug_of, or_value. by rewrite Ha, Hc.
Qed.
End PreviewFacts.

Lemma preview_keeps_given_fields_witness :
  (("property", property_placeholders)
     ∈ [("property", property_placeholders);
        ("realtor", realtor_placeholders);
        ("loanOfficer", loanOfficer_placeholders)]
   /\ get (JObj [("property", JObj [("bedrooms", JNum 0)])]) "property"
      = JObj [("bedrooms", JNum 0)])
  /\ get (get (previewData Node.env (JObj [("property", JObj [("bedrooms", JNum 0)])]))
            "property") "bedrooms" = JNum 0
  /\ get (get (previewData Node.env (JObj [("property", JObj [("bedrooms", JNum 0)])]))
            "property") "bathrooms" = JNum 2.
Proof.
  assert (("property", property_placeholders)
            ∈ [("property", property_placeholders);
               ("realtor", realtor_placeholders);
               ("loanOfficer", loanOfficer_placeholders)]) as Hin
    by (apply elem_of_cons; by left).
  split; [split; [exact Hin | reflexivity]|]. split.
  - exact (preview_keeps_given_fields Node.env
             (JObj [("property", JObj [("bedrooms", JNum 0)])]) "property"
             property_placeholders [("bedrooms", JNum 0)] "bedrooms" Hin eq_refl).
  - exact (preview_keeps_given_fields Node.env
             (JObj [("property", JObj [("bedrooms", JNum 0)])]) "property"
             property_placeholders [("bedrooms", JNum 0)] "bathrooms" Hin eq_refl).
Defined.

Lemma preview_uses_the_publish_slug_witness :
  missingFields (Node.request 3 []) = []
  /\ get (previewData Node.env (Node.request 3 [])) "propertySlug"
     = JStr "12-oak-ave-salem".
Proof.
  split; [reflexivity|].
  exact (preview_uses_the_publish_slug Node.env (Node.request 3 []) eq_refl).
Defined.

(** ** The single-file upload and the Pages status *)

Section SingleFacts.
Context `{NodeRuntime} {St : Type} (h : Single.Handler St).
Variable this : GitHubPublisher.

(** X16 (uploadFile): the upload of one file always issues exactly two
    calls, the lookup and the create-or-update.  Whatever error the lookup
    gives, not only a 404, is ignored; the sha of the lookup is passed on
    exactly when the lookup answered a file; and the upload ends as the
    create-or-update does. *)
Theorem upload_file_ignores_lookup_errors (path content message : string)
    (isBase64 : bool) (s : St) :
  let lookup := Single.GetContent path (branch this) in
  let sha := match (h lookup s).1 with
             | inr data => Single.sha_of data
             | inl _ => None
             end in
  let write :=
    Single.CreateOrUpdateFileContents path message
      (if isBase64 then content else toBase64 content) (branch this) sha in
  Single.run h (Single.uploadFile this path content message isBase64) s
  = Single.mkOutcome (h write (h lookup s).2).1 (h write (h lookup s).2).2
      [lookup; write].
Proof.
  cbn zeta. unfold Single.uploadFile. cbn.
  destruct (h (Single.GetContent path (branch this)) s) as [[e|data] s1]; cbn;
    match goal with
    | |- context [h ?w s1] => destruct (h w s1) as [[e'|v] s2]; reflexivity
    end.
Qed.

(** X17 (checkPagesStatus): the status check issues one call; a 404 is
    answered with [{ enabled: false }], every other rejection is thrown
    again, and a fulfilled call gives the URL and status of the answer. *)
Theorem pages_status_reads_404_as_disabled (s : St) :
  let o := Single.run h Single.checkPagesStatus s in
  Single.calls o = [Single.GetPages]
  /\ Single.final o = (h Single.GetPages s).2
  /\ (forall data, (h Single.GetPages s).1 = inr data ->
                   Single.result o
                   = inr (Single.Enabled (Single.html_url data)
                            (Single.pages_state data)))
  /\ (forall e, (h Single.GetPages s).1 = inl e -> status e = Some 404 ->
                Single.result o = inr Single.Disabled)
  /\ (forall e, (h Single.GetPages s).1 = inl e -> status e <> Some 404 ->
                Single.result o = inl e).
Proof.
  cbn zeta. unfold Single.checkPagesStatus. cbn.
  destruct (h Single.GetPages s) as [[e|data] s1]; cbn.
  - assert (status e = Some 404 \/ status e <> Some 404) as [Hst|Hst]
      by (destruct (decide (status e = Some 404)); [by left|by right]).
    + rewrite Hst. cbn. split_and!; try reflexivity; try discriminate.
      intros e' [= <-] Hne. by destruct Hne.
    + rewrite (status_other_than_404 _ _ _ Hst). cbn.
      split_and!; try reflexivity; try discriminate.
      * intros e' [= <-] Heq. by destruct Hst.
      * by intros e' [= <-] _.
  - split_and!; try reflexivity; try discriminate.
    by intros data' [= <-].
Qed.
End SingleFacts.
(** ** The blob calls of one publish *)

Section BlobCalls.
Context `{NodeRuntime} {St : Type} (h : Handler St).
Variable this : GitHubPublisher.

(** X18 (uploadMultipleFiles, Promise.all): once the branch and its commit
    are resolved, a blob is requested for every file, in file order, also
    when one of these requests is rejected; a rejected blob request ends
    the run after the last blob request, so that no tree, no commit and no
    branch update is asked for. *)
Theorem every_blob_is_requested (files : list FileSpec) (msg : string)
    (s0 s1 s2 : St) (c : Sha) (cd : GitCommit) :
  answers h s0 (GitGetRef (head_ref this)) c s1 ->
  answers h s1 (GitGetCommit c) cd s2 ->
  exists rest,
    requests (run h (uploadMultipleFiles this files msg) s0)
    = GitGetRef (head_ref this) :: GitGetCommit c
        :: map blob_request files ++ rest
    /\ (forall r s e,
          (r, s) ∈ log (run h (uploadMultipleFiles this files msg) s0) ->
          step_of r = 3 -> reply h r s = inl e ->
          rest = []
          /\ exists e', result (run h (uploadMultipleFiles this files msg) s0)
                        = inl e').
Proof.
  intros H1 H2. rewrite run_upload. unfold upload_outcome, reply, after.
  unfold answers in H1, H2. rewrite H1. cbn [fst snd]. rewrite H2.
  cbn [fst snd].
  destruct (collect (blobs_settled h files s2)) as [e|blobs] eqn:Hblobs.
  - exists []. split.
    + unfold requests. cbn [log]. rewrite fmap_app, blobs_log_requests.
      by rewrite app_nil_r.
    + intros r s e' _ _ _. split; [reflexivity|]. by exists e.
  - assert (forall r s e l,
              (r, s) ∈ ([(GitGetRef (head_ref this), s0); (GitGetCommit c, s1)]
                          ++ blobs_log h files s2) ++ l ->
              (forall r' s', (r', s') ∈ l -> step_of r' <> 3) ->
              step_of r = 3 -> reply h r s = inl e -> False) as Hnone.
    { intros r s e l Hin Hl Hstep Hrej.
      apply elem_of_app in Hin as [Hin|Hin]; [|exact (Hl r s Hin Hstep)].
      cbn [app] in Hin.
      apply elem_of_cons in Hin as [[= -> ->]|Hin]; [discriminate|].
      apply elem_of_cons in Hin as [[= -> ->]|Hin]; [discriminate|].
      destruct (blobs_created_fulfilled h files s2 blobs r s Hblobs Hin)
        as [v Hv].
      discriminate (eq_trans (eq_sym Hv) Hrej). }
    destruct (h (GitCreateTree (c_tree cd) blobs) _) as [[e|t] s4] eqn:H4;
      cbn [fst snd].
    { exists [GitCreateTree (c_tree cd) blobs]. split.
      - unfold requests. cbn [log].
        rewrite !fmap_app, blobs_log_requests, <- app_assoc. reflexivity.
      - intros r s e' Hin Hstep Hrej. exfalso.
        apply (Hnone r s e' _ Hin); [|done..].
        intros r' s' Hin'. apply elem_of_cons in Hin' as [[= -> ->]|Hin'];
          [discriminate|by apply elem_of_nil in Hin']. }
    match goal with
    | |- context [(h (GitCreateCommit msg t ?ps) s4).1] =>
        destruct (h (GitCreateCommit msg t ps) s4) as [[e|nc] s5] eqn:H5
    end; cbn [fst snd].
    { exists [GitCreateTree (c_tree cd) blobs; GitCreateCommit msg t [c]]. split.
      - unfold requests. cbn [log].
        rewrite !fmap_app, blobs_log_requests, <- app_assoc. reflexivity.
      - intros r s e' Hin Hstep Hrej. exfalso.
        apply (Hnone r s e' _ Hin); [|done..].
        intros r' s' Hin'.
        repeat (apply elem_of_cons in Hin' as [[= -> ->]|Hin'];
                [discriminate|]).
        by apply elem_of_nil in Hin'. }
    exists [GitCreateTree (c_tree cd) blobs; GitCreateCommit msg t [c];
            GitUpdateRef (head_ref this) (c_sha nc)].
    assert (forall r s e',
              (r, s) ∈ ([(GitGetRef (head_ref this), s0); (GitGetCommit c, s1)]
                          ++ blobs_log h files s2)
                       ++ [(GitCreateTree (c_tree cd) blobs, blobs_final h files s2);
                           (GitCreateCommit msg t [c], s4);
                           (GitUpdateRef (head_ref this) (c_sha nc), s5)] ->
              step_of r = 3 -> reply h r s = inl e' -> False) as Hno.
    { intros r s e' Hin Hstep Hrej.
      apply (Hnone r s e' _ Hin); [|done..].
      intros r' s' Hin'.
      repeat (apply elem_of_cons in Hin' as [[= -> ->]|Hin'];
              [discriminate|]).
      by apply elem_of_nil in Hin'. }
    destruct (h (GitUpdateRef (head_ref this) (c_sha nc)) s5) as [[e|[]] s6];
      cbn [fst snd]; (split;
        [unfold requests; cbn [log];
         rewrite !fmap_app, blobs_log_requests, <- app_assoc; reflexivity
        |intros r s e' Hin Hstep Hrej; exfalso;
         exact (Hno r s e' Hin Hstep Hrej)]).
Qed.
End BlobCalls.

(** ** Validation of a section that is no object *)

Section SectionShape.
Context `{NodeRuntime} `{Template} {St : Type} (h : Handler St).
Variable env : ProcessEnv.
Variable githubPublisher : option GitHubPublisher.

(** X19 (POST /api/generate, validation): a body whose [property],
    [realtor] or [loanOfficer] is not an object (a text, a number, an
    array, null) does not make the validation throw: every required field
    of that section is reported missing and the request is answered with
    400, without any call. *)
Theorem section_without_fields_is_missing (data : JSValue)
    (field section name : string) (s : St) :
  field ∈ requiredFields ->
  split_dot field = [section; name] ->
  (forall fields, get data section <> JObj fields) ->
  field ∈ missingFields data
  /\ run h (api_generate env githubPublisher data) s
     = mkOutcome (inr (validation_failure (missingFields data))) s [].
Proof.
  intros Hin Hsplit Hshape.
  assert (field ∈ missingFields data) as Hmiss.
  { apply missingFields_spec. split; [exact Hin|].
    unfold field_value. rewrite Hsplit. cbn [foldl].
    destruct (get data section) as [| | | | | |fields]; try reflexivity.
    by destruct (Hshape fields). }
  split; [exact Hmiss|].
  unfold api_generate. destruct (missingFields data) as [|f fs];
    [by apply elem_of_nil in Hmiss|reflexivity].
Qed.
End SectionShape.

Lemma every_blob_is_requested_witness :
  (answers Hosting.hosting Hosting.fresh (GitGetRef (head_ref Node.publisher)) 1
     Hosting.fresh
   /\ answers Hosting.hosting Hosting.fresh (GitGetCommit 1)
        (mkCommit 1 0 [] "Initial commit") Hosting.fresh)
  /\ exists rest,
       requests (run Hosting.hosting
                   (uploadMultipleFiles Node.publisher Node.first_publish "Add")
                   Hosting.fresh)
       = GitGetRef (head_ref Node.publisher) :: GitGetCommit 1
           :: map blob_request Node.first_publish ++ rest
       /\ (forall r s e,
             (r, s) ∈ log (run Hosting.hosting
                             (uploadMultipleFiles Node.publisher Node.first_publish
                                "Add")
                             Hosting.fresh) ->
             step_of r = 3 -> reply Hosting.hosting r s = inl e ->
             rest = []
             /\ exists e',
                  result (run Hosting.hosting
                            (uploadMultipleFiles Node.publisher Node.first_publish
                               "Add")
                            Hosting.fresh) = inl e').
Proof.
  split; [split; reflexivity|].
  exact (every_blob_is_requested Hosting.hosting Node.publisher
           Node.first_publish "Add" Hosting.fresh Hosting.fresh Hosting.fresh
           1 (mkCommit 1 0 [] "Initial commit") eq_refl eq_refl).
Defined.

Lemma section_without_fields_is_missing_witness :
  ("property.price" ∈ requiredFields
   /\ split_dot "property.price" = ["property"; "price"]
   /\ get (JObj [("property", JStr "a house")]) "property" = JStr "a house")
  /\ "property.price" ∈ missingFields (JObj [("property", JStr "a house")])
  /\ run Hosting.hosting
       (api_generate Node.env None (JObj [("property", JStr "a house")]))
       Hosting.fresh
     = mkOutcome
         (inr (validation_failure
                 (missingFields (JObj [("property", JStr "a house")]))))
         Hosting.fresh [].
Proof.
  assert ("property.price" ∈ requiredFields) as Hin
    by (do 4 (apply elem_of_cons; right); apply elem_of_cons; by left).
  split; [split_and!; [exact Hin | reflexivity | reflexivity]|].
  refine (section_without_fields_is_missing Hosting.hosting Node.env None
            (JObj [("property", JStr "a house")]) "property.price" "property"
            "price" Hosting.fresh Hin eq_refl _).
  discriminate.
Defined.
(** ** The form page *)

Section ClientFacts.
Context {File : Type} (fetch_upload : list File -> Client.UploadAnswer).

Lemma form_files_below_cap (uploadedPhotos : list Client.Photo)
    (files : list File) :
  length uploadedPhotos < 20 ->
  Client.form_files uploadedPhotos files = files.
Proof.
  intros Hlen. induction files as [|file files IH]; [reflexivity|].
  cbn [Client.form_files].
  destruct (Nat.leb_spec 20 (length uploadedPhotos)); [lia|]. by rewrite IH.
Qed.

(** X20 (handlePhotoFiles): the cap of 20 photos is checked against the
    photo list as it is before the upload, so a batch is never cut: below
    the cap every chosen file is sent, whatever their number, and every
    file the server stored is added to the list, which can then hold more
    than 20 photos; at the cap an empty form is sent. *)
Theorem photo_cap_is_checked_before_the_batch
    (uploadedPhotos : list Client.Photo) (files : list File)
    (uploaded : list Client.UploadedFile) :
  fetch_upload (Client.form_files uploadedPhotos files) = Some (true, uploaded) ->
  Client.form_files uploadedPhotos files
  = (if decide (length uploadedPhotos < 20) then files else [])
  /\ length (Client.handlePhotoFiles fetch_upload uploadedPhotos files)
     = length uploadedPhotos + length uploaded.
Proof.
  intros Hanswer. split.
  - case_decide as Hlen; [by apply form_files_below_cap|].
    destruct files as [|file files]; [reflexivity|]. cbn [Client.form_files].
    destruct (Nat.leb_spec 20 (length uploadedPhotos)); [reflexivity|lia].
  - unfold Client.handlePhotoFiles. rewrite Hanswer.
    by rewrite length_app, length_map.
Qed.
End ClientFacts.

Lemma photo_cap_is_checked_before_the_batch_witness :
  Client.form_files (replicate 19 (Client.mkPhoto "/uploads/a.jpg" "" "/uploads/a.jpg"))
    ["b.jpg"; "c.jpg"; "d.jpg"]
  = ["b.jpg"; "c.jpg"; "d.jpg"]
  /\ length (Client.handlePhotoFiles
               (fun sent => Some (true, map (fun name => Client.mkUploaded ("/uploads/" +:+ name)) sent))
               (replicate 19 (Client.mkPhoto "/uploads/a.jpg" "" "/uploads/a.jpg"))
               ["b.jpg"; "c.jpg"; "d.jpg"])
     = 19 + 3.
Proof.
  exact (photo_cap_is_checked_before_the_batch
           (fun sent => Some (true, map (fun name => Client.mkUploaded ("/uploads/" +:+ name)) sent))
           (replicate 19 (Client.mkPhoto "/uploads/a.jpg" "" "/uploads/a.jpg"))
           ["b.jpg"; "c.jpg"; "d.jpg"]
           [Client.mkUploaded "/uploads/b.jpg"; Client.mkUploaded "/uploads/c.jpg";
            Client.mkUploaded "/uploads/d.jpg"]
           eq_refl).
Defined.


Section PageRequests.
Context `{NodeRuntime} {St : Type} (h : Handler St).

Lemma process_photo_returns (acc : list Photo) (x : JSValue) (s : St) :
  x <> JNull -> x <> JUndefined ->
  exists acc', result (run h (process_photo acc x) s) = inr acc'.
Proof.
  intros Hnull Hundef. unfold process_photo. rewrite run_bind.
  destruct x as [| | | | | |fields]; try contradiction;
    cbn [read run result final log get truthy]; try by eexists.
  destruct (truthy (assoc "url" fields)); [by eexists|].
  destruct (truthy (assoc "path" fields)); [|by eexists].
  rewrite run_try_catch.
  destruct (result (run h (read_photo acc (JObj fields)) s)); by eexists.
Qed.

Lemma process_photos_return (acc : list Photo) (todo : list JSValue) (s : St) :
  JNull ∉ todo -> JUndefined ∉ todo ->
  exists photos, result (run h (process_photos acc todo) s) = inr photos.
Proof.
  revert acc s. induction todo as [|x xs IH]; intros acc s Hnull Hundef.
  - by eexists.
  - change (process_photos acc (x :: xs))
      with (photos' <- process_photo acc x ;; process_photos photos' xs).
    rewrite run_bind.
    destruct (process_photo_returns acc x s) as [acc' ->].
    + intros ->. apply Hnull, elem_of_cons. by left.
    + intros ->. apply Hundef, elem_of_cons. by left.
    + cbn [result]. apply IH.
      * intros Hin. apply Hnull, elem_of_cons. by right.
      * intros Hin. apply Hundef, elem_of_cons. by right.
Qed.

(** X21 (getFormData against the photo loop of POST /api/generate): the
    photo loop throws only on a null entry, and the page never sends one:
    for the photos that the page puts in the body, whatever is on the
    disk, the loop returns a photo list, of at most one photo per entry. *)
Theorem page_photos_never_fail_the_loop (data : JSValue)
    (uploadedPhotos : list Client.Photo) (s : St) :
  get data "photos" = Client.form_photos uploadedPhotos ->
  exists photos,
    result (run h (collect_photos data) s) = inr photos
    /\ length photos <= length uploadedPhotos.
Proof.
  intros Hphotos.
  assert (forall x, x ∈ map (fun photo =>
                               JObj [("path", JStr (Client.path photo));
                                     ("label", JStr (Client.label photo))])
                          uploadedPhotos ->
                    exists fields, x = JObj fields) as Hobj.
  { intros x Hin. apply list_elem_of_fmap in Hin as (photo & -> & _).
    by eexists. }
  unfold Client.form_photos in Hphotos.
  assert (JNull ∉ map (fun photo =>
                         JObj [("path", JStr (Client.path photo));
                               ("label", JStr (Client.label photo))])
                    uploadedPhotos) as Hnull.
  { intros Hin. by destruct (Hobj _ Hin). }
  assert (JUndefined ∉ map (fun photo =>
                              JObj [("path", JStr (Client.path photo));
                                    ("label", JStr (Client.label photo))])
                         uploadedPhotos) as Hundef.
  { intros Hin. by destruct (Hobj _ Hin). }
  destruct (process_photos_return [] _ s Hnull Hundef) as [photos Hres].
  exists photos. split.
  - unfold collect_photos. rewrite Hphotos. cbn [truthy isArray andb iterate].
    rewrite run_bind. cbn [run result final log]. by rewrite Hres.
  - destruct (process_photos_steps h [] _ s photos Hres)
      as (added & -> & _ & Hsub).
    apply sublist_length in Hsub. by rewrite !length_fmap in Hsub.
Qed.
End PageRequests.

Lemma page_photos_never_fail_the_loop_witness :
  get (Node.request 3 [Node.lost_photo]) "photos"
  = Client.form_photos [Client.mkPhoto "/uploads/1700000000-42.jpg" "Front"
                          "/uploads/1700000000-42.jpg"]
  /\ exists photos,
       result (run Hosting.hosting (collect_photos (Node.request 3 [Node.lost_photo]))
                 Hosting.fresh) = inr photos
       /\ length photos
          <= length [Client.mkPhoto "/uploads/1700000000-42.jpg" "Front"
                       "/uploads/1700000000-42.jpg"].
Proof.
  split; [reflexivity|].
  exact (page_photos_never_fail_the_loop Hosting.hosting
           (Node.request 3 [Node.lost_photo])
           [Client.mkPhoto "/uploads/1700000000-42.jpg" "Front"
              "/uploads/1700000000-42.jpg"]
           Hosting.fresh eq_refl).
Defined.

(** ** The photo that cannot be read *)

Section DroppedPhotoOutcome.
Context `{NodeRuntime} `{Template} {St : Type} (h : Handler St).



End DroppedPhotoOutcome.


